(** * itpey/totp: a shallow embedding of the TOTP engine

    The development follows the two Go files of the package:
    [config.go] (the [Config] record, the [Algorithm] enumeration and its
    [hash] constructor, the resolver [configDefault]) and [totp.go]
    ([New], [GenerateForTime], [formatCode], [ValidateForTime],
    [isValidInteger]).

    The Go standard-library packages the engine calls ([crypto/*],
    [encoding/base32], [unicode], [unicode/utf8], [crypto/subtle]) are
    modelled first, each in a module carrying the package's name, as
    executable functions over bytes, and checked against published
    known-answer vectors.

    Conventions:
    - a Go [string] is a Rocq [string] (both are finite byte sequences);
    - a [[]byte] is a [list Z] of values in [0, 256);
    - [int] and [int64] are [Z] with the 64-bit wrap-around written out
      ([int64]); [byte(x)] is [x mod 256];
    - a Go call either returns or panics: [outcome]. *)

From Stdlib Require Import ZArith String Ascii List Bool Lia.
Import ListNotations.
Local Open Scope Z_scope.

(** ** Go values and control *)

(** A call returns a value or panics with a message. *)
Inductive outcome (A : Type) : Type :=
| Returns (a : A)
| Panics (msg : string).
Arguments Returns {A} a.
Arguments Panics {A} msg.

Definition bind {A B : Type} (m : outcome A) (k : A -> outcome B) : outcome B :=
  match m with
  | Returns a => k a
  | Panics msg => Panics msg
  end.

Notation "x <- m ;; k" := (bind m (fun x => k))
  (at level 61, m at next level, right associativity).
Notation "' p <- m ;; k" := (bind m (fun p => k))
  (at level 61, p pattern, m at next level, right associativity).

(** Go's [error] interface value: [nil] or an error carrying its text. *)
Definition error : Type := option string.
Definition nil_error : error := None.

Definition byte (x : Z) : Z := x mod 256.
Definition uint32 (x : Z) : Z := x mod 2 ^ 32.
Definition uint64 (x : Z) : Z := x mod 2 ^ 64.
(** Two's-complement wrap-around of a 64-bit signed integer. *)
Definition int64 (x : Z) : Z := (x + 2 ^ 63) mod 2 ^ 64 - 2 ^ 63.
Definition MaxInt64 : Z := 2 ^ 63 - 1.
Definition MinInt64 : Z := - 2 ^ 63.
Definition is_int64 (x : Z) : Prop := MinInt64 <= x <= MaxInt64.

(** [[]byte(s)] and [string(b)]. *)
Definition bytes_of_string (s : string) : list Z :=
  map (fun c => Z.of_N (N_of_ascii c)) (list_ascii_of_string s).
Definition string_of_bytes (b : list Z) : string :=
  string_of_list_ascii (map (fun x => ascii_of_N (Z.to_N (byte x))) b).

(** Indexing a slice panics when the index is out of range. *)
Definition index (s : list Z) (i : Z) : outcome Z :=
  if (0 <=? i) && (i <? Z.of_nat (length s))
  then Returns (nth (Z.to_nat i) s 0)
  else Panics "runtime error: index out of range".

(** [s[i] = v]: panics out of range, otherwise replaces the element. *)
Fixpoint set_nth (s : list Z) (n : nat) (v : Z) : list Z :=
  match s, n with
  | [], _ => []
  | _ :: tl, O => v :: tl
  | x :: tl, S k => x :: set_nth tl k v
  end.

Definition store (s : list Z) (i : Z) (v : Z) : outcome (list Z) :=
  if (0 <=? i) && (i <? Z.of_nat (length s))
  then Returns (set_nth s (Z.to_nat i) v)
  else Panics "runtime error: index out of range".

(** ** Byte-order helpers shared by the digest models *)

Fixpoint be_bytes (n : nat) (x : Z) : list Z :=
  match n with
  | O => []
  | S k => byte (Z.shiftr x (8 * Z.of_nat k)) :: be_bytes k x
  end.

Fixpoint le_bytes (n : nat) (x : Z) : list Z :=
  match n with
  | O => []
  | S k => byte x :: le_bytes k (Z.shiftr x 8)
  end.

Definition be_uint (bs : list Z) : Z := fold_left (fun acc b => acc * 256 + b) bs 0.
Definition le_uint (bs : list Z) : Z := fold_right (fun b acc => b + 256 * acc) 0 bs.

Fixpoint chunks_fuel {A : Type} (fuel n : nat) (l : list A) : list (list A) :=
  match fuel with
  | O => []
  | S f =>
      match l with
      | [] => []
      | _ => firstn n l :: chunks_fuel f n (skipn n l)
      end
  end.

(** Consecutive blocks of [n] elements (the last one may be shorter). *)
Definition chunks {A : Type} (n : nat) (l : list A) : list (list A) :=
  chunks_fuel (length l) n l.

Definition rotl32 (x n : Z) : Z :=
  uint32 (Z.lor (Z.shiftl x n) (Z.shiftr x (32 - n))).
Definition rotr32 (x n : Z) : Z := rotl32 x (32 - n).
Definition rotl64 (x n : Z) : Z :=
  uint64 (Z.lor (Z.shiftl x n) (Z.shiftr x (64 - n))).
Definition rotr64 (x n : Z) : Z := rotl64 x (64 - n).
Definition not32 (x : Z) : Z := Z.lxor x (2 ^ 32 - 1).
Definition not64 (x : Z) : Z := Z.lxor x (2 ^ 64 - 1).

Definition hex_digit (d : Z) : ascii :=
  ascii_of_N (Z.to_N (if d <? 10 then 48 + d else 87 + d)).

(** Lower-case hexadecimal rendering of a byte sequence (for the vectors). *)
Definition hex (bs : list Z) : string :=
  string_of_list_ascii
    (flat_map (fun b => [hex_digit (Z.shiftr b 4); hex_digit (Z.land b 15)]) bs).

(** Merkle-Damgard padding: a 0x80 byte, zeros up to [block - lenbytes]
    modulo [block], then the bit length on [lenbytes] bytes. *)
Definition md_pad (block lenbytes : nat) (enc : nat -> Z -> list Z) (msg : list Z)
  : list Z :=
  let l := Z.of_nat (length msg) in
  let b := Z.of_nat block in
  let k := (b - Z.of_nat lenbytes - 1 - l) mod b in
  msg ++ 128 :: repeat 0 (Z.to_nat k) ++ enc lenbytes (8 * l).

(** The [hash.Hash] interface as the engine uses it: the digest size, the
    block size, and the digest of a whole message ([Reset], [Write]s and
    [Sum(nil)] together). *)
Record Hash : Type := mkHash {
  Size : nat;
  BlockSize : nat;
  Sum : list Z -> list Z
}.

(** ** crypto/sha1 (FIPS 180-4) *)
Module sha1.

Definition init : Z * Z * Z * Z * Z :=
  (0x67452301, 0xEFCDAB89, 0x98BADCFE, 0x10325476, 0xC3D2E1F0).

Definition next_word (w : list Z) : Z :=
  let n := length w in
  rotl32 (Z.lxor (Z.lxor (nth (n - 3) w 0) (nth (n - 8) w 0))
                 (Z.lxor (nth (n - 14) w 0) (nth (n - 16) w 0))) 1.

Fixpoint schedule (k : nat) (w : list Z) : list Z :=
  match k with
  | O => w
  | S k' => schedule k' (w ++ [next_word w])
  end.

Definition f (t b c d : Z) : Z :=
  if t <? 20 then Z.lor (Z.land b c) (Z.land (not32 b) d)
  else if t <? 40 then Z.lxor (Z.lxor b c) d
  else if t <? 60 then Z.lor (Z.lor (Z.land b c) (Z.land b d)) (Z.land c d)
  else Z.lxor (Z.lxor b c) d.

Definition K (t : Z) : Z :=
  if t <? 20 then 0x5A827999
  else if t <? 40 then 0x6ED9EBA1
  else if t <? 60 then 0x8F1BBCDC
  else 0xCA62C1D6.

Definition round (s : Z * Z * Z * Z * Z) (tw : nat * Z) : Z * Z * Z * Z * Z :=
  let '(a, b, c, d, e) := s in
  let t := Z.of_nat (fst tw) in
  let tmp := uint32 (rotl32 a 5 + f t b c d + e + snd tw + K t) in
  (tmp, a, rotl32 b 30, c, d).

Definition block (h : Z * Z * Z * Z * Z) (p : list Z) : Z * Z * Z * Z * Z :=
  let w := schedule 64 (map be_uint (chunks 4 p)) in
  let '(a, b, c, d, e) := fold_left round (combine (seq 0 80) w) h in
  let '(h0, h1, h2, h3, h4) := h in
  (uint32 (h0 + a), uint32 (h1 + b), uint32 (h2 + c), uint32 (h3 + d),
   uint32 (h4 + e)).

Definition Sum (msg : list Z) : list Z :=
  let '(h0, h1, h2, h3, h4) :=
    fold_left block (chunks 64 (md_pad 64 8 be_bytes msg)) init in
  flat_map (be_bytes 4) [h0; h1; h2; h3; h4].

Definition New : Hash := mkHash 20 64 Sum.

End sha1.

(** ** crypto/sha256 and crypto/sha512 (FIPS 180-4)

    The two families share one compression function, parameterised by the
    word width, the round constants and the rotation amounts. *)
Module sha2.
Section Core.

Variable wb : nat.                      (* bytes per word: 4 or 8 *)
Variable K : list Z.                    (* round constants *)
Variables bs0 bs1 ss0 ss1 : Z * Z * Z.  (* rotation and shift amounts *)

Definition bits : Z := 8 * Z.of_nat wb.
Definition trunc (x : Z) : Z := x mod 2 ^ bits.
Definition rotr (x n : Z) : Z :=
  trunc (Z.lor (Z.shiftr x n) (Z.shiftl x (bits - n))).

Definition bsig (r : Z * Z * Z) (x : Z) : Z :=
  let '(a, b, c) := r in Z.lxor (Z.lxor (rotr x a) (rotr x b)) (rotr x c).
Definition ssig (r : Z * Z * Z) (x : Z) : Z :=
  let '(a, b, c) := r in Z.lxor (Z.lxor (rotr x a) (rotr x b)) (Z.shiftr x c).

Definition Ch (x y z : Z) : Z :=
  Z.lxor (Z.land x y) (Z.land (Z.lxor x (2 ^ bits - 1)) z).
Definition Maj (x y z : Z) : Z :=
  Z.lxor (Z.lxor (Z.land x y) (Z.land x z)) (Z.land y z).

Definition next_word (w : list Z) : Z :=
  let n := length w in
  trunc (ssig ss1 (nth (n - 2) w 0) + nth (n - 7) w 0
         + ssig ss0 (nth (n - 15) w 0) + nth (n - 16) w 0).

Fixpoint schedule (k : nat) (w : list Z) : list Z :=
  match k with
  | O => w
  | S k' => schedule k' (w ++ [next_word w])
  end.

Definition vars : Type := Z * Z * Z * Z * Z * Z * Z * Z.

Definition round (s : vars) (kw : Z * Z) : vars :=
  let '(a, b, c, d, e, f, g, h) := s in
  let t1 := trunc (h + bsig bs1 e + Ch e f g + fst kw + snd kw) in
  let t2 := trunc (bsig bs0 a + Maj a b c) in
  (trunc (t1 + t2), a, b, c, trunc (d + t1), e, f, g).

Definition block (h : list Z) (p : list Z) : list Z :=
  let w := schedule (length K - 16) (map be_uint (chunks wb p)) in
  let x := fun i => nth i h 0 in
  let '(a, b, c, d, e, f, g, hh) :=
    fold_left round (combine K w) (x 0, x 1, x 2, x 3, x 4, x 5, x 6, x 7)%nat in
  [trunc (x 0%nat + a); trunc (x 1%nat + b); trunc (x 2%nat + c);
   trunc (x 3%nat + d); trunc (x 4%nat + e); trunc (x 5%nat + f);
   trunc (x 6%nat + g); trunc (x 7%nat + hh)].

Definition digest (iv : list Z) (outlen : nat) (msg : list Z) : list Z :=
  firstn outlen
    (flat_map (be_bytes wb)
       (fold_left block
          (chunks (16 * wb) (md_pad (16 * wb) (2 * wb) be_bytes msg)) iv)).

End Core.
End sha2.

Module sha256.

Definition K : list Z :=
  [0x428A2F98; 0x71374491; 0xB5C0FBCF; 0xE9B5DBA5; 0x3956C25B; 0x59F111F1;
   0x923F82A4; 0xAB1C5ED5; 0xD807AA98; 0x12835B01; 0x243185BE; 0x550C7DC3;
   0x72BE5D74; 0x80DEB1FE; 0x9BDC06A7; 0xC19BF174; 0xE49B69C1; 0xEFBE4786;
   0x0FC19DC6; 0x240CA1CC; 0x2DE92C6F; 0x4A7484AA; 0x5CB0A9DC; 0x76F988DA;
   0x983E5152; 0xA831C66D; 0xB00327C8; 0xBF597FC7; 0xC6E00BF3; 0xD5A79147;
   0x06CA6351; 0x14292967; 0x27B70A85; 0x2E1B2138; 0x4D2C6DFC; 0x53380D13;
   0x650A7354; 0x766A0ABB; 0x81C2C92E; 0x92722C85; 0xA2BFE8A1; 0xA81A664B;
   0xC24B8B70; 0xC76C51A3; 0xD192E819; 0xD6990624; 0xF40E3585; 0x106AA070;
   0x19A4C116; 0x1E376C08; 0x2748774C; 0x34B0BCB5; 0x391C0CB3; 0x4ED8AA4A;
   0x5B9CCA4F; 0x682E6FF3; 0x748F82EE; 0x78A5636F; 0x84C87814; 0x8CC70208;
   0x90BEFFFA; 0xA4506CEB; 0xBEF9A3F7; 0xC67178F2].

Definition init256 : list Z :=
  [0x6A09E667; 0xBB67AE85; 0x3C6EF372; 0xA54FF53A;
   0x510E527F; 0x9B05688C; 0x1F83D9AB; 0x5BE0CD19].

Definition init224 : list Z :=
  [0xC1059ED8; 0x367CD507; 0x3070DD17; 0xF70E5939;
   0xFFC00B31; 0x68581511; 0x64F98FA7; 0xBEFA4FA4].

Definition digest : list Z -> nat -> list Z -> list Z :=
  sha2.digest 4 K (2, 13, 22) (6, 11, 25) (7, 18, 3) (17, 19, 10).

Definition Sum256 (msg : list Z) : list Z := digest init256 32 msg.
Definition Sum224 (msg : list Z) : list Z := digest init224 28 msg.

Definition New : Hash := mkHash 32 64 Sum256.
Definition New224 : Hash := mkHash 28 64 Sum224.

End sha256.

Module sha512.

Definition K : list Z :=
  [0x428A2F98D728AE22; 0x7137449123EF65CD; 0xB5C0FBCFEC4D3B2F;
   0xE9B5DBA58189DBBC; 0x3956C25BF348B538; 0x59F111F1B605D019;
   0x923F82A4AF194F9B; 0xAB1C5ED5DA6D8118; 0xD807AA98A3030242;
   0x12835B0145706FBE; 0x243185BE4EE4B28C; 0x550C7DC3D5FFB4E2;
   0x72BE5D74F27B896F; 0x80DEB1FE3B1696B1; 0x9BDC06A725C71235;
   0xC19BF174CF692694; 0xE49B69C19EF14AD2; 0xEFBE4786384F25E3;
   0x0FC19DC68B8CD5B5; 0x240CA1CC77AC9C65; 0x2DE92C6F592B0275;
   0x4A7484AA6EA6E483; 0x5CB0A9DCBD41FBD4; 0x76F988DA831153B5;
   0x983E5152EE66DFAB; 0xA831C66D2DB43210; 0xB00327C898FB213F;
   0xBF597FC7BEEF0EE4; 0xC6E00BF33DA88FC2; 0xD5A79147930AA725;
   0x06CA6351E003826F; 0x142929670A0E6E70; 0x27B70A8546D22FFC;
   0x2E1B21385C26C926; 0x4D2C6DFC5AC42AED; 0x53380D139D95B3DF;
   0x650A73548BAF63DE; 0x766A0ABB3C77B2A8; 0x81C2C92E47EDAEE6;
   0x92722C851482353B; 0xA2BFE8A14CF10364; 0xA81A664BBC423001;
   0xC24B8B70D0F89791; 0xC76C51A30654BE30; 0xD192E819D6EF5218;
   0xD69906245565A910; 0xF40E35855771202A; 0x106AA07032BBD1B8;
   0x19A4C116B8D2D0C8; 0x1E376C085141AB53; 0x2748774CDF8EEB99;
   0x34B0BCB5E19B48A8; 0x391C0CB3C5C95A63; 0x4ED8AA4AE3418ACB;
   0x5B9CCA4F7763E373; 0x682E6FF3D6B2B8A3; 0x748F82EE5DEFB2FC;
   0x78A5636F43172F60; 0x84C87814A1F0AB72; 0x8CC702081A6439EC;
   0x90BEFFFA23631E28; 0xA4506CEBDE82BDE9; 0xBEF9A3F7B2C67915;
   0xC67178F2E372532B; 0xCA273ECEEA26619C; 0xD186B8C721C0C207;
   0xEADA7DD6CDE0EB1E; 0xF57D4F7FEE6ED178; 0x06F067AA72176FBA;
   0x0A637DC5A2C898A6; 0x113F9804BEF90DAE; 0x1B710B35131C471B;
   0x28DB77F523047D84; 0x32CAAB7B40C72493; 0x3C9EBE0A15C9BEBC;
   0x431D67C49C100D4C; 0x4CC5D4BECB3E42B6; 0x597F299CFC657E2A;
   0x5FCB6FAB3AD6FAEC; 0x6C44198C4A475817].

Definition init512 : list Z :=
  [0x6A09E667F3BCC908; 0xBB67AE8584CAA73B;
   0x3C6EF372FE94F82B; 0xA54FF53A5F1D36F1;
   0x510E527FADE682D1; 0x9B05688C2B3E6C1F;
   0x1F83D9ABFB41BD6B; 0x5BE0CD19137E2179].

Definition init384 : list Z :=
  [0xCBBB9D5DC1059ED8; 0x629A292A367CD507;
   0x9159015A3070DD17; 0x152FECD8F70E5939;
   0x67332667FFC00B31; 0x8EB44A8768581511;
   0xDB0C2E0D64F98FA7; 0x47B5481DBEFA4FA4].

Definition digest : list Z -> nat -> list Z -> list Z :=
  sha2.digest 8 K (28, 34, 39) (14, 18, 41) (1, 8, 7) (19, 61, 6).

Definition Sum512 (msg : list Z) : list Z := digest init512 64 msg.
Definition Sum384 (msg : list Z) : list Z := digest init384 48 msg.

Definition New : Hash := mkHash 64 128 Sum512.
Definition New384 : Hash := mkHash 48 128 Sum384.

End sha512.

(** ** crypto/md5 (RFC 1321) *)
Module md5.

Definition T : list Z :=
  [0xD76AA478; 0xE8C7B756; 0x242070DB; 0xC1BDCEEE; 0xF57C0FAF; 0x4787C62A;
   0xA8304613; 0xFD469501; 0x698098D8; 0x8B44F7AF; 0xFFFF5BB1; 0x895CD7BE;
   0x6B901122; 0xFD987193; 0xA679438E; 0x49B40821; 0xF61E2562; 0xC040B340;
   0x265E5A51; 0xE9B6C7AA; 0xD62F105D; 0x02441453; 0xD8A1E681; 0xE7D3FBC8;
   0x21E1CDE6; 0xC33707D6; 0xF4D50D87; 0x455A14ED; 0xA9E3E905; 0xFCEFA3F8;
   0x676F02D9; 0x8D2A4C8A; 0xFFFA3942; 0x8771F681; 0x6D9D6122; 0xFDE5380C;
   0xA4BEEA44; 0x4BDECFA9; 0xF6BB4B60; 0xBEBFBC70; 0x289B7EC6; 0xEAA127FA;
   0xD4EF3085; 0x04881D05; 0xD9D4D039; 0xE6DB99E5; 0x1FA27CF8; 0xC4AC5665;
   0xF4292244; 0x432AFF97; 0xAB9423A7; 0xFC93A039; 0x655B59C3; 0x8F0CCC92;
   0xFFEFF47D; 0x85845DD1; 0x6FA87E4F; 0xFE2CE6E0; 0xA3014314; 0x4E0811A1;
   0xF7537E82; 0xBD3AF235; 0x2AD7D2BB; 0xEB86D391].

Definition shifts : list Z :=
  [7; 12; 17; 22; 7; 12; 17; 22; 7; 12; 17; 22; 7; 12; 17; 22;
   5; 9; 14; 20; 5; 9; 14; 20; 5; 9; 14; 20; 5; 9; 14; 20;
   4; 11; 16; 23; 4; 11; 16; 23; 4; 11; 16; 23; 4; 11; 16; 23;
   6; 10; 15; 21; 6; 10; 15; 21; 6; 10; 15; 21; 6; 10; 15; 21].

Definition init : Z * Z * Z * Z :=
  (0x67452301, 0xEFCDAB89, 0x98BADCFE, 0x10325476).

Definition round (m : list Z) (s : Z * Z * Z * Z) (i : nat) : Z * Z * Z * Z :=
  let '(a, b, c, d) := s in
  let z := Z.of_nat i in
  let '(f, g) :=
    if z <? 16 then (Z.lor (Z.land b c) (Z.land (not32 b) d), z)
    else if z <? 32 then (Z.lor (Z.land d b) (Z.land (not32 d) c), (5 * z + 1) mod 16)
    else if z <? 48 then (Z.lxor (Z.lxor b c) d, (3 * z + 5) mod 16)
    else (Z.lxor c (Z.lor b (not32 d)), (7 * z) mod 16) in
  let x := uint32 (f + a + nth i T 0 + nth (Z.to_nat g) m 0) in
  (d, uint32 (b + rotl32 x (nth i shifts 0)), b, c).

Definition block (h : Z * Z * Z * Z) (p : list Z) : Z * Z * Z * Z :=
  let m := map le_uint (chunks 4 p) in
  let '(a, b, c, d) := fold_left (round m) (seq 0 64) h in
  let '(h0, h1, h2, h3) := h in
  (uint32 (h0 + a), uint32 (h1 + b), uint32 (h2 + c), uint32 (h3 + d)).

Definition Sum (msg : list Z) : list Z :=
  let '(h0, h1, h2, h3) :=
    fold_left block (chunks 64 (md_pad 64 8 le_bytes msg)) init in
  flat_map (le_bytes 4) [h0; h1; h2; h3].

Definition New : Hash := mkHash 16 64 Sum.

End md5.

(** ** crypto/sha3 (FIPS 202)

    The state is the list of the 25 lanes, lane [(x, y)] at position
    [x + 5 * y]. *)
Module sha3.

Definition RC : list Z :=
  [0x0000000000000001; 0x0000000000008082; 0x800000000000808A;
   0x8000000080008000; 0x000000000000808B; 0x0000000080000001;
   0x8000000080008081; 0x8000000000008009; 0x000000000000008A;
   0x0000000000000088; 0x0000000080008009; 0x000000008000000A;
   0x000000008000808B; 0x800000000000008B; 0x8000000000008089;
   0x8000000000008003; 0x8000000000008002; 0x8000000000000080;
   0x000000000000800A; 0x800000008000000A; 0x8000000080008081;
   0x8000000000008080; 0x0000000080000001; 0x8000000080008008].

Definition rotc : list Z :=
  [0; 1; 62; 28; 27; 36; 44; 6; 55; 20; 3; 10; 43; 25; 39;
   41; 45; 15; 21; 8; 18; 2; 61; 56; 14].

Definition lane (s : list Z) (x y : nat) : Z :=
  nth ((x mod 5) + 5 * (y mod 5)) s 0.

Definition theta (s : list Z) : list Z :=
  let c := map (fun x =>
                  Z.lxor (Z.lxor (Z.lxor (lane s x 0) (lane s x 1))
                                 (Z.lxor (lane s x 2) (lane s x 3)))
                         (lane s x 4)) (seq 0 5) in
  let d := map (fun x =>
                  Z.lxor (nth ((x + 4) mod 5) c 0)
                         (rotl64 (nth ((x + 1) mod 5) c 0) 1)) (seq 0 5) in
  map (fun i => Z.lxor (nth i s 0) (nth (i mod 5) d 0)) (seq 0 25).

(** Lane [(X, Y)] of the result is lane [(x, y)] of the argument rotated,
    where [X = y] and [Y = 2x + 3y]. *)
Definition rho_pi (s : list Z) : list Z :=
  map (fun i =>
         let X := (i mod 5)%nat in
         let Y := (i / 5)%nat in
         let x := ((X + 3 * Y) mod 5)%nat in
         rotl64 (lane s x X) (nth (x + 5 * X) rotc 0)) (seq 0 25).

Definition chi (s : list Z) : list Z :=
  map (fun i =>
         let x := (i mod 5)%nat in
         let y := (i / 5)%nat in
         Z.lxor (lane s x y)
                (Z.land (not64 (lane s (x + 1) y)) (lane s (x + 2) y)))
      (seq 0 25).

Definition iota (s : list Z) (rc : Z) : list Z :=
  map (fun i => if Nat.eqb i 0 then Z.lxor (nth i s 0) rc else nth i s 0)
      (seq 0 25).

Definition round (s : list Z) (rc : Z) : list Z :=
  iota (chi (rho_pi (theta s))) rc.

Definition keccakF1600 (s : list Z) : list Z := fold_left round RC s.

Definition absorb (s : list Z) (p : list Z) : list Z :=
  let lanes := map le_uint (chunks 8 p) in
  keccakF1600 (map (fun i => Z.lxor (nth i s 0) (nth i lanes 0)) (seq 0 25)).

(** Domain bits 01 and the pad10*1 rule, on whole bytes. *)
Definition pad (rate : nat) (msg : list Z) : list Z :=
  let q := (rate - length msg mod rate)%nat in
  if Nat.eqb q 1 then msg ++ [0x86]
  else msg ++ 0x06 :: repeat 0 (q - 2) ++ [0x80].

Definition digest (rate outlen : nat) (msg : list Z) : list Z :=
  firstn outlen
    (flat_map (le_bytes 8)
       (fold_left absorb (chunks rate (pad rate msg)) (repeat 0 25%nat))).

Definition New224 : Hash := mkHash 28 144 (digest 144 28).
Definition New256 : Hash := mkHash 32 136 (digest 136 32).
Definition New384 : Hash := mkHash 48 104 (digest 104 48).
Definition New512 : Hash := mkHash 64 72 (digest 72 64).

End sha3.

(** ** golang.org/x/crypto/blake2s and blake2b (RFC 7693), unkeyed *)
Module blake2.
Section Core.

Variable wb : nat.               (* bytes per word: 4 (BLAKE2s) or 8 (BLAKE2b) *)
Variable rounds : nat.
Variable R : Z * Z * Z * Z.      (* the four right-rotation amounts of G *)
Variable IV : list Z.

Definition bits : Z := 8 * Z.of_nat wb.
Definition trunc (x : Z) : Z := x mod 2 ^ bits.
Definition rotr (x n : Z) : Z :=
  trunc (Z.lor (Z.shiftr x n) (Z.shiftl x (bits - n))).

Definition SIGMA : list (list nat) :=
  [[0; 1; 2; 3; 4; 5; 6; 7; 8; 9; 10; 11; 12; 13; 14; 15];
   [14; 10; 4; 8; 9; 15; 13; 6; 1; 12; 0; 2; 11; 7; 5; 3];
   [11; 8; 12; 0; 5; 2; 15; 13; 10; 14; 3; 6; 7; 1; 9; 4];
   [7; 9; 3; 1; 13; 12; 11; 14; 2; 6; 5; 10; 4; 0; 15; 8];
   [9; 0; 5; 7; 2; 4; 10; 15; 14; 1; 11; 12; 6; 8; 3; 13];
   [2; 12; 6; 10; 0; 11; 8; 3; 4; 13; 7; 5; 15; 14; 1; 9];
   [12; 5; 1; 15; 14; 13; 4; 10; 0; 7; 6; 3; 9; 2; 8; 11];
   [13; 11; 7; 14; 12; 1; 3; 9; 5; 0; 15; 4; 8; 6; 2; 10];
   [6; 15; 14; 9; 11; 3; 0; 8; 12; 2; 13; 7; 1; 4; 10; 5];
   [10; 2; 8; 4; 7; 6; 1; 5; 15; 11; 9; 14; 3; 12; 13; 0]]%nat.

Definition G (v : list Z) (idx : nat * nat * nat * nat) (x y : Z) : list Z :=
  let '(ia, ib, ic, id) := idx in
  let '(r1, r2, r3, r4) := R in
  let a := nth ia v 0 in
  let b := nth ib v 0 in
  let c := nth ic v 0 in
  let d := nth id v 0 in
  let a := trunc (a + b + x) in
  let d := rotr (Z.lxor d a) r1 in
  let c := trunc (c + d) in
  let b := rotr (Z.lxor b c) r2 in
  let a := trunc (a + b + y) in
  let d := rotr (Z.lxor d a) r3 in
  let c := trunc (c + d) in
  let b := rotr (Z.lxor b c) r4 in
  set_nth (set_nth (set_nth (set_nth v ia a) ib b) ic c) id d.

Definition mix (m : list Z) (v : list Z) (i : nat) : list Z :=
  let s := nth (i mod 10) SIGMA [] in
  let w := fun j => nth (nth j s 0%nat) m 0 in
  let v := G v (0, 4, 8, 12)%nat (w 0%nat) (w 1%nat) in
  let v := G v (1, 5, 9, 13)%nat (w 2%nat) (w 3%nat) in
  let v := G v (2, 6, 10, 14)%nat (w 4%nat) (w 5%nat) in
  let v := G v (3, 7, 11, 15)%nat (w 6%nat) (w 7%nat) in
  let v := G v (0, 5, 10, 15)%nat (w 8%nat) (w 9%nat) in
  let v := G v (1, 6, 11, 12)%nat (w 10%nat) (w 11%nat) in
  let v := G v (2, 7, 8, 13)%nat (w 12%nat) (w 13%nat) in
  G v (3, 4, 9, 14)%nat (w 14%nat) (w 15%nat).

(** The compression function F: [t] is the byte counter, [last] the
    finalisation flag. *)
Definition compress (h : list Z) (p : list Z) (t : Z) (last : bool) : list Z :=
  let m := map le_uint (chunks wb (p ++ repeat 0 (16 * wb - length p))) in
  let v0 := firstn 8 h ++ firstn 8 IV in
  let v0 := set_nth v0 12 (Z.lxor (nth 12 v0 0) (trunc t)) in
  let v0 := set_nth v0 13 (Z.lxor (nth 13 v0 0) (trunc (Z.shiftr t bits))) in
  let v0 := if last then set_nth v0 14 (Z.lxor (nth 14 v0 0) (2 ^ bits - 1)) else v0 in
  let v := fold_left (mix m) (seq 0 rounds) v0 in
  map (fun i => Z.lxor (Z.lxor (nth i h 0) (nth i v 0)) (nth (i + 8) v 0)) (seq 0 8).

Fixpoint absorb (h : list Z) (t : Z) (blocks : list (list Z)) : list Z :=
  match blocks with
  | [] => compress h [] t true
  | [p] => compress h p (t + Z.of_nat (length p)) true
  | p :: tl =>
      let t' := t + Z.of_nat (length p) in
      absorb (compress h p t' false) t' tl
  end.

Definition digest (outlen : nat) (msg : list Z) : list Z :=
  let h0 := set_nth IV 0 (Z.lxor (nth 0 IV 0) (0x01010000 + Z.of_nat outlen)) in
  firstn outlen (flat_map (le_bytes wb) (absorb h0 0 (chunks (16 * wb) msg))).

End Core.
End blake2.

Module blake2s.
Definition digest : nat -> list Z -> list Z :=
  blake2.digest 4 10 (16, 12, 8, 7) sha256.init256.
Definition New256 : Hash := mkHash 32 64 (digest 32).
End blake2s.

Module blake2b.
Definition digest : nat -> list Z -> list Z :=
  blake2.digest 8 12 (32, 24, 16, 63) sha512.init512.
Definition New256 : Hash := mkHash 32 128 (digest 32).
Definition New384 : Hash := mkHash 48 128 (digest 48).
Definition New512 : Hash := mkHash 64 128 (digest 64).
End blake2b.

(** ** crypto/hmac (RFC 2104) *)
Module hmac.

Definition xor_pad (c : Z) (k : list Z) : list Z := map (fun b => Z.lxor b c) k.

(** The key block of [hmac.New]: a key longer than the block is hashed
    first, then the key is copied into a zeroed block. *)
Definition key_block (h : Hash) (key : list Z) : list Z :=
  let k := if (BlockSize h <? length key)%nat then Sum h key else key in
  firstn (BlockSize h) (k ++ repeat 0 (BlockSize h - length k)).

Definition mac (h : Hash) (key msg : list Z) : list Z :=
  let k0 := key_block h key in
  Sum h (xor_pad 0x5C k0 ++ Sum h (xor_pad 0x36 k0 ++ msg)).

Definition New (h : Hash) (key : list Z) : Hash :=
  mkHash (Size h) (BlockSize h) (mac h key).

End hmac.

(** ** strconv: decimal rendering used by the [%d] and [%v] verbs *)
Module strconv.

Fixpoint utoa (fuel : nat) (n : Z) (acc : string) : string :=
  match fuel with
  | O => acc
  | S f =>
      let acc' := String (ascii_of_N (Z.to_N (48 + n mod 10))) acc in
      if n <? 10 then acc' else utoa f (n / 10) acc'
  end.

Definition Itoa (n : Z) : string :=
  if n <? 0
  then String "-" (utoa (S (Z.to_nat (Z.log2 (- n)))) (- n) EmptyString)
  else utoa (S (Z.to_nat (Z.log2 n))) n EmptyString.

End strconv.

(** ** encoding/base32, [StdEncoding] (RFC 4648 alphabet, '=' padding) *)
Module base32.

Definition alphabet : list Z := bytes_of_string "ABCDEFGHIJKLMNOPQRSTUVWXYZ234567".
Definition padChar : Z := 61.

Definition CorruptInputError (n : Z) : error :=
  Some ("illegal base32 data at input byte " ++ strconv.Itoa n)%string.

Definition encode_group (g : list Z) : list Z :=
  let x := be_uint (g ++ repeat 0 (5 - length g)) in
  let nchars :=
    match length g with
    | 1 => 2 | 2 => 4 | 3 => 5 | 4 => 7 | _ => 8
    end%nat in
  map (fun i =>
         if (i <? nchars)%nat
         then nth (Z.to_nat (Z.land (Z.shiftr x (35 - 5 * Z.of_nat i)) 31)) alphabet 0
         else padChar) (seq 0 8).

Definition EncodeToString (src : list Z) : string :=
  string_of_bytes (flat_map encode_group (chunks 5 src)).

(** [decodeMap]: the 5-bit value of an alphabet character, 0xFF otherwise. *)
Definition decodeMap (c : Z) : Z :=
  if (65 <=? c) && (c <=? 90) then c - 65
  else if (50 <=? c) && (c <=? 55) then c - 24
  else 0xFF.

Definition stripNewlines (src : list Z) : list Z :=
  filter (fun c => negb ((c =? 13) || (c =? 10))) src.

(** First index [k < n] with [k < len(src)] and [src[k]] not the padding
    character. *)
Fixpoint bad_padding (n : nat) (k : Z) (src : list Z) : option Z :=
  match n with
  | O => None
  | S n' =>
      match src with
      | [] => None
      | c :: tl => if c =? padChar then bad_padding n' (k + 1) tl else Some k
      end
  end.

(** The inner loop of [decode] over one quantum, entered with [8 - j = k]:
    an error, or the 5-bit values read, [dlen], [end] and the remaining
    input. *)
Fixpoint quantum (k : nat) (j : Z) (dbuf : list Z) (src : list Z) (olen : Z)
  : error + (list Z * Z * bool * list Z) :=
  match k with
  | O => inr (dbuf, 8, false, src)
  | S k' =>
      match src with
      | [] => inl (CorruptInputError (olen - j))
      | c :: src' =>
          let n := Z.of_nat (length src') in
          if (c =? padChar) && (2 <=? j) && (n <? 8) then
            if n + j <? 8 - 1 then inl (CorruptInputError olen)
            else
              match bad_padding (Z.to_nat (8 - 1 - j)) 0 src' with
              | Some kk => inl (CorruptInputError (olen - n + kk - 1))
              | None =>
                  if (j =? 1) || (j =? 3) || (j =? 6)
                  then inl (CorruptInputError (olen - n - 1))
                  else inr (dbuf, j, true, src')
              end
          else
            let v := decodeMap c in
            if v =? 0xFF then inl (CorruptInputError (olen - n - 1))
            else quantum k' (j + 1) (dbuf ++ [v]) src' olen
      end
  end.

(** The [switch dlen] with its fall-through: the bytes a quantum yields. *)
Definition pack (dbuf : list Z) (dlen : Z) : list Z :=
  let d := fun i => nth i dbuf 0 in
  let out :=
    [byte (Z.lor (Z.shiftl (d 0%nat) 3) (Z.shiftr (d 1%nat) 2));
     byte (Z.lor (Z.lor (Z.shiftl (d 1%nat) 6) (Z.shiftl (d 2%nat) 1)) (Z.shiftr (d 3%nat) 4));
     byte (Z.lor (Z.shiftl (d 3%nat) 4) (Z.shiftr (d 4%nat) 1));
     byte (Z.lor (Z.lor (Z.shiftl (d 4%nat) 7) (Z.shiftl (d 5%nat) 2)) (Z.shiftr (d 6%nat) 3));
     byte (Z.lor (Z.shiftl (d 6%nat) 5) (d 7%nat))] in
  let count :=
    if dlen =? 8 then 5%nat else if dlen =? 7 then 4%nat
    else if dlen =? 5 then 3%nat else if dlen =? 4 then 2%nat
    else if dlen =? 2 then 1%nat else 0%nat in
  firstn count out.

Fixpoint decode (fuel : nat) (src : list Z) (olen : Z) (dst : list Z)
  : list Z * error :=
  match fuel with
  | O => (dst, nil_error)
  | S f =>
      match src with
      | [] => (dst, nil_error)
      | _ =>
          match quantum 8 0 [] src olen with
          | inl e => (dst, e)
          | inr (dbuf, dlen, fin, rest) =>
              let dst' := dst ++ pack dbuf dlen in
              if fin then (dst', nil_error) else decode f rest olen dst'
          end
      end
  end.

Definition DecodeString (s : string) : list Z * error :=
  let src := stripNewlines (bytes_of_string s) in
  decode (length src) src (Z.of_nat (length src)) [].

End base32.

(** ** unicode/utf8 *)
Module utf8.

Definition RuneError : Z := 0xFFFD.

(** The lower and upper bound of the second byte, by leading byte. *)
Definition accept (p0 : Z) : Z * Z :=
  if p0 =? 0xE0 then (0xA0, 0xBF)
  else if p0 =? 0xED then (0x80, 0x9F)
  else if p0 =? 0xF0 then (0x90, 0xBF)
  else if p0 =? 0xF4 then (0x80, 0x8F)
  else (0x80, 0xBF).

Definition cont (b : Z) : bool := (0x80 <=? b) && (b <=? 0xBF).

(** [DecodeRuneInString]: the rune at the head of [p] and its width. *)
Definition DecodeRune (p : list Z) : Z * nat :=
  match p with
  | [] => (RuneError, 0%nat)
  | p0 :: tl =>
      if p0 <? 0x80 then (p0, 1%nat)
      else if (p0 <? 0xC2) || (0xF4 <? p0) then (RuneError, 1%nat)
      else
        let sz := if p0 <? 0xE0 then 2%nat else if p0 <? 0xF0 then 3%nat else 4%nat in
        if (length p <? sz)%nat then (RuneError, 1%nat)
        else
          let b1 := nth 0 tl 0 in
          let '(lo, hi) := accept p0 in
          if (b1 <? lo) || (hi <? b1) then (RuneError, 1%nat)
          else if (sz <=? 2)%nat
          then (Z.lor (Z.shiftl (Z.land p0 0x1F) 6) (Z.land b1 0x3F), 2%nat)
          else
            let b2 := nth 1 tl 0 in
            if negb (cont b2) then (RuneError, 1%nat)
            else if (sz <=? 3)%nat
            then (Z.lor (Z.lor (Z.shiftl (Z.land p0 0x0F) 12)
                               (Z.shiftl (Z.land b1 0x3F) 6))
                        (Z.land b2 0x3F), 3%nat)
            else
              let b3 := nth 2 tl 0 in
              if negb (cont b3) then (RuneError, 1%nat)
              else (Z.lor (Z.lor (Z.shiftl (Z.land p0 0x07) 18)
                                 (Z.shiftl (Z.land b1 0x3F) 12))
                          (Z.lor (Z.shiftl (Z.land b2 0x3F) 6)
                                 (Z.land b3 0x3F)), 4%nat)
  end.

End utf8.

(** ** unicode: [IsDigit] and the table of category Nd (Unicode 15.0.0,
    the version of the Go releases that ship [crypto/sha3]) *)
Module unicode.

Definition MaxLatin1 : Z := 0xFF.

Definition Nd : list (Z * Z) :=
  [(0x0030, 0x0039); (0x0660, 0x0669); (0x06F0, 0x06F9); (0x07C0, 0x07C9);
   (0x0966, 0x096F); (0x09E6, 0x09EF); (0x0A66, 0x0A6F); (0x0AE6, 0x0AEF);
   (0x0B66, 0x0B6F); (0x0BE6, 0x0BEF); (0x0C66, 0x0C6F); (0x0CE6, 0x0CEF);
   (0x0D66, 0x0D6F); (0x0DE6, 0x0DEF); (0x0E50, 0x0E59); (0x0ED0, 0x0ED9);
   (0x0F20, 0x0F29); (0x1040, 0x1049); (0x1090, 0x1099); (0x17E0, 0x17E9);
   (0x1810, 0x1819); (0x1946, 0x194F); (0x19D0, 0x19D9); (0x1A80, 0x1A89);
   (0x1A90, 0x1A99); (0x1B50, 0x1B59); (0x1BB0, 0x1BB9); (0x1C40, 0x1C49);
   (0x1C50, 0x1C59); (0xA620, 0xA629); (0xA8D0, 0xA8D9); (0xA900, 0xA909);
   (0xA9D0, 0xA9D9); (0xA9F0, 0xA9F9); (0xAA50, 0xAA59); (0xABF0, 0xABF9);
   (0xFF10, 0xFF19); (0x104A0, 0x104A9); (0x10D30, 0x10D39); (0x11066, 0x1106F);
   (0x110F0, 0x110F9); (0x11136, 0x1113F); (0x111D0, 0x111D9); (0x112F0, 0x112F9);
   (0x11450, 0x11459); (0x114D0, 0x114D9); (0x11650, 0x11659); (0x116C0, 0x116C9);
   (0x11730, 0x11739); (0x118E0, 0x118E9); (0x11950, 0x11959); (0x11C50, 0x11C59);
   (0x11D50, 0x11D59); (0x11DA0, 0x11DA9); (0x11F50, 0x11F59); (0x16A60, 0x16A69);
   (0x16AC0, 0x16AC9); (0x16B50, 0x16B59); (0x1D7CE, 0x1D7FF); (0x1E140, 0x1E149);
   (0x1E2F0, 0x1E2F9); (0x1E4F0, 0x1E4F9); (0x1E950, 0x1E959); (0x1FBF0, 0x1FBF9)].

Definition IsDigit (r : Z) : bool :=
  if r <=? MaxLatin1 then (48 <=? r) && (r <=? 57)
  else existsb (fun lh => (fst lh <=? r) && (r <=? snd lh)) Nd.

End unicode.

(** ** crypto/subtle *)
Module subtle.

Definition ConstantTimeByteEq (x y : Z) : Z :=
  Z.shiftr (uint32 (uint32 (Z.lxor x y) - 1)) 31.

Definition ConstantTimeCompare (x y : list Z) : Z :=
  if negb (length x =? length y)%nat then 0
  else
    let v := fold_left (fun v ab => Z.lor v (Z.lxor (fst ab) (snd ab)))
                       (combine x y) 0 in
    ConstantTimeByteEq v 0.

End subtle.

(** * The package: config.go *)

(** [type Digits int] and [type Algorithm int] are both [Z] (a 64-bit
    [int]); the named constants follow. *)
Definition DigitsFour : Z := 4.
Definition DigitsFive : Z := 5.
Definition DigitsSix : Z := 6.
Definition DigitsEight : Z := 8.

Definition AlgorithmSHA1 : Z := 0.
Definition AlgorithmSHA224 : Z := 1.
Definition AlgorithmSHA256 : Z := 2.
Definition AlgorithmSHA384 : Z := 3.
Definition AlgorithmSHA512 : Z := 4.
Definition AlgorithmSHA3_224 : Z := 5.
Definition AlgorithmSHA3_256 : Z := 6.
Definition AlgorithmSHA3_384 : Z := 7.
Definition AlgorithmSHA3_512 : Z := 8.
Definition AlgorithmBLAKE2S_256 : Z := 9.
Definition AlgorithmBLAKE2B_256 : Z := 10.
Definition AlgorithmBLAKE2B_384 : Z := 11.
Definition AlgorithmBLAKE2B_512 : Z := 12.
Definition AlgorithmMD5 : Z := 13.

Record Config : Type := mkConfig {
  Algorithm : Z;
  Digits : Z;
  Period : Z;
  Secret : string;
  Skew : Z
}.

Definition ConfigDefault : Config :=
  {| Algorithm := AlgorithmSHA1;
     Digits := DigitsSix;
     Period := 30;
     Secret := EmptyString;
     Skew := 1 |}.

(** [func (a Algorithm) hash() hash.Hash]: the [switch] with its
    [default] branch. *)
Definition hash (a : Z) : Hash :=
  if a =? AlgorithmSHA1 then sha1.New
  else if a =? AlgorithmSHA224 then sha256.New224
  else if a =? AlgorithmSHA256 then sha256.New
  else if a =? AlgorithmSHA384 then sha512.New384
  else if a =? AlgorithmSHA512 then sha512.New
  else if a =? AlgorithmSHA3_224 then sha3.New224
  else if a =? AlgorithmSHA3_256 then sha3.New256
  else if a =? AlgorithmSHA3_384 then sha3.New384
  else if a =? AlgorithmSHA3_512 then sha3.New512
  else if a =? AlgorithmBLAKE2S_256 then blake2s.New256
  else if a =? AlgorithmBLAKE2B_256 then blake2b.New256
  else if a =? AlgorithmBLAKE2B_384 then blake2b.New384
  else if a =? AlgorithmBLAKE2B_512 then blake2b.New512
  else if a =? AlgorithmMD5 then md5.New
  else sha1.New.

Definition set_Algorithm (c : Config) (a : Z) : Config :=
  {| Algorithm := a; Digits := Digits c; Period := Period c;
     Secret := Secret c; Skew := Skew c |}.
Definition set_Digits (c : Config) (d : Z) : Config :=
  {| Algorithm := Algorithm c; Digits := d; Period := Period c;
     Secret := Secret c; Skew := Skew c |}.
Definition set_Period (c : Config) (p : Z) : Config :=
  {| Algorithm := Algorithm c; Digits := Digits c; Period := p;
     Secret := Secret c; Skew := Skew c |}.
Definition set_Skew (c : Config) (s : Z) : Config :=
  {| Algorithm := Algorithm c; Digits := Digits c; Period := Period c;
     Secret := Secret c; Skew := s |}.

(** [func configDefault(config ...Config) Config]: the variadic argument
    is the list [config]; the four guarded assignments run in order on the
    local copy. *)
Definition configDefault (config : list Config) : Config :=
  match config with
  | [] => ConfigDefault
  | cfg :: _ =>
      let cfg :=
        if (Algorithm cfg <? AlgorithmSHA1) || (AlgorithmMD5 <? Algorithm cfg)
        then set_Algorithm cfg (Algorithm ConfigDefault) else cfg in
      let cfg :=
        if (Digits cfg <? DigitsFour) || (DigitsEight <? Digits cfg)
        then set_Digits cfg (Digits ConfigDefault) else cfg in
      let cfg :=
        if Period cfg <=? 0
        then set_Period cfg (Period ConfigDefault) else cfg in
      let cfg :=
        if Skew cfg <? 0
        then set_Skew cfg (Skew ConfigDefault) else cfg in
      cfg
  end.

(** * The package: totp.go *)

(** The engine.  The two [sync.Pool] fields only recycle scratch objects:
    every byte of the pooled [[8]byte] is overwritten and the pooled HMAC
    is [Reset] before it is read, so a call does not observe them and the
    record keeps the three fields a call reads. *)
Record TOTP : Type := mkTOTP {
  cfg : Config;
  divisor : Z;
  decodedSecret : list Z
}.

(** Integer division and remainder on [int64]: truncated, panicking on a
    zero divisor. *)
Definition div64 (x y : Z) : outcome Z :=
  if y =? 0 then Panics "runtime error: integer divide by zero"
  else Returns (int64 (Z.quot x y)).
Definition rem64 (x y : Z) : outcome Z :=
  if y =? 0 then Panics "runtime error: integer divide by zero"
  else Returns (int64 (Z.rem x y)).

(** [s[:n]] *)
Definition slice_to (s : list Z) (n : Z) : outcome (list Z) :=
  if (0 <=? n) && (n <=? Z.of_nat (length s))
  then Returns (firstn (Z.to_nat n) s)
  else Panics "runtime error: slice bounds out of range".

Definition New (config : list Config) : outcome TOTP :=
  let cfg := configDefault config in
  let '(decodedSecret, err) := base32.DecodeString (Secret cfg) in
  match err with
  | Some e => Panics ("failed to decode Base32 secret: " ++ e)
  | None =>
      let divisor :=
        Nat.iter (Z.to_nat (Digits cfg)) (fun d => int64 (d * 10)) 1 in
      Returns (mkTOTP cfg divisor decodedSecret)
  end.

(** The loop [for i := digits - 1; i >= 0; i--], entered with
    [i + 1 = n]. *)
Fixpoint formatCode_loop (n : nat) (buf : list Z) (code : Z)
  : outcome (list Z) :=
  match n with
  | O => Returns buf
  | S i =>
      buf' <- store buf (Z.of_nat i) (byte (48 + Z.rem code 10)) ;;
      formatCode_loop i buf' (Z.quot code 10)
  end.

(** [func formatCode(buf []byte, code, digits int) int]: the written
    buffer is returned next to the count. *)
Definition formatCode (buf : list Z) (code digits : Z) : outcome (list Z * Z) :=
  buf' <- formatCode_loop (Z.to_nat digits) buf code ;;
  Returns (buf', digits).

(** The loop [for i := range timeBytes] filling the 8-byte array. *)
Definition timeBytes_of (timeStep : Z) : list Z :=
  fold_left
    (fun tb i => set_nth tb (7 - i) (byte (Z.shiftr timeStep (8 * Z.of_nat i))))
    (seq 0 8) (repeat 0 8%nat).

(** [func (o *TOTP) GenerateForTime(t time.Time) (string, error)]; the
    instant is given by [t.Unix()]. *)
Definition GenerateForTime (o : TOTP) (t : Z) : outcome (string * error) :=
  timeStep <- div64 t (Period (cfg o)) ;;
  let timeBytes := timeBytes_of timeStep in
  let hmacResult :=
    Sum (hmac.New (hash (Algorithm (cfg o))) (decodedSecret o)) timeBytes in
  last <- index hmacResult (Z.of_nat (length hmacResult) - 1) ;;
  let offset := Z.land last 0x0F in
  b0 <- index hmacResult offset ;;
  b1 <- index hmacResult (byte (offset + 1)) ;;
  b2 <- index hmacResult (byte (offset + 2)) ;;
  b3 <- index hmacResult (byte (offset + 3)) ;;
  let binaryCode :=
    Z.lor (Z.lor (Z.lor (Z.shiftl (Z.land b0 0x7F) 24)
                        (Z.shiftl (Z.land b1 0xFF) 16))
                 (Z.shiftl (Z.land b2 0xFF) 8))
          (Z.land b3 0xFF) in
  totpCode <- rem64 binaryCode (divisor o) ;;
  r <- formatCode (repeat 0 8%nat) totpCode (Digits (cfg o)) ;;
  code <- slice_to (fst r) (snd r) ;;
  Returns (string_of_bytes code, nil_error).

(** The loop [for _, r := range s] of [isValidInteger] over the bytes
    still to read. *)
Fixpoint isValidInteger_loop (fuel : nat) (p : list Z) : bool :=
  match fuel with
  | O => true
  | S f =>
      match p with
      | [] => true
      | _ =>
          let '(r, size) := utf8.DecodeRune p in
          if negb (unicode.IsDigit r) then false
          else isValidInteger_loop f (skipn size p)
      end
  end.

Definition isValidInteger (s : string) : bool :=
  let p := bytes_of_string s in isValidInteger_loop (length p) p.

(** The loop [for i := -o.cfg.Skew; i <= o.cfg.Skew; i++] entered at [i];
    [None] when [fuel] iterations did not reach a [return]. *)
Fixpoint ValidateForTime_loop (fuel : nat) (o : TOTP) (totp : string)
  (baseTimeStep i : Z) : option (outcome (bool * error)) :=
  match fuel with
  | O => None
  | S f =>
      if i <=? Skew (cfg o) then
        let timeStep := int64 (baseTimeStep + i) in
        match GenerateForTime o (int64 (timeStep * Period (cfg o))) with
        | Panics msg => Some (Panics msg)
        | Returns (expected, Some e) =>
            Some (Returns (false,
                           Some ("error generating expected TOTP for time step "
                                 ++ strconv.Itoa timeStep ++ ": " ++ e)%string))
        | Returns (expected, None) =>
            if subtle.ConstantTimeCompare (bytes_of_string totp)
                                          (bytes_of_string expected) =? 1
            then Some (Returns (true, nil_error))
            else ValidateForTime_loop f o totp baseTimeStep (int64 (i + 1))
        end
      else Some (Returns (false, nil_error))
  end.

(** [func (o *TOTP) ValidateForTime(totp string, t time.Time) (bool, error)] *)
Definition ValidateForTime (fuel : nat) (o : TOTP) (totp : string) (t : Z)
  : option (outcome (bool * error)) :=
  if negb (Z.of_nat (String.length totp) =? Digits (cfg o))
     || negb (isValidInteger totp)
  then Some (Returns (false, Some "invalid TOTP format"%string))
  else
    match div64 t (Period (cfg o)) with
    | Panics msg => Some (Panics msg)
    | Returns baseTimeStep =>
        ValidateForTime_loop fuel o totp baseTimeStep (int64 (- Skew (cfg o)))
    end.

(** * Auxiliary definitions for the statements *)

Definition is_byte (b : Z) : Prop := 0 <= b < 256.

(** The [n] decimal digits of [code], most significant first, as the bytes
    [formatCode] writes. *)
Fixpoint digits_of (n : nat) (code : Z) : list Z :=
  match n with
  | O => []
  | S i => digits_of i (Z.quot code 10) ++ [byte (48 + Z.rem code 10)]
  end.

(** The dynamic truncation of a digest (RFC 4226, section 5.3), when every
    index is in range. *)
Definition truncation (d : list Z) : Z :=
  let offset := Z.land (nth (length d - 1) d 0) 0x0F in
  let b := fun k => nth (Z.to_nat (offset + k)) d 0 in
  Z.lor (Z.lor (Z.lor (Z.shiftl (Z.land (b 0) 0x7F) 24)
                      (Z.shiftl (Z.land (b 1) 0xFF) 16))
               (Z.shiftl (Z.land (b 2) 0xFF) 8))
        (Z.land (b 3) 0xFF).

(** The HMAC value [GenerateForTime] computes at instant [t]. *)
Definition hmacResult_at (o : TOTP) (t : Z) : list Z :=
  Sum (hmac.New (hash (Algorithm (cfg o))) (decodedSecret o))
      (timeBytes_of (int64 (Z.quot t (Period (cfg o))))).

Definition is_digit_byte (b : Z) : Prop := 48 <= b <= 57.

(** The code [GenerateForTime] returns at [t] when the truncation is in
    range. *)
Definition code_at (o : TOTP) (t : Z) : string :=
  string_of_bytes
    (digits_of (Z.to_nat (Digits (cfg o)))
               (Z.rem (truncation (hmacResult_at o t)) (divisor o))).

(** The four bytes the truncation reads lie inside the digest. *)
Definition truncation_in_range (d : list Z) : Prop :=
  Z.land (nth (length d - 1) d 0) 0x0F + 3 < Z.of_nat (length d).

(** The runes [for _, r := range s] yields. *)
Fixpoint runes_of (fuel : nat) (p : list Z) : list Z :=
  match fuel with
  | O => []
  | S f =>
      match p with
      | [] => []
      | _ =>
          let '(r, size) := utf8.DecodeRune p in
          r :: runes_of f (skipn size p)
      end
  end.

Definition runes (s : string) : list Z :=
  let p := bytes_of_string s in runes_of (length p) p.

(** The instant [time.Unix(timeStep*o.cfg.Period, 0)] of window offset [i]. *)
Definition window_instant (o : TOTP) (baseTimeStep i : Z) : Z :=
  int64 (int64 (baseTimeStep + i) * Period (cfg o)).

(** The numeric value of a string of ASCII digits. *)
Definition decimal_value (bs : list Z) : Z :=
  fold_left (fun acc b => acc * 10 + (b - 48)) bs 0.

(** The configuration of the RFC 6238 test table: 8 digits, period 30, the
    secret given as the base32 text of an ASCII key. *)
Definition rfc6238_config (alg : Z) (key : string) (skew : Z) : Config :=
  {| Algorithm := alg; Digits := DigitsEight; Period := 30;
     Secret := base32.EncodeToString (bytes_of_string key); Skew := skew |}.

Definition key20 : string := "12345678901234567890".
Definition key32 : string := "12345678901234567890123456789012".
Definition key64 : string :=
  "1234567890123456789012345678901234567890123456789012345678901234".

(** [New] followed by [GenerateForTime], as the tests run them. *)
Definition generate (c : Config) (t : Z) : outcome (string * error) :=
  o <- New [c] ;; GenerateForTime o t.

(** The README's engine, switched to MD5. *)
Definition md5_config : Config :=
  {| Algorithm := AlgorithmMD5; Digits := DigitsSix; Period := 30;
     Secret := "JBSWY3DPEHPK3PXP"; Skew := 1 |}.

Definition md5_engine : TOTP :=
  {| cfg := md5_config; divisor := 1000000;
     decodedSecret := bytes_of_string "Hello!" ++ [0xDE; 0xAD; 0xBE; 0xEF] |}.

(** The README's engine (SHA-1, 6 digits, period 30, skew 1). *)
Definition readme_config : Config :=
  {| Algorithm := AlgorithmSHA1; Digits := DigitsSix; Period := 30;
     Secret := "JBSWY3DPEHPK3PXP"; Skew := 1 |}.

Definition readme_engine : TOTP :=
  {| cfg := readme_config; divisor := 1000000;
     decodedSecret := bytes_of_string "Hello!" ++ [0xDE; 0xAD; 0xBE; 0xEF] |}.

(** Three ARABIC-INDIC DIGIT ZERO (U+0660), two bytes each in UTF-8. *)
Definition arabic_zeros : string :=
  string_of_bytes [0xD9; 0xA0; 0xD9; 0xA0; 0xD9; 0xA0].

(** A configuration asking for 7 digits. *)
Definition seven_digits_config : Config :=
  {| Algorithm := AlgorithmSHA1; Digits := 7; Period := 30;
     Secret := "JBSWY3DPEHPK3PXP"; Skew := 1 |}.

(** A configuration with two fields inside their domain (MD5, 7 digits) and
    two outside (period 0, skew -5). *)
Definition mixed_config : Config :=
  {| Algorithm := AlgorithmMD5; Digits := 7; Period := 0;
     Secret := "JBSWY3DPEHPK3PXP"; Skew := -5 |}.

(** A configuration whose secret is not base32 text. *)
Definition bad_secret_config : Config :=
  {| Algorithm := AlgorithmSHA1; Digits := DigitsSix; Period := 30;
     Secret := "not base32!"; Skew := 1 |}.

(** The engine of the first RFC 6238 row. *)
Definition rfc6238_engine : TOTP :=
  {| cfg := rfc6238_config AlgorithmSHA1 key20 0;
     divisor := 100000000;
     decodedSecret := bytes_of_string key20 |}.

(** The [i]-th 5-bit group of the 40-bit value of a base32 group. *)
Definition quintet (x i : Z) : Z := Z.land (Z.shiftr x (35 - 5 * i)) 31.

(** The alphabet character of a 5-bit value. *)
Definition enc_char (q : Z) : Z := nth (Z.to_nat q) base32.alphabet 0.

(** The bytes of [EncodeToString]. *)
Definition encode_bytes (src : list Z) : list Z :=
  flat_map base32.encode_group (chunks 5 src).

(** * The rest of the package and its tests *)

(** [func (o *TOTP) Generate() (string, error)] and
    [func (o *TOTP) Validate(totp string) (bool, error)]: the reading
    [time.Now().Unix()] of the clock is the argument [now]. *)
Definition Generate (now : Z) (o : TOTP) : outcome (string * error) :=
  GenerateForTime o now.

Definition Validate (fuel : nat) (now : Z) (o : TOTP) (totp : string)
  : option (outcome (bool * error)) :=
  ValidateForTime fuel o totp now.

(** The test file: [type tc struct] and the table [rfcMatrixTCs]. *)
Record tc : Type := mkTc {
  tc_TS : Z;
  tc_TOTP : string;
  tc_Mode : Z;
  tc_Secret : string
}.

Definition secSha1 : string := base32.EncodeToString (bytes_of_string key20).
Definition secSha256 : string := base32.EncodeToString (bytes_of_string key32).
Definition secSha512 : string := base32.EncodeToString (bytes_of_string key64).

Definition rfcMatrixTCs : list tc :=
  [mkTc 59 "94287082" AlgorithmSHA1 secSha1;
   mkTc 59 "46119246" AlgorithmSHA256 secSha256;
   mkTc 59 "90693936" AlgorithmSHA512 secSha512;
   mkTc 1111111109 "07081804" AlgorithmSHA1 secSha1;
   mkTc 1111111109 "68084774" AlgorithmSHA256 secSha256;
   mkTc 1111111109 "25091201" AlgorithmSHA512 secSha512;
   mkTc 1111111111 "14050471" AlgorithmSHA1 secSha1;
   mkTc 1111111111 "67062674" AlgorithmSHA256 secSha256;
   mkTc 1111111111 "99943326" AlgorithmSHA512 secSha512;
   mkTc 1234567890 "89005924" AlgorithmSHA1 secSha1;
   mkTc 1234567890 "91819424" AlgorithmSHA256 secSha256;
   mkTc 1234567890 "93441116" AlgorithmSHA512 secSha512;
   mkTc 2000000000 "69279037" AlgorithmSHA1 secSha1;
   mkTc 2000000000 "90698825" AlgorithmSHA256 secSha256;
   mkTc 2000000000 "38618901" AlgorithmSHA512 secSha512;
   mkTc 20000000000 "65353130" AlgorithmSHA1 secSha1;
   mkTc 20000000000 "77737706" AlgorithmSHA256 secSha256;
   mkTc 20000000000 "47863826" AlgorithmSHA512 secSha512].

(** The configuration each test builds from a row. *)
Definition tc_config (tx : tc) (skew : Z) : Config :=
  {| Algorithm := tc_Mode tx; Digits := DigitsEight; Period := 30;
     Secret := tc_Secret tx; Skew := skew |}.

(** The text of an [error] under [%v]. *)
Definition error_text (e : error) : string :=
  match e with
  | Some msg => msg
  | None => "<nil>"
  end.

(** The body of the loop of [TestValidateRFCMatrix] and of
    [TestValidateSkew] on one row: the messages passed to [t.Errorf];
    [None] when validation ran out of fuel. *)
Definition validate_row (fuel : nat) (skew : Z) (tx : tc)
  : option (outcome (list string)) :=
  match New [tc_config tx skew] with
  | Panics msg => Some (Panics msg)
  | Returns generator =>
      match ValidateForTime fuel generator (tc_TOTP tx) (tc_TS tx) with
      | None => None
      | Some (Panics msg) => Some (Panics msg)
      | Some (Returns (valid, err)) =>
          let errs1 :=
            match err with
            | Some _ =>
                [("Error validating TOTP for time " ++ strconv.Itoa (tc_TS tx)
                  ++ ": " ++ error_text err)%string]
            | None => []
            end in
          let errs2 :=
            if negb valid
            then [("TOTP " ++ tc_TOTP tx ++ " was not valid for time "
                   ++ strconv.Itoa (tc_TS tx))%string]
            else [] in
          Some (Returns (errs1 ++ errs2))
      end
  end.

(** A test loop over a table: the messages of the rows in order; a panic
    stops the test. *)
Fixpoint run_rows (body : tc -> option (outcome (list string))) (rows : list tc)
  : option (outcome (list string)) :=
  match rows with
  | [] => Some (Returns [])
  | tx :: rest =>
      match body tx with
      | None => None
      | Some (Panics msg) => Some (Panics msg)
      | Some (Returns errs) =>
          match run_rows body rest with
          | None => None
          | Some (Panics msg) => Some (Panics msg)
          | Some (Returns errs') => Some (Returns (errs ++ errs'))
          end
      end
  end.

Definition TestValidateRFCMatrix (fuel : nat) : option (outcome (list string)) :=
  run_rows (validate_row fuel 0) rfcMatrixTCs.

(** The body of the loop of [TestGenerateRFCTCs] on one row. *)
Definition generate_row (tx : tc) : option (outcome (list string)) :=
  match New [tc_config tx 0] with
  | Panics msg => Some (Panics msg)
  | Returns generator =>
      match GenerateForTime generator (tc_TS tx) with
      | Panics msg => Some (Panics msg)
      | Returns (passcode, Some e) =>
          Some (Returns [("Error generating TOTP for time "
                          ++ strconv.Itoa (tc_TS tx) ++ ": " ++ e)%string])
      | Returns (passcode, None) =>
          if negb (String.eqb passcode (tc_TOTP tx))
          then Some (Returns [("Expected TOTP " ++ tc_TOTP tx ++ ", but got "
                               ++ passcode ++ " for time "
                               ++ strconv.Itoa (tc_TS tx))%string])
          else Some (Returns [])
      end
  end.

Definition TestGenerateRFCTCs : option (outcome (list string)) :=
  run_rows generate_row rfcMatrixTCs.

Definition TestValidateSkew (fuel : nat) : option (outcome (list string)) :=
  run_rows (validate_row fuel 1)
    [mkTc 29 "94287082" AlgorithmSHA1 secSha1;
     mkTc 59 "94287082" AlgorithmSHA1 secSha1;
     mkTc 61 "94287082" AlgorithmSHA1 secSha1].

(** The README's configuration with the largest skew. *)
Definition max_skew_config : Config := set_Skew readme_config MaxInt64.

Definition max_skew_engine : TOTP :=
  {| cfg := max_skew_config; divisor := 1000000;
     decodedSecret := bytes_of_string "Hello!" ++ [0xDE; 0xAD; 0xBE; 0xEF] |}.

(** The engine [New()] builds without a configuration. *)
Definition default_engine : TOTP :=
  {| cfg := ConfigDefault; divisor := 1000000; decodedSecret := [] |}.


(** The README's engine with [d] digits. *)
Definition readme_engine_of (d : Z) : TOTP :=
  {| cfg := set_Digits readme_config d; divisor := 10 ^ d;
     decodedSecret := decodedSecret readme_engine |}.

(** * Known-answer checks of the library models

    Digests of "abc" (FIPS 180-4, FIPS 202, RFC 1321, RFC 7693 test
    messages), digests of messages longer than one block, HMAC values
    (RFC 2202 / RFC 4231 style), RFC 4648 base32 examples, and rune
    decoding. *)

Example kat_sha1_abc :
  hex (Sum sha1.New (bytes_of_string "abc"))
  = "a9993e364706816aba3e25717850c26c9cd0d89d"%string.
Proof. vm_compute. reflexivity. Qed.

Example kat_sha224_abc :
  hex (Sum sha256.New224 (bytes_of_string "abc"))
  = "23097d223405d8228642a477bda255b32aadbce4bda0b3f7e36c9da7"%string.
Proof. vm_compute. reflexivity. Qed.

Example kat_sha256_abc :
  hex (Sum sha256.New (bytes_of_string "abc"))
  = "ba7816bf8f01cfea414140de5dae2223b00361a396177a9cb410ff61f20015ad"%string.
Proof. vm_compute. reflexivity. Qed.

Example kat_sha384_abc :
  hex (Sum sha512.New384 (bytes_of_string "abc"))
  = "cb00753f45a35e8bb5a03d699ac65007272c32ab0eded1631a8b605a43ff5bed8086072ba1e7cc2358baeca134c825a7"%string.
Proof. vm_compute. reflexivity. Qed.

Example kat_sha512_abc :
  hex (Sum sha512.New (bytes_of_string "abc"))
  = "ddaf35a193617abacc417349ae20413112e6fa4e89a97ea20a9eeee64b55d39a2192992a274fc1a836ba3c23a3feebbd454d4423643ce80e2a9ac94fa54ca49f"%string.
Proof. vm_compute. reflexivity. Qed.

Example kat_sha3_224_abc :
  hex (Sum sha3.New224 (bytes_of_string "abc"))
  = "e642824c3f8cf24ad09234ee7d3c766fc9a3a5168d0c94ad73b46fdf"%string.
Proof. vm_compute. reflexivity. Qed.

Example kat_sha3_256_abc :
  hex (Sum sha3.New256 (bytes_of_string "abc"))
  = "3a985da74fe225b2045c172d6bd390bd855f086e3e9d525b46bfe24511431532"%string.
Proof. vm_compute. reflexivity. Qed.

Example kat_sha3_384_abc :
  hex (Sum sha3.New384 (bytes_of_string "abc"))
  = "ec01498288516fc926459f58e2c6ad8df9b473cb0fc08c2596da7cf0e49be4b298d88cea927ac7f539f1edf228376d25"%string.
Proof. vm_compute. reflexivity. Qed.

Example kat_sha3_512_abc :
  hex (Sum sha3.New512 (bytes_of_string "abc"))
  = "b751850b1a57168a5693cd924b6b096e08f621827444f70d884f5d0240d2712e10e116e9192af3c91a7ec57647e3934057340b4cf408d5a56592f8274eec53f0"%string.
Proof. vm_compute. reflexivity. Qed.

Example kat_blake2s_256_abc :
  hex (Sum blake2s.New256 (bytes_of_string "abc"))
  = "508c5e8c327c14e2e1a72ba34eeb452f37458b209ed63a294d999b4c86675982"%string.
Proof. vm_compute. reflexivity. Qed.

Example kat_blake2b_256_abc :
  hex (Sum blake2b.New256 (bytes_of_string "abc"))
  = "bddd813c634239723171ef3fee98579b94964e3bb1cb3e427262c8c068d52319"%string.
Proof. vm_compute. reflexivity. Qed.

Example kat_blake2b_384_abc :
  hex (Sum blake2b.New384 (bytes_of_string "abc"))
  = "6f56a82c8e7ef526dfe182eb5212f7db9df1317e57815dbda46083fc30f54ee6c66ba83be64b302d7cba6ce15bb556f4"%string.
Proof. vm_compute. reflexivity. Qed.

Example kat_blake2b_512_abc :
  hex (Sum blake2b.New512 (bytes_of_string "abc"))
  = "ba80a53f981c4d0d6a2797b69f12f6e94c212f14685ac4b74b12bb6fdbffa2d17d87c5392aab792dc252d5de4533cc9518d38aa8dbf1925ab92386edd4009923"%string.
Proof. vm_compute. reflexivity. Qed.

Example kat_md5_abc :
  hex (Sum md5.New (bytes_of_string "abc"))
  = "900150983cd24fb0d6963f7d28e17f72"%string.
Proof. vm_compute. reflexivity. Qed.

Example kat_sha1_long :
  hex (Sum sha1.New (repeat 97 200%nat))
  = "e61cfffe0d9195a525fc6cf06ca2d77119c24a40"%string.
Proof. vm_compute. reflexivity. Qed.

Example kat_sha224_long :
  hex (Sum sha256.New224 (repeat 97 200%nat))
  = "2559984fd15e055f0d84c346483508242f02653ab7956401e551511c"%string.
Proof. vm_compute. reflexivity. Qed.

Example kat_sha256_long :
  hex (Sum sha256.New (repeat 97 200%nat))
  = "c2a908d98f5df987ade41b5fce213067efbcc21ef2240212a41e54b5e7c28ae5"%string.
Proof. vm_compute. reflexivity. Qed.

Example kat_sha384_long :
  hex (Sum sha512.New384 (repeat 97 200%nat))
  = "0691b6e978614b67d60557b2a2cddd53406508522efa21c624dbbfa8ab6e726d5c586b489c7c09f24109a64c10211d48"%string.
Proof. vm_compute. reflexivity. Qed.

Example kat_sha512_long :
  hex (Sum sha512.New (repeat 97 200%nat))
  = "4b11459c33f52a22ee8236782714c150a3b2c60994e9acee17fe68947a3e6789f31e7668394592da7bef827cddca88c4e6f86e4df7ed1ae6cba71f3e98faee9f"%string.
Proof. vm_compute. reflexivity. Qed.

Example kat_sha3_224_long :
  hex (Sum sha3.New224 (repeat 97 200%nat))
  = "455e0ccfc6010738ed93a793dffd79aff36debbd1a7eb6621bd6c722"%string.
Proof. vm_compute. reflexivity. Qed.

Example kat_sha3_256_long :
  hex (Sum sha3.New256 (repeat 97 200%nat))
  = "cce34485baf2bf2aca99b94833892a4f52896d3d153f7b840cc4f9fe695f1387"%string.
Proof. vm_compute. reflexivity. Qed.

Example kat_sha3_384_long :
  hex (Sum sha3.New384 (repeat 97 200%nat))
  = "f97756776c1874724c94a8008f7f155553b4bf00fbf8fbeac246624ad59c258a3c0977d9f2543d7cbd75b9ac8fdc0d40"%string.
Proof. vm_compute. reflexivity. Qed.

Example kat_sha3_512_long :
  hex (Sum sha3.New512 (repeat 97 200%nat))
  = "eae6c85c6904f11075de9f9d5e1064371d000510fa3d2d79d40cf9be34892fb01859d0a0234e138bcb0ad5c84f6c0dca226a414b0c9a2897cb695f5185fe36ec"%string.
Proof. vm_compute. reflexivity. Qed.

Example kat_blake2s_256_long :
  hex (Sum blake2s.New256 (repeat 97 200%nat))
  = "2b033f9f5ba9cf20671da79e492f41545e673b562603945ffed09662fd92321a"%string.
Proof. vm_compute. reflexivity. Qed.

Example kat_blake2b_256_long :
  hex (Sum blake2b.New256 (repeat 97 200%nat))
  = "6b6e59aaf00eb730cf93de53560846722184bbd92f8368c21ffa95380c2f9fe6"%string.
Proof. vm_compute. reflexivity. Qed.

Example kat_blake2b_384_long :
  hex (Sum blake2b.New384 (repeat 97 200%nat))
  = "95626f5748cefc58a0fb5f7d708a7d980ebea42348848f53648a980822679cd081fdaf6713885f3340ccb733207bbdec"%string.
Proof. vm_compute. reflexivity. Qed.

Example kat_blake2b_512_long :
  hex (Sum blake2b.New512 (repeat 97 200%nat))
  = "932355851d75f09c18646a9da87c25e055bc57f113121ad1ec63d45e7a1d62ab9133f8b7d1d7de9e0afa784eb6a8a11d78683013d0a672611f17668d9577d209"%string.
Proof. vm_compute. reflexivity. Qed.

Example kat_md5_long :
  hex (Sum md5.New (repeat 97 200%nat))
  = "887f30b43b2867f4a9accceee7d16e6c"%string.
Proof. vm_compute. reflexivity. Qed.

Example kat_hmac_sha1 :
  hex (Sum (hmac.New sha1.New (bytes_of_string "Jefe"))
            (bytes_of_string "what do ya want for nothing?"))
  = "effcdf6ae5eb2fa2d27416d5f184df9c259a7c79"%string.
Proof. vm_compute. reflexivity. Qed.

Example kat_hmac_sha224 :
  hex (Sum (hmac.New sha256.New224 (bytes_of_string "Jefe"))
            (bytes_of_string "what do ya want for nothing?"))
  = "a30e01098bc6dbbf45690f3a7e9e6d0f8bbea2a39e6148008fd05e44"%string.
Proof. vm_compute. reflexivity. Qed.

Example kat_hmac_sha256 :
  hex (Sum (hmac.New sha256.New (bytes_of_string "Jefe"))
            (bytes_of_string "what do ya want for nothing?"))
  = "5bdcc146bf60754e6a042426089575c75a003f089d2739839dec58b964ec3843"%string.
Proof. vm_compute. reflexivity. Qed.

Example kat_hmac_sha384 :
  hex (Sum (hmac.New sha512.New384 (bytes_of_string "Jefe"))
            (bytes_of_string "what do ya want for nothing?"))
  = "af45d2e376484031617f78d2b58a6b1b9c7ef464f5a01b47e42ec3736322445e8e2240ca5e69e2c78b3239ecfab21649"%string.
Proof. vm_compute. reflexivity. Qed.

Example kat_hmac_sha512 :
  hex (Sum (hmac.New sha512.New (bytes_of_string "Jefe"))
            (bytes_of_string "what do ya want for nothing?"))
  = "164b7a7bfcf819e2e395fbe73b56e0a387bd64222e831fd610270cd7ea2505549758bf75c05a994a6d034f65f8f0e6fdcaeab1a34d4a6b4b636e070a38bce737"%string.
Proof. vm_compute. reflexivity. Qed.

Example kat_hmac_sha3_224 :
  hex (Sum (hmac.New sha3.New224 (bytes_of_string "Jefe"))
            (bytes_of_string "what do ya want for nothing?"))
  = "7fdb8dd88bd2f60d1b798634ad386811c2cfc85bfaf5d52bbace5e66"%string.
Proof. vm_compute. reflexivity. Qed.

Example kat_hmac_sha3_256 :
  hex (Sum (hmac.New sha3.New256 (bytes_of_string "Jefe"))
            (bytes_of_string "what do ya want for nothing?"))
  = "c7d4072e788877ae3596bbb0da73b887c9171f93095b294ae857fbe2645e1ba5"%string.
Proof. vm_compute. reflexivity. Qed.

Example kat_hmac_sha3_384 :
  hex (Sum (hmac.New sha3.New384 (bytes_of_string "Jefe"))
            (bytes_of_string "what do ya want for nothing?"))
  = "f1101f8cbf9766fd6764d2ed61903f21ca9b18f57cf3e1a23ca13508a93243ce48c045dc007f26a21b3f5e0e9df4c20a"%string.
Proof. vm_compute. reflexivity. Qed.

Example kat_hmac_sha3_512 :
  hex (Sum (hmac.New sha3.New512 (bytes_of_string "Jefe"))
            (bytes_of_string "what do ya want for nothing?"))
  = "5a4bfeab6166427c7a3647b747292b8384537cdb89afb3bf5665e4c5e709350b287baec921fd7ca0ee7a0c31d022a95e1fc92ba9d77df883960275beb4e62024"%string.
Proof. vm_compute. reflexivity. Qed.

Example kat_hmac_blake2s_256 :
  hex (Sum (hmac.New blake2s.New256 (bytes_of_string "Jefe"))
            (bytes_of_string "what do ya want for nothing?"))
  = "90b6281e2f3038c9056af0b4a7e763cae6fe5d9eb4386a0ec95237890c104ff0"%string.
Proof. vm_compute. reflexivity. Qed.

Example kat_hmac_blake2b_256 :
  hex (Sum (hmac.New blake2b.New256 (bytes_of_string "Jefe"))
            (bytes_of_string "what do ya want for nothing?"))
  = "3cf096eeeb2202a250db168c4823a44ef4618ebabb225789386fed316131e3a0"%string.
Proof. vm_compute. reflexivity. Qed.

Example kat_hmac_blake2b_384 :
  hex (Sum (hmac.New blake2b.New384 (bytes_of_string "Jefe"))
            (bytes_of_string "what do ya want for nothing?"))
  = "e87f61624bc6c1db706a1efcc98e7e98c0ab8fea0978dbd87e2852406fdd313c87968c5b825847f3c04d975b8b88598d"%string.
Proof. vm_compute. reflexivity. Qed.

Example kat_hmac_blake2b_512 :
  hex (Sum (hmac.New blake2b.New512 (bytes_of_string "Jefe"))
            (bytes_of_string "what do ya want for nothing?"))
  = "6ff884f8ddc2a6586b3c98a4cd6ebdf14ec10204b6710073eb5865ade37a2643b8807c1335d107ecdb9ffeaeb6828c4625ba172c66379efcd222c2de11727ab4"%string.
Proof. vm_compute. reflexivity. Qed.

Example kat_hmac_md5 :
  hex (Sum (hmac.New md5.New (bytes_of_string "Jefe"))
            (bytes_of_string "what do ya want for nothing?"))
  = "750c783e6ab0b503eaa86e310a5db738"%string.
Proof. vm_compute. reflexivity. Qed.

Example kat_hmac_sha1_long_key :
  hex (Sum (hmac.New sha1.New (repeat 170 200%nat)) (bytes_of_string "Hi There"))
  = "647dbf0b050c458a21da21696c798e9b1c40be5a"%string.
Proof. vm_compute. reflexivity. Qed.

Example kat_hmac_sha3_512_long_key :
  hex (Sum (hmac.New sha3.New512 (repeat 170 200%nat)) (bytes_of_string "Hi There"))
  = "68e269399a2bf2090977a635da97f883529588d0e2e32ebfd2c2765537be42e8a3b9dd5d18cf7451f7ecf4534494298357c9bcb2a5c9def3cbf0f4e198bc760e"%string.
Proof. vm_compute. reflexivity. Qed.

Example kat_hmac_md5_long_key :
  hex (Sum (hmac.New md5.New (repeat 170 200%nat)) (bytes_of_string "Hi There"))
  = "6bba6c757536e0c044780528a1a6807e"%string.
Proof. vm_compute. reflexivity. Qed.

Example kat_base32_0 :
  (base32.EncodeToString (bytes_of_string ""),
   base32.DecodeString "")
  = (""%string, (bytes_of_string "", None)).
Proof. vm_compute. reflexivity. Qed.

Example kat_base32_1 :
  (base32.EncodeToString (bytes_of_string "f"),
   base32.DecodeString "MY======")
  = ("MY======"%string, (bytes_of_string "f", None)).
Proof. vm_compute. reflexivity. Qed.

Example kat_base32_2 :
  (base32.EncodeToString (bytes_of_string "fo"),
   base32.DecodeString "MZXQ====")
  = ("MZXQ===="%string, (bytes_of_string "fo", None)).
Proof. vm_compute. reflexivity. Qed.

Example kat_base32_3 :
  (base32.EncodeToString (bytes_of_string "foo"),
   base32.DecodeString "MZXW6===")
  = ("MZXW6==="%string, (bytes_of_string "foo", None)).
Proof. vm_compute. reflexivity. Qed.

Example kat_base32_4 :
  (base32.EncodeToString (bytes_of_string "foob"),
   base32.DecodeString "MZXW6YQ=")
  = ("MZXW6YQ="%string, (bytes_of_string "foob", None)).
Proof. vm_compute. reflexivity. Qed.

Example kat_base32_5 :
  (base32.EncodeToString (bytes_of_string "fooba"),
   base32.DecodeString "MZXW6YTB")
  = ("MZXW6YTB"%string, (bytes_of_string "fooba", None)).
Proof. vm_compute. reflexivity. Qed.

Example kat_base32_6 :
  (base32.EncodeToString (bytes_of_string "foobar"),
   base32.DecodeString "MZXW6YTBOI======")
  = ("MZXW6YTBOI======"%string, (bytes_of_string "foobar", None)).
Proof. vm_compute. reflexivity. Qed.

Example kat_base32_corrupt :
  map (fun s => snd (base32.DecodeString s))
      ["MZXW6YT!"; "MZXW6"; "M======="; "AA=A===="; "AAA=AAAA"; "MMMMMMMMM";
       "AA=="; "AAAAA=="]%string
  = map base32.CorruptInputError [7; 0; 1; 2; 3; 8; 4; 7].
Proof. vm_compute. reflexivity. Qed.

Example kat_utf8 :
  map utf8.DecodeRune
      [[0x30]; [0xD9; 0xA0]; [0xD9]; [0x80]; [0xC0; 0x80]; [0xE0; 0x80; 0x80];
       [0xED; 0xA0; 0x80]; [0xEF; 0xBC; 0x91]; [0xF0; 0x9D; 0x9F; 0x8E];
       [0xF4; 0x90; 0x80; 0x80]]
  = [(0x30, 1%nat); (0x660, 2%nat); (0xFFFD, 1%nat); (0xFFFD, 1%nat);
     (0xFFFD, 1%nat); (0xFFFD, 1%nat); (0xFFFD, 1%nat); (0xFF11, 3%nat);
     (0x1D7CE, 4%nat); (0xFFFD, 1%nat)].
Proof. vm_compute. reflexivity. Qed.

Example kat_IsDigit :
  map unicode.IsDigit [0x2F; 0x30; 0x39; 0x3A; 0xB2; 0x660; 0x66A; 0xFF11; 0x1D7CE; 0xFFFD]
  = [false; true; true; false; false; true; false; true; true; false].
Proof. vm_compute. reflexivity. Qed.

(** * Lengths of the digests *)

Section FoldInvariant.
Context {A B : Type} (P : A -> Prop) (f : A -> B -> A).
Hypothesis step : forall a b, P a -> P (f a b).

Lemma fold_left_inv : forall (l : list B) (a : A), P a -> P (fold_left f l a).
Proof using step.
  induction l as [|b l IH]; intros a Ha; simpl; auto.
Qed.
End FoldInvariant.

Lemma be_bytes_length : forall n x, length (be_bytes n x) = n.
Proof. induction n; intros; simpl; auto. Qed.

Lemma le_bytes_length : forall n x, length (le_bytes n x) = n.
Proof. induction n; intros; simpl; auto. Qed.

Lemma flat_map_const_length {A B : Type} (f : A -> list B) (n : nat) :
  (forall x, length (f x) = n) ->
  forall l, length (flat_map f l) = (n * length l)%nat.
Proof.
  intros Hf l. induction l as [|x l IH]; simpl.
  - lia.
  - rewrite length_app, Hf, IH. lia.
Qed.

Lemma set_nth_length : forall s n v, length (set_nth s n v) = length s.
Proof.
  induction s as [|x s IH]; intros [|n] v; simpl; auto.
Qed.

Lemma sha1_Sum_length : forall m, length (sha1.Sum m) = 20%nat.
Proof.
  intros m. unfold sha1.Sum.
  destruct (fold_left sha1.block _ sha1.init) as [[[[h0 h1] h2] h3] h4].
  reflexivity.
Qed.

Lemma md5_Sum_length : forall m, length (md5.Sum m) = 16%nat.
Proof.
  intros m. unfold md5.Sum.
  destruct (fold_left md5.block _ md5.init) as [[[h0 h1] h2] h3].
  reflexivity.
Qed.

Lemma sha2_block_length wb K b0 b1 s0 s1 h p :
  length (sha2.block wb K b0 b1 s0 s1 h p) = 8%nat.
Proof.
  unfold sha2.block.
  match goal with
  | |- context [fold_left ?f ?l ?i] =>
      destruct (fold_left f l i) as [[[[[[[a b] c] d] e] f'] g] hh]
  end.
  reflexivity.
Qed.

Lemma sha2_digest_length wb K b0 b1 s0 s1 iv outlen m :
  length iv = 8%nat -> (outlen <= wb * 8)%nat ->
  length (sha2.digest wb K b0 b1 s0 s1 iv outlen m) = outlen.
Proof.
  intros Hiv Hout. unfold sha2.digest.
  rewrite length_firstn, (flat_map_const_length _ wb) by apply be_bytes_length.
  rewrite (fold_left_inv (fun h => length h = 8%nat));
    [ lia | intros; apply sha2_block_length | exact Hiv ].
Qed.

Lemma sha3_round_length s rc : length (sha3.round s rc) = 25%nat.
Proof. unfold sha3.round, sha3.iota. now rewrite length_map, length_seq. Qed.

Lemma sha3_keccakF1600_length s :
  length s = 25%nat -> length (sha3.keccakF1600 s) = 25%nat.
Proof.
  intros Hs. unfold sha3.keccakF1600.
  apply (fold_left_inv (fun h => length h = 25%nat));
    [ intros; apply sha3_round_length | exact Hs ].
Qed.

Lemma sha3_digest_length rate outlen m :
  (outlen <= 200)%nat -> length (sha3.digest rate outlen m) = outlen.
Proof.
  intros Hout. unfold sha3.digest.
  rewrite length_firstn, (flat_map_const_length _ 8) by apply le_bytes_length.
  rewrite (fold_left_inv (fun h => length h = 25%nat));
    [ lia | | apply repeat_length ].
  intros a b _. unfold sha3.absorb. apply sha3_keccakF1600_length.
  now rewrite length_map, length_seq.
Qed.

Lemma blake2_compress_length wb rounds R IV h p t last :
  length (blake2.compress wb rounds R IV h p t last) = 8%nat.
Proof. unfold blake2.compress. now rewrite length_map, length_seq. Qed.

Lemma blake2_absorb_length wb rounds R IV :
  forall blocks h t, length (blake2.absorb wb rounds R IV h t blocks) = 8%nat.
Proof.
  induction blocks as [|p tl IH]; intros h t.
  - apply blake2_compress_length.
  - destruct tl as [|q tl'].
    + apply blake2_compress_length.
    + change (length (blake2.absorb wb rounds R IV
                        (blake2.compress wb rounds R IV h p
                           (t + Z.of_nat (length p)) false)
                        (t + Z.of_nat (length p)) (q :: tl')) = 8%nat).
      apply IH.
Qed.

Lemma blake2_digest_length wb rounds R IV outlen m :
  (outlen <= wb * 8)%nat ->
  length (blake2.digest wb rounds R IV outlen m) = outlen.
Proof.
  intros Hout. unfold blake2.digest.
  rewrite length_firstn, (flat_map_const_length _ wb) by apply le_bytes_length.
  rewrite blake2_absorb_length. lia.
Qed.

(** Every constructor of the registry yields digests of its declared size. *)
Lemma hash_Sum_length : forall a m, length (Sum (hash a) m) = Size (hash a).
Proof.
  intros a m. unfold hash.
  repeat match goal with
         | |- context [if ?b then _ else _] => destruct b
         end; cbn [Sum Size sha1.New sha256.New sha256.New224 sha512.New
                   sha512.New384 sha3.New224 sha3.New256 sha3.New384 sha3.New512
                   blake2s.New256 blake2b.New256 blake2b.New384 blake2b.New512
                   md5.New];
    first [ apply sha1_Sum_length
          | apply md5_Sum_length
          | apply sha2_digest_length; [reflexivity | cbv; lia]
          | apply sha3_digest_length; cbv; lia
          | apply blake2_digest_length; cbv; lia ].
Qed.

Lemma hash_Size_cases : forall a,
  (a = AlgorithmMD5 /\ Size (hash a) = 16%nat) \/
  (a <> AlgorithmMD5 /\ (20 <= Size (hash a))%nat).
Proof.
  intros a. unfold hash.
  repeat match goal with
         | |- context [if ?x =? ?y then _ else _] =>
             destruct (Z.eqb_spec x y)
         end; subst;
    try (right; split; [discriminate | cbn; lia]).
  - left; split; reflexivity.
  - right; split; [ unfold AlgorithmMD5 in *; lia | cbn; lia ].
Qed.

Lemma hmac_Sum_length : forall h key m,
  (forall x, length (Sum h x) = Size h) ->
  length (Sum (hmac.New h key) m) = Size h.
Proof. intros h key m Hh. cbn. unfold hmac.mac. apply Hh. Qed.

(** * Properties of the engine *)

(** ** Slices and machine integers *)

Lemma index_in_range s i :
  0 <= i < Z.of_nat (length s) -> index s i = Returns (nth (Z.to_nat i) s 0).
Proof.
  intros H. unfold index.
  destruct (Z.leb_spec 0 i), (Z.ltb_spec i (Z.of_nat (length s))); simpl;
    try lia; reflexivity.
Qed.

Lemma index_out_of_range s i :
  Z.of_nat (length s) <= i ->
  index s i = Panics "runtime error: index out of range".
Proof.
  intros H. unfold index.
  destruct (Z.ltb_spec i (Z.of_nat (length s))); try lia.
  now rewrite andb_false_r.
Qed.

Lemma store_in_range s i v :
  0 <= i < Z.of_nat (length s) -> store s i v = Returns (set_nth s (Z.to_nat i) v).
Proof.
  intros H. unfold store.
  destruct (Z.leb_spec 0 i), (Z.ltb_spec i (Z.of_nat (length s))); simpl;
    try lia; reflexivity.
Qed.

Lemma land_15_range x : 0 <= Z.land x 0x0F <= 15.
Proof.
  assert (E : Z.land x 0x0F = x mod 16) by (apply (Z.land_ones x 4); lia).
  rewrite E. pose proof (Z.mod_pos_bound x 16 eq_refl). lia.
Qed.

Lemma land_ones_range x n : 0 <= n -> 0 <= Z.land x (Z.ones n) < 2 ^ n.
Proof.
  intros Hn. rewrite Z.land_ones by lia. apply Z.mod_pos_bound. lia.
Qed.

Lemma byte_small x : 0 <= x < 256 -> byte x = x.
Proof. intros H. unfold byte. now apply Z.mod_small. Qed.

Lemma int64_small x : MinInt64 <= x <= MaxInt64 -> int64 x = x.
Proof.
  unfold int64, MinInt64, MaxInt64. intros H.
  rewrite Z.mod_small; lia.
Qed.

Lemma int64_range x : MinInt64 <= int64 x <= MaxInt64.
Proof.
  unfold int64, MinInt64, MaxInt64.
  pose proof (Z.mod_pos_bound (x + 2 ^ 63) (2 ^ 64)). lia.
Qed.

(** ** The resolver's postcondition *)

Ltac resolve_fields :=
  cbn [set_Algorithm set_Digits set_Period set_Skew
       Algorithm Digits Period Skew Secret ConfigDefault].

(** The resolver in closed form: each field is tested and replaced on its
    own. *)
Lemma configDefault_cons c tl :
  configDefault (c :: tl) =
  {| Algorithm := if (Algorithm c <? AlgorithmSHA1) || (AlgorithmMD5 <? Algorithm c)
                  then AlgorithmSHA1 else Algorithm c;
     Digits := if (Digits c <? DigitsFour) || (DigitsEight <? Digits c)
               then DigitsSix else Digits c;
     Period := if Period c <=? 0 then 30 else Period c;
     Secret := Secret c;
     Skew := if Skew c <? 0 then 1 else Skew c |}.
Proof.
  destruct c as [a d p s k]. unfold configDefault.
  cbn [Algorithm Digits Period Skew Secret].
  destruct ((a <? AlgorithmSHA1) || (AlgorithmMD5 <? a)); resolve_fields;
    destruct ((d <? DigitsFour) || (DigitsEight <? d)); resolve_fields;
    destruct (p <=? 0); resolve_fields;
    destruct (k <? 0); reflexivity.
Qed.

Lemma configDefault_resolved config :
  let c := configDefault config in
  AlgorithmSHA1 <= Algorithm c <= AlgorithmMD5 /\
  DigitsFour <= Digits c <= DigitsEight /\
  0 < Period c /\ 0 <= Skew c.
Proof.
  destruct config as [|c tl]; cbv zeta.
  - cbv. repeat split; discriminate.
  - rewrite configDefault_cons. cbn [Algorithm Digits Period Skew].
    unfold AlgorithmSHA1, AlgorithmMD5, DigitsFour, DigitsEight, DigitsSix.
    destruct (Z.ltb_spec (Algorithm c) 0), (Z.ltb_spec 13 (Algorithm c)),
      (Z.ltb_spec (Digits c) 4), (Z.ltb_spec 8 (Digits c)),
      (Z.leb_spec (Period c) 0), (Z.ltb_spec (Skew c) 0); cbn [orb]; lia.
Qed.

Lemma pow10_iter d :
  0 <= d <= 18 -> Nat.iter (Z.to_nat d) (fun x => int64 (x * 10)) 1 = 10 ^ d.
Proof.
  intros Hd.
  assert (H : forall n : nat, (n <= 18)%nat ->
                Nat.iter n (fun x => int64 (x * 10)) 1 = 10 ^ Z.of_nat n).
  { induction n as [|n IH]; intros Hn.
    - reflexivity.
    - rewrite Nat.iter_succ, IH by lia.
      rewrite Nat2Z.inj_succ, Z.pow_succ_r by lia.
      rewrite int64_small; [lia|].
      assert (10 ^ Z.of_nat n <= 10 ^ 17) by (apply Z.pow_le_mono_r; lia).
      assert (0 < 10 ^ Z.of_nat n) by (apply Z.pow_pos_nonneg; lia).
      unfold MinInt64, MaxInt64. lia. }
  rewrite H by lia. f_equal. lia.
Qed.

(** What [New] establishes about the engine it returns. *)
Lemma New_Returns config o :
  New config = Returns o ->
  cfg o = configDefault config /\
  base32.DecodeString (Secret (configDefault config)) = (decodedSecret o, None) /\
  divisor o = 10 ^ Digits (cfg o).
Proof.
  unfold New.
  destruct (base32.DecodeString (Secret (configDefault config))) as [b [e|]];
    intros H; inversion H; subst; clear H. cbn [cfg decodedSecret divisor].
  repeat split.
  apply pow10_iter.
  pose proof (configDefault_resolved config) as R. cbv zeta in R.
  unfold DigitsFour, DigitsEight in R. lia.
Qed.

(** ** formatCode *)

Lemma skipn_set_nth : forall s n v,
  (n < length s)%nat -> skipn n (set_nth s n v) = v :: skipn (S n) s.
Proof.
  induction s as [|x s IH]; intros [|n] v H; simpl in *; try lia; auto.
  apply IH. lia.
Qed.

Lemma firstn_set_nth : forall s n v, firstn n (set_nth s n v) = firstn n s.
Proof.
  induction s as [|x s IH]; intros [|n] v; simpl; auto. now rewrite IH.
Qed.

Lemma digits_of_length : forall n code, length (digits_of n code) = n.
Proof.
  induction n; intros; simpl; auto. rewrite length_app, IHn. simpl. lia.
Qed.

Lemma formatCode_loop_Returns : forall n buf code,
  (n <= length buf)%nat ->
  formatCode_loop n buf code = Returns (digits_of n code ++ skipn n buf).
Proof.
  induction n as [|i IH]; intros buf code Hn.
  - reflexivity.
  - cbn [formatCode_loop digits_of].
    rewrite store_in_range by lia. cbn [bind].
    rewrite Nat2Z.id, IH by (rewrite set_nth_length; lia).
    rewrite skipn_set_nth by lia.
    now rewrite <- app_assoc.
Qed.

Lemma formatCode_loop_Panics : forall n buf code,
  (length buf < n)%nat ->
  formatCode_loop n buf code = Panics "runtime error: index out of range".
Proof.
  intros [|i] buf code Hn; [simpl in Hn; lia|].
  cbn [formatCode_loop]. unfold store.
  destruct (Z.ltb_spec (Z.of_nat i) (Z.of_nat (length buf))); try lia.
  now rewrite andb_false_r.
Qed.

Lemma digits_of_digit : forall n code,
  0 <= code -> Forall is_digit_byte (digits_of n code).
Proof.
  induction n as [|i IH]; intros code Hc; cbn [digits_of].
  - constructor.
  - apply Forall_app. split.
    + apply IH. apply Z.quot_pos; lia.
    + constructor; [|constructor].
      unfold is_digit_byte.
      pose proof (Z.rem_bound_pos code 10 Hc ltac:(lia)).
      rewrite byte_small; lia.
Qed.

(** ** The dynamic truncation *)

Lemma pack31_range b0 b1 b2 b3 :
  0 <= Z.lor (Z.lor (Z.lor (Z.shiftl (Z.land b0 0x7F) 24)
                          (Z.shiftl (Z.land b1 0xFF) 16))
                   (Z.shiftl (Z.land b2 0xFF) 8))
             (Z.land b3 0xFF) < 2 ^ 31.
Proof.
  pose proof (land_ones_range b0 7 ltac:(lia)) as H0.
  pose proof (land_ones_range b1 8 ltac:(lia)) as H1.
  pose proof (land_ones_range b2 8 ltac:(lia)) as H2.
  pose proof (land_ones_range b3 8 ltac:(lia)) as H3.
  change (Z.ones 7) with 0x7F in H0. change (Z.ones 8) with 0xFF in H1, H2, H3.
  generalize dependent (Z.land b0 0x7F). generalize dependent (Z.land b1 0xFF).
  generalize dependent (Z.land b2 0xFF). generalize dependent (Z.land b3 0xFF).
  intros x3 H3 x2 H2 x1 H1 x0 H0.
  assert (S0 : 0 <= Z.shiftl x0 24 < 2 ^ 31) by (rewrite Z.shiftl_mul_pow2; lia).
  assert (S1 : 0 <= Z.shiftl x1 16 < 2 ^ 31) by (rewrite Z.shiftl_mul_pow2; lia).
  assert (S2 : 0 <= Z.shiftl x2 8 < 2 ^ 31) by (rewrite Z.shiftl_mul_pow2; lia).
  assert (Hlor : forall a b, 0 <= a < 2 ^ 31 -> 0 <= b < 2 ^ 31 ->
                             0 <= Z.lor a b < 2 ^ 31).
  { intros a b Ha Hb. split; [apply Z.lor_nonneg; lia|].
    destruct (Z.eq_dec (Z.lor a b) 0) as [->|Hne]; [lia|].
    assert (0 <= Z.lor a b) by (apply Z.lor_nonneg; lia).
    apply Z.log2_lt_pow2; [lia|].
    rewrite Z.log2_lor by lia.
    assert (Hlt : forall c, 0 <= c < 2 ^ 31 -> Z.log2 c < 31).
    { intros c Hc. destruct (Z.eq_dec c 0) as [->|Hc0]; [simpl; lia|].
      apply Z.log2_lt_pow2; lia. }
    pose proof (Hlt a Ha). pose proof (Hlt b Hb). lia. }
  apply Hlor; [apply Hlor; [apply Hlor|]|]; lia.
Qed.

Lemma truncation_range d : 0 <= truncation d < 2 ^ 31.
Proof. unfold truncation. apply pack31_range. Qed.

(** ** Strings and byte slices *)

Lemma string_of_list_ascii_length : forall l,
  String.length (string_of_list_ascii l) = length l.
Proof. induction l; simpl; auto. Qed.

Lemma list_ascii_of_string_length : forall s,
  length (list_ascii_of_string s) = String.length s.
Proof. induction s; simpl; auto. Qed.

Lemma string_of_bytes_length l : String.length (string_of_bytes l) = length l.
Proof.
  unfold string_of_bytes. now rewrite string_of_list_ascii_length, length_map.
Qed.

Lemma bytes_of_string_length s : length (bytes_of_string s) = String.length s.
Proof.
  unfold bytes_of_string. now rewrite length_map, list_ascii_of_string_length.
Qed.

Lemma bytes_of_string_is_byte s : Forall is_byte (bytes_of_string s).
Proof.
  unfold bytes_of_string. apply Forall_map, Forall_forall. intros c _.
  unfold is_byte. pose proof (N_ascii_bounded c). lia.
Qed.

Lemma string_of_bytes_of_string s : string_of_bytes (bytes_of_string s) = s.
Proof.
  unfold string_of_bytes, bytes_of_string. rewrite map_map.
  rewrite <- (string_of_list_ascii_of_string s) at 2. f_equal.
  rewrite <- (map_id (list_ascii_of_string s)) at 2.
  apply map_ext. intros c.
  pose proof (N_ascii_bounded c).
  rewrite byte_small by lia. rewrite N2Z.id. apply ascii_N_embedding.
Qed.

Lemma bytes_of_string_of_bytes l :
  Forall is_byte l -> bytes_of_string (string_of_bytes l) = l.
Proof.
  intros Hl. unfold string_of_bytes, bytes_of_string.
  rewrite list_ascii_of_string_of_list_ascii, map_map.
  rewrite <- (map_id l) at 2. apply map_ext_Forall.
  eapply Forall_impl; [|exact Hl]. intros b Hb. unfold is_byte in Hb.
  rewrite byte_small by lia. rewrite N_ascii_embedding by lia. lia.
Qed.

Lemma bytes_of_string_inj s1 s2 :
  bytes_of_string s1 = bytes_of_string s2 -> s1 = s2.
Proof.
  intros H. rewrite <- (string_of_bytes_of_string s1), H.
  apply string_of_bytes_of_string.
Qed.

Lemma is_digit_byte_is_byte b : is_digit_byte b -> is_byte b.
Proof. unfold is_digit_byte, is_byte. lia. Qed.

(** ** crypto/subtle *)

Lemma ConstantTimeByteEq_zero v :
  0 <= v < 256 -> (subtle.ConstantTimeByteEq v 0 = 1 <-> v = 0).
Proof.
  intros Hv. unfold subtle.ConstantTimeByteEq, uint32.
  rewrite Z.lxor_0_r. rewrite (Z.mod_small v) by lia.
  destruct (Z.eq_dec v 0) as [->|Hne].
  - split; [reflexivity|]. intros _. reflexivity.
  - split; [|lia]. rewrite Z.mod_small by lia.
    rewrite Z.shiftr_div_pow2 by lia. rewrite Z.div_small by lia. discriminate.
Qed.

Lemma lor_lxor_byte v a b :
  0 <= v < 256 -> is_byte a -> is_byte b -> 0 <= Z.lor v (Z.lxor a b) < 256.
Proof.
  unfold is_byte. intros Hv Ha Hb.
  assert (Hx : 0 <= Z.lxor a b) by (apply Z.lxor_nonneg; lia).
  assert (Hl : 0 <= Z.lor v (Z.lxor a b)) by (apply Z.lor_nonneg; lia).
  split; [exact Hl|].
  assert (Hlt : forall c, 0 <= c < 2 ^ 8 -> Z.log2 c < 8).
  { intros c Hc. destruct (Z.eq_dec c 0) as [->|Hc0]; [simpl; lia|].
    apply Z.log2_lt_pow2; lia. }
  destruct (Z.eq_dec (Z.lor v (Z.lxor a b)) 0) as [->|Hne]; [lia|].
  change 256 with (2 ^ 8). apply Z.log2_lt_pow2; [lia|].
  rewrite Z.log2_lor by lia.
  pose proof (Z.log2_lxor a b ltac:(lia) ltac:(lia)).
  pose proof (Hlt v ltac:(lia)). pose proof (Hlt a ltac:(lia)).
  pose proof (Hlt b ltac:(lia)). lia.
Qed.

Lemma fold_lor_lxor : forall xy v,
  0 <= v < 256 ->
  Forall (fun ab => is_byte (fst ab) /\ is_byte (snd ab)) xy ->
  let r := fold_left (fun v ab => Z.lor v (Z.lxor (fst ab) (snd ab))) xy v in
  0 <= r < 256 /\
  (r = 0 <-> v = 0 /\ Forall (fun ab => fst ab = snd ab) xy).
Proof.
  induction xy as [|[a b] tl IH]; intros v Hv Hall; cbn [fold_left fst snd].
  - split; [exact Hv|]. split; [intros ->; split; [reflexivity|constructor] | tauto].
  - inversion Hall as [|? ? [Ha Hb] Htl]; subst. cbn [fst snd] in Ha, Hb.
    pose proof (lor_lxor_byte v a b Hv Ha Hb) as Hr.
    destruct (IH _ Hr Htl) as [R1 R2]. split; [exact R1|].
    rewrite R2, Z.lor_eq_0_iff, Z.lxor_eq_0_iff.
    split.
    + intros [[-> ->] F]. split; [reflexivity|]. constructor; auto.
    + intros [-> F]. inversion F; subst. cbn [fst snd] in *. subst. tauto.
Qed.

Lemma combine_eq_iff : forall x y : list Z,
  length x = length y ->
  (Forall (fun ab => fst ab = snd ab) (combine x y) <-> x = y).
Proof.
  induction x as [|a x IH]; intros [|b y] Hlen; simpl in *; try discriminate.
  - split; [reflexivity|constructor].
  - injection Hlen as Hlen. split.
    + intros F. inversion F; subst. cbn [fst snd] in *. subst.
      f_equal. now apply IH.
    + intros E. injection E as -> ->. constructor; [reflexivity|]. now apply IH.
Qed.

Lemma combine_is_byte : forall x y : list Z,
  Forall is_byte x -> Forall is_byte y ->
  Forall (fun ab => is_byte (fst ab) /\ is_byte (snd ab)) (combine x y).
Proof.
  induction x as [|a x IH]; intros [|b y] Hx Hy; simpl; try constructor.
  - inversion Hx; inversion Hy; subst. cbn. tauto.
  - inversion Hx; inversion Hy; subst. now apply IH.
Qed.

(** The comparison returns 1 exactly on equal byte slices. *)
Lemma ConstantTimeCompare_spec x y :
  Forall is_byte x -> Forall is_byte y ->
  (subtle.ConstantTimeCompare x y = 1 <-> x = y).
Proof.
  intros Hx Hy. unfold subtle.ConstantTimeCompare.
  destruct (Nat.eqb_spec (length x) (length y)) as [Hlen|Hlen]; cbn [negb].
  - pose proof (fold_lor_lxor (combine x y) 0 ltac:(lia)
                  (combine_is_byte x y Hx Hy)) as [R1 R2]. cbv zeta in R1, R2.
    rewrite ConstantTimeByteEq_zero by exact R1.
    rewrite R2, combine_eq_iff by exact Hlen. tauto.
  - split; [discriminate|]. intros ->. contradiction.
Qed.

Lemma ConstantTimeCompare_strings s1 s2 :
  (subtle.ConstantTimeCompare (bytes_of_string s1) (bytes_of_string s2) =? 1) = true
  <-> s1 = s2.
Proof.
  rewrite Z.eqb_eq, ConstantTimeCompare_spec by apply bytes_of_string_is_byte.
  split; [apply bytes_of_string_inj | now intros ->].
Qed.

(** ** GenerateForTime, in closed form *)

Lemma GenerateForTime_Returns o t :
  Period (cfg o) <> 0 ->
  divisor o = 10 ^ Digits (cfg o) ->
  0 <= Digits (cfg o) <= 8 ->
  (let d := hmacResult_at o t in
   Z.land (nth (length d - 1) d 0) 0x0F + 3 < Z.of_nat (length d)) ->
  GenerateForTime o t =
  Returns (string_of_bytes
             (digits_of (Z.to_nat (Digits (cfg o)))
                        (Z.rem (truncation (hmacResult_at o t)) (divisor o))),
           nil_error).
Proof.
  intros HP Hdiv Hdig Hlen. cbv zeta in Hlen. unfold GenerateForTime, div64.
  destruct (Z.eqb_spec (Period (cfg o)) 0) as [|_]; [contradiction|].
  cbn [bind]. fold (hmacResult_at o t).
  set (d := hmacResult_at o t) in *.
  pose proof (land_15_range (nth (length d - 1) d 0)) as Hoff.
  rewrite index_in_range by lia. cbn [bind].
  replace (Z.to_nat (Z.of_nat (length d) - 1)) with (length d - 1)%nat by lia.
  set (offset := Z.land (nth (length d - 1) d 0) 0x0F) in *.
  rewrite index_in_range by lia. cbn [bind].
  rewrite !byte_small by lia.
  rewrite !index_in_range by lia. cbn [bind].
  assert (Hpos : 0 < divisor o) by (rewrite Hdiv; apply Z.pow_pos_nonneg; lia).
  unfold rem64.
  destruct (Z.eqb_spec (divisor o) 0) as [|_]; [lia|]. cbn [bind].
  match goal with
  | |- context [Z.rem ?x (divisor o)] =>
      replace x with (truncation d)
        by (unfold truncation; fold offset; now rewrite Z.add_0_r)
  end.
  pose proof (truncation_range d) as Htr.
  pose proof (Z.rem_bound_pos (truncation d) (divisor o) ltac:(lia) Hpos) as Hrem.
  assert (Hle : Z.rem (truncation d) (divisor o) <= truncation d)
    by (rewrite Z.rem_mod_nonneg by lia; apply Z.mod_le; lia).
  rewrite int64_small by (unfold MinInt64, MaxInt64; lia).
  unfold formatCode.
  rewrite formatCode_loop_Returns by (rewrite repeat_length; lia).
  cbn [bind fst snd]. unfold slice_to.
  rewrite length_app, digits_of_length, length_skipn, repeat_length.
  destruct (Z.leb_spec 0 (Digits (cfg o))); [|lia].
  destruct (Z.leb_spec (Digits (cfg o))
              (Z.of_nat (Z.to_nat (Digits (cfg o)) + (8 - Z.to_nat (Digits (cfg o))))));
    [|lia].
  cbn [andb bind].
  rewrite firstn_app, digits_of_length, Nat.sub_diag, firstn_O, app_nil_r.
  rewrite firstn_all2 by (rewrite digits_of_length; lia).
  reflexivity.
Qed.

(** The dynamic truncation reads past the end of a digest that is too
    short for its offset: the call panics. *)
Lemma GenerateForTime_Panics o t :
  Period (cfg o) <> 0 ->
  let d := hmacResult_at o t in
  (0 < length d)%nat ->
  Z.of_nat (length d) <= Z.land (nth (length d - 1) d 0) 0x0F + 3 ->
  GenerateForTime o t = Panics "runtime error: index out of range".
Proof.
  intros HP d Hpos Hshort. unfold GenerateForTime, div64.
  destruct (Z.eqb_spec (Period (cfg o)) 0) as [|_]; [contradiction|].
  cbn [bind]. fold (hmacResult_at o t). fold d.
  rewrite index_in_range by lia. cbn [bind].
  replace (Z.to_nat (Z.of_nat (length d) - 1)) with (length d - 1)%nat by lia.
  pose proof (land_15_range (nth (length d - 1) d 0)) as Hoff.
  set (offset := Z.land (nth (length d - 1) d 0) 0x0F) in *.
  rewrite !byte_small by lia.
  destruct (Z.lt_ge_cases offset (Z.of_nat (length d))) as [H0|H0];
    [rewrite (index_in_range d offset) by lia
    |now rewrite (index_out_of_range d offset) by lia].
  cbn [bind].
  destruct (Z.lt_ge_cases (offset + 1) (Z.of_nat (length d))) as [H1|H1];
    [rewrite (index_in_range d (offset + 1)) by lia
    |now rewrite (index_out_of_range d (offset + 1)) by lia].
  cbn [bind].
  destruct (Z.lt_ge_cases (offset + 2) (Z.of_nat (length d))) as [H2|H2];
    [rewrite (index_in_range d (offset + 2)) by lia
    |now rewrite (index_out_of_range d (offset + 2)) by lia].
  cbn [bind].
  now rewrite (index_out_of_range d (offset + 3)) by lia.
Qed.

(** ** Engines built by New *)

Lemma New_engine config o :
  New config = Returns o ->
  AlgorithmSHA1 <= Algorithm (cfg o) <= AlgorithmMD5 /\
  4 <= Digits (cfg o) <= 8 /\ 0 < Period (cfg o) /\ 0 <= Skew (cfg o) /\
  divisor o = 10 ^ Digits (cfg o).
Proof.
  intros H. destruct (New_Returns _ _ H) as (Hc & _ & Hd).
  pose proof (configDefault_resolved config) as R. cbv zeta in R.
  rewrite <- Hc in R. unfold DigitsFour, DigitsEight in R. tauto.
Qed.

Lemma hmacResult_at_length o t :
  length (hmacResult_at o t) = Size (hash (Algorithm (cfg o))).
Proof. unfold hmacResult_at. apply hmac_Sum_length, hash_Sum_length. Qed.

(** Every digest but MD5's is long enough for any truncation offset. *)
Lemma truncation_in_range_not_MD5 o t :
  Algorithm (cfg o) <> AlgorithmMD5 -> truncation_in_range (hmacResult_at o t).
Proof.
  intros Ha. unfold truncation_in_range. rewrite hmacResult_at_length.
  destruct (hash_Size_cases (Algorithm (cfg o))) as [[E _]|[_ Hs]];
    [contradiction|].
  pose proof (land_15_range
                (nth (Size (hash (Algorithm (cfg o))) - 1) (hmacResult_at o t) 0)).
  lia.
Qed.

Lemma hmacResult_at_nonempty o t : (0 < length (hmacResult_at o t))%nat.
Proof.
  rewrite hmacResult_at_length.
  destruct (hash_Size_cases (Algorithm (cfg o))) as [[_ E]|[_ Hs]]; lia.
Qed.

(** On an engine, [GenerateForTime] returns the code exactly when the
    truncation is in range, and panics otherwise. *)
Lemma GenerateForTime_engine config o t :
  New config = Returns o ->
  (truncation_in_range (hmacResult_at o t) /\
   GenerateForTime o t = Returns (code_at o t, nil_error)) \/
  (~ truncation_in_range (hmacResult_at o t) /\
   GenerateForTime o t = Panics "runtime error: index out of range").
Proof.
  intros H. destruct (New_engine _ _ H) as (_ & Hd & HP & _ & Hdiv).
  destruct (Z_lt_ge_dec
              (Z.land (nth (length (hmacResult_at o t) - 1) (hmacResult_at o t) 0) 0x0F + 3)
              (Z.of_nat (length (hmacResult_at o t)))) as [Hin|Hout].
  - left. split; [exact Hin|].
    apply GenerateForTime_Returns; try lia. exact Hin.
  - right. split; [unfold truncation_in_range; lia|].
    apply GenerateForTime_Panics; try lia. apply hmacResult_at_nonempty.
Qed.

Lemma GenerateForTime_not_MD5 config o t :
  New config = Returns o -> Algorithm (cfg o) <> AlgorithmMD5 ->
  GenerateForTime o t = Returns (code_at o t, nil_error).
Proof.
  intros H Ha. destruct (GenerateForTime_engine _ _ t H) as [[_ E]|[N _]].
  - exact E.
  - exfalso. apply N. now apply truncation_in_range_not_MD5.
Qed.

Lemma code_at_digits config o t :
  New config = Returns o ->
  Z.of_nat (String.length (code_at o t)) = Digits (cfg o) /\
  Forall is_digit_byte (bytes_of_string (code_at o t)).
Proof.
  intros H. destruct (New_engine _ _ H) as (_ & Hd & HP & _ & Hdiv).
  assert (Hdg : Forall is_digit_byte
                  (digits_of (Z.to_nat (Digits (cfg o)))
                     (Z.rem (truncation (hmacResult_at o t)) (divisor o)))).
  { apply digits_of_digit. apply Z.rem_nonneg.
    - rewrite Hdiv. apply Z.pow_nonzero; lia.
    - apply truncation_range. }
  unfold code_at. split.
  - rewrite string_of_bytes_length, digits_of_length. lia.
  - rewrite bytes_of_string_of_bytes; [exact Hdg|].
    eapply Forall_impl; [|exact Hdg]. apply is_digit_byte_is_byte.
Qed.

(** ** isValidInteger *)

Lemma isValidInteger_loop_runes : forall fuel p,
  isValidInteger_loop fuel p = forallb unicode.IsDigit (runes_of fuel p).
Proof.
  induction fuel as [|f IH]; intros p; cbn [isValidInteger_loop runes_of].
  - reflexivity.
  - destruct p as [|b tl]; [reflexivity|].
    destruct (utf8.DecodeRune (b :: tl)) as [r size].
    cbn [forallb]. destruct (unicode.IsDigit r); cbn [negb andb]; auto.
Qed.

Lemma isValidInteger_runes s :
  isValidInteger s = forallb unicode.IsDigit (runes s).
Proof. apply isValidInteger_loop_runes. Qed.

Lemma isValidInteger_false_iff s :
  isValidInteger s = false <->
  exists r, In r (runes s) /\ unicode.IsDigit r = false.
Proof.
  rewrite isValidInteger_runes. split.
  - intros H. induction (runes s) as [|r l IH]; [discriminate|].
    cbn [forallb] in H. destruct (unicode.IsDigit r) eqn:E.
    + destruct (IH H) as (r' & Hin & Hr'). exists r'. split; [now right|exact Hr'].
    + exists r. split; [now left|exact E].
  - intros (r & Hin & Hr).
    destruct (forallb unicode.IsDigit (runes s)) eqn:E; [|reflexivity].
    rewrite forallb_forall in E. rewrite (E r Hin) in Hr. discriminate.
Qed.

(** ASCII digits are digits, one byte each. *)
Lemma isValidInteger_loop_ascii : forall p fuel,
  Forall is_digit_byte p -> isValidInteger_loop fuel p = true.
Proof.
  induction p as [|b tl IH]; intros [|f] Hp; try reflexivity.
  inversion Hp as [|? ? Hb Htl]; subst. unfold is_digit_byte in Hb.
  cbn [isValidInteger_loop]. unfold utf8.DecodeRune.
  destruct (Z.ltb_spec b 0x80); [|lia].
  unfold unicode.IsDigit, unicode.MaxLatin1.
  destruct (Z.leb_spec b 0xFF); [|lia].
  destruct (Z.leb_spec 48 b); [|lia].
  destruct (Z.leb_spec b 57); [|lia].
  cbn [andb negb skipn]. now apply IH.
Qed.

Lemma isValidInteger_ascii s :
  Forall is_digit_byte (bytes_of_string s) -> isValidInteger s = true.
Proof. intros H. now apply isValidInteger_loop_ascii. Qed.

(** ** The validation window *)

Section Window.

Variables (o : TOTP) (totp : string) (baseTimeStep : Z).

(** Every instant of the window yields a code. *)
Hypothesis generates :
  forall x, GenerateForTime o x = Returns (code_at o x, nil_error).
Hypothesis skew_bound : Skew (cfg o) < MaxInt64.

Lemma ValidateForTime_loop_spec : forall (n : nat) (i : Z) (fuel : nat),
  Skew (cfg o) - i + 1 = Z.of_nat n ->
  MinInt64 <= i ->
  (n < fuel)%nat ->
  exists b,
    ValidateForTime_loop fuel o totp baseTimeStep i = Some (Returns (b, nil_error)) /\
    (b = true <->
     exists k, i <= k <= Skew (cfg o) /\
               code_at o (window_instant o baseTimeStep k) = totp).
Proof using generates skew_bound.
  induction n as [|n IH]; intros i fuel Hn Hi Hfuel;
    (destruct fuel as [|f]; [lia|]); cbn [ValidateForTime_loop].
  - destruct (Z.leb_spec i (Skew (cfg o))); [lia|].
    exists false. split; [reflexivity|].
    split; [discriminate|]. intros (k & Hk & _). lia.
  - destruct (Z.leb_spec i (Skew (cfg o))); [|lia].
    rewrite generates. fold (window_instant o baseTimeStep i).
    destruct (subtle.ConstantTimeCompare _ _ =? 1) eqn:E.
    + exists true. split; [reflexivity|]. split; [|reflexivity].
      intros _. exists i. split; [lia|].
      symmetry. now apply ConstantTimeCompare_strings.
    + rewrite (int64_small (i + 1)) by (unfold MinInt64, MaxInt64 in *; lia).
      destruct (IH (i + 1) f ltac:(lia) ltac:(lia) ltac:(lia)) as (b & Hb & Hiff).
      exists b. split; [exact Hb|]. rewrite Hiff. split.
      * intros (k & Hk & Hc). exists k. split; [lia|exact Hc].
      * intros (k & Hk & Hc).
        destruct (Z.eq_dec k i) as [->|Hne].
        -- exfalso. symmetry in Hc. apply ConstantTimeCompare_strings in Hc.
           rewrite Hc in E. discriminate.
        -- exists k. split; [lia|exact Hc].
Qed.

End Window.

(** ** The engines of the examples *)

Lemma New_md5_config : New [md5_config] = Returns md5_engine.
Proof. vm_compute. reflexivity. Qed.

Lemma New_readme_config : New [readme_config] = Returns readme_engine.
Proof. vm_compute. reflexivity. Qed.

(** ** The value of a rendered code *)

Lemma decimal_value_app l b :
  decimal_value (l ++ [b]) = decimal_value l * 10 + (b - 48).
Proof. unfold decimal_value. now rewrite fold_left_app. Qed.

(** [formatCode] writes the low [n] decimal digits of the code. *)
Lemma decimal_value_digits_of : forall n code,
  0 <= code -> decimal_value (digits_of n code) = code mod 10 ^ Z.of_nat n.
Proof.
  induction n as [|i IH]; intros code Hc.
  - cbn. now rewrite Z.mod_1_r.
  - cbn [digits_of]. rewrite decimal_value_app.
    rewrite IH by (apply Z.quot_pos; lia).
    pose proof (Z.rem_bound_pos code 10 Hc ltac:(lia)).
    rewrite byte_small by lia.
    rewrite Z.quot_div_nonneg, Z.rem_mod_nonneg by lia.
    rewrite Nat2Z.inj_succ, Z.pow_succ_r by lia.
    rewrite (Z.rem_mul_r code 10 (10 ^ Z.of_nat i)) by
      (try apply Z.pow_pos_nonneg; lia).
    lia.
Qed.

(** ** Codes that are returned *)

(** A returned code is the closed form, with a nil error. *)
Lemma GenerateForTime_Returns_inv config o t s e :
  New config = Returns o ->
  GenerateForTime o t = Returns (s, e) ->
  s = code_at o t /\ e = nil_error.
Proof.
  intros HN HG.
  destruct (GenerateForTime_engine config o t HN) as [[_ E]|[_ E]];
    rewrite E in HG; [|discriminate].
  injection HG as <- <-. split; reflexivity.
Qed.

(** No code an engine generates contains a byte that is not an ASCII
    digit. *)
Lemma generated_code_differs config o t s e totp :
  New config = Returns o ->
  GenerateForTime o t = Returns (s, e) ->
  (exists b, In b (bytes_of_string totp) /\ ~ is_digit_byte b) ->
  s <> totp.
Proof.
  intros HN HG (b & Hin & Hb) <-.
  destruct (GenerateForTime_Returns_inv _ _ _ _ _ HN HG) as [-> _].
  destruct (code_at_digits config o t HN) as [_ Hdig].
  rewrite Forall_forall in Hdig. exact (Hb (Hdig b Hin)).
Qed.

(** ** Malformed candidates *)

(** A rune of a non-empty input is one to four bytes wide, so the byte
    count is enough fuel for the [range] loop. *)
Lemma DecodeRune_size b tl :
  (1 <= snd (utf8.DecodeRune (b :: tl)) <= 4)%nat.
Proof.
  unfold utf8.DecodeRune.
  destruct (utf8.accept b) as [lo hi].
  repeat match goal with
         | |- context [if ?c then _ else _] => destruct c
         end; cbn [snd]; lia.
Qed.

Lemma isValidInteger_loop_fuel : forall fuel p,
  (length p <= fuel)%nat ->
  isValidInteger_loop (S fuel) p = isValidInteger_loop fuel p.
Proof.
  induction fuel as [|f IH]; intros p Hp.
  - destruct p; [reflexivity|simpl in Hp; lia].
  - destruct p as [|b tl]; [reflexivity|].
    change (isValidInteger_loop (S (S f)) (b :: tl))
      with (let '(r, size) := utf8.DecodeRune (b :: tl) in
            if negb (unicode.IsDigit r) then false
            else isValidInteger_loop (S f) (skipn size (b :: tl))).
    change (isValidInteger_loop (S f) (b :: tl))
      with (let '(r, size) := utf8.DecodeRune (b :: tl) in
            if negb (unicode.IsDigit r) then false
            else isValidInteger_loop f (skipn size (b :: tl))).
    pose proof (DecodeRune_size b tl) as Hs.
    destruct (utf8.DecodeRune (b :: tl)) as [r size]. cbn [snd] in Hs.
    destruct (negb (unicode.IsDigit r)); [reflexivity|].
    apply IH. rewrite length_skipn. cbn [length] in *. lia.
Qed.

(** On an engine that is not an MD5 engine, a candidate of the wrong length
    or with a byte outside the ASCII digits never validates: it is rejected
    by the format check or matches no generated code. *)
Lemma ValidateForTime_rejects_malformed config o totp t fuel :
  New config = Returns o ->
  Algorithm (cfg o) <> AlgorithmMD5 ->
  Skew (cfg o) < MaxInt64 ->
  Z.of_nat (String.length totp) <> Digits (cfg o) \/
  (exists b, In b (bytes_of_string totp) /\ ~ is_digit_byte b) ->
  2 * Skew (cfg o) + 1 < Z.of_nat fuel ->
  exists err, ValidateForTime fuel o totp t = Some (Returns (false, err)).
Proof.
  intros HN Ha Hs Hbad Hfuel.
  destruct (New_engine _ _ HN) as (_ & Hd & HP & Hsk & Hdiv).
  unfold ValidateForTime.
  destruct (Z.eqb_spec (Z.of_nat (String.length totp)) (Digits (cfg o)))
    as [Hlen|Hlen]; cbn [negb orb]; [|eexists; reflexivity].
  destruct (isValidInteger totp); cbn [negb]; [|eexists; reflexivity].
  destruct Hbad as [Hbad|(x & Hin & Hx)]; [contradiction|].
  unfold div64. destruct (Z.eqb_spec (Period (cfg o)) 0); [lia|].
  rewrite (int64_small (- Skew (cfg o)))
    by (unfold MinInt64, MaxInt64 in *; lia).
  destruct (ValidateForTime_loop_spec o totp (int64 (Z.quot t (Period (cfg o))))
              (fun x => GenerateForTime_not_MD5 config o x HN Ha) Hs
              (Z.to_nat (2 * Skew (cfg o) + 1)) (- Skew (cfg o)) fuel
              ltac:(lia) ltac:(unfold MinInt64, MaxInt64 in *; lia) ltac:(lia))
    as (b & Hb & Hiff).
  exists nil_error. rewrite Hb. destruct b; [|reflexivity].
  exfalso. destruct (proj1 Hiff eq_refl) as (k & _ & Hk).
  rewrite <- Hk in Hin.
  destruct (code_at_digits config o
              (window_instant o (int64 (Z.quot t (Period (cfg o)))) k) HN)
    as [_ Hdig].
  rewrite Forall_forall in Hdig. exact (Hx (Hdig x Hin)).
Qed.

(** ** Time-step encoding, idempotent resolution, the largest skew *)

(** The filled array is the big-endian encoding of the time step. *)
Lemma timeBytes_of_be timeStep : timeBytes_of timeStep = be_bytes 8 timeStep.
Proof. reflexivity. Qed.

(** Resolving a resolved configuration changes nothing. *)
Lemma configDefault_idempotent config tl :
  configDefault (configDefault config :: tl) = configDefault config.
Proof.
  pose proof (configDefault_resolved config) as (Ha & Hd & Hp & Hs).
  rewrite configDefault_cons.
  destruct (configDefault config) as [a d p s k].
  cbn [Algorithm Digits Period Secret Skew] in *.
  destruct (Z.ltb_spec a AlgorithmSHA1), (Z.ltb_spec AlgorithmMD5 a),
    (Z.ltb_spec d DigitsFour), (Z.ltb_spec DigitsEight d),
    (Z.leb_spec p 0), (Z.ltb_spec k 0); cbn [orb]; try lia; reflexivity.
Qed.

(** With the largest skew the loop counter wraps around instead of passing
    the bound: a candidate that matches no code keeps the scan running
    whatever the fuel.  This is why the window results assume a skew below
    [MaxInt64]. *)
Lemma ValidateForTime_loop_max_skew o totp baseTimeStep :
  Skew (cfg o) = MaxInt64 ->
  (forall x, GenerateForTime o x = Returns (code_at o x, nil_error)) ->
  (forall x, code_at o x <> totp) ->
  forall fuel i, MinInt64 <= i <= MaxInt64 ->
    ValidateForTime_loop fuel o totp baseTimeStep i = None.
Proof.
  intros Hs Hgen Hne. induction fuel as [|f IH]; intros i Hi.
  - reflexivity.
  - cbn [ValidateForTime_loop]. rewrite Hs.
    destruct (Z.leb_spec i MaxInt64); [|lia].
    rewrite Hgen.
    destruct (subtle.ConstantTimeCompare _ _ =? 1) eqn:E.
    + apply ConstantTimeCompare_strings in E. symmetry in E.
      now apply Hne in E.
    + apply IH. apply int64_range.
Qed.

(** ** Validation on engines whose digest is long enough *)

(** The window scan: on an engine that is not an MD5 engine and whose skew
    is below [MaxInt64], validation of a well-formed candidate returns, and
    returns true exactly when some offset of the window yields the
    candidate. *)
Theorem ValidateForTime_window : forall config o totp t fuel,
  New config = Returns o ->
  Algorithm (cfg o) <> AlgorithmMD5 ->
  Skew (cfg o) < MaxInt64 ->
  Z.of_nat (String.length totp) = Digits (cfg o) ->
  Forall is_digit_byte (bytes_of_string totp) ->
  0 <= t <= MaxInt64 ->
  2 * Skew (cfg o) + 1 < Z.of_nat fuel ->
  exists b,
    ValidateForTime fuel o totp t = Some (Returns (b, nil_error)) /\
    (b = true <->
     exists i, - Skew (cfg o) <= i <= Skew (cfg o) /\
       GenerateForTime o (int64 (int64 (t / Period (cfg o) + i) * Period (cfg o)))
       = Returns (totp, nil_error)).
Proof.
  intros config o totp t fuel HN Ha Hs Hlen Hdig Ht Hfuel.
  destruct (New_engine _ _ HN) as (_ & Hd & HP & Hsk & Hdiv).
  unfold ValidateForTime.
  rewrite Hlen, Z.eqb_refl, (isValidInteger_ascii _ Hdig). cbn [negb orb].
  unfold div64. destruct (Z.eqb_spec (Period (cfg o)) 0); [lia|].
  rewrite Z.quot_div_nonneg by lia.
  assert (Hq : 0 <= t / Period (cfg o) <= t).
  { split; [apply Z.div_pos; lia|]. apply Z.div_le_upper_bound; nia. }
  rewrite (int64_small (t / Period (cfg o)))
    by (unfold MinInt64, MaxInt64 in *; lia).
  rewrite (int64_small (- Skew (cfg o)))
    by (unfold MinInt64, MaxInt64 in *; lia).
  destruct (ValidateForTime_loop_spec o totp (t / Period (cfg o))
              (fun x => GenerateForTime_not_MD5 config o x HN Ha) Hs
              (Z.to_nat (2 * Skew (cfg o) + 1)) (- Skew (cfg o)) fuel
              ltac:(lia) ltac:(unfold MinInt64, MaxInt64 in *; lia) ltac:(lia))
    as (b & Hb & Hiff).
  exists b. split; [exact Hb|]. rewrite Hiff.
  split; intros (k & Hk & Hc); exists k; (split; [exact Hk|]).
  - rewrite (GenerateForTime_not_MD5 config o _ HN Ha).
    unfold window_instant in Hc. now rewrite Hc.
  - rewrite (GenerateForTime_not_MD5 config o _ HN Ha) in Hc.
    now injection Hc.
Qed.

(** The skew test of the package: with SHA-1, period 30 and skew 1, the code
    of time 59 validates at 29, 59 and 61 and not at 91. *)
Lemma ValidateForTime_skew_example :
  let c := rfc6238_config AlgorithmSHA1 key20 1 in
  exists o,
    New [c] = Returns o /\
    GenerateForTime o 59 = Returns ("94287082"%string, nil_error) /\
    map (ValidateForTime 4 o "94287082") [29; 59; 61; 91]
    = map (fun b => Some (Returns (b, nil_error))) [true; true; true; false].
Proof.
  eexists. split; [vm_compute; reflexivity|].
  split; vm_compute; reflexivity.
Qed.

(** Without overflow the instant of a window offset is the product the
    specification writes, [(baseTimeStep + i) * period]. *)
Lemma window_instant_exact o baseTimeStep i :
  MinInt64 <= baseTimeStep + i <= MaxInt64 ->
  MinInt64 <= (baseTimeStep + i) * Period (cfg o) <= MaxInt64 ->
  window_instant o baseTimeStep i = (baseTimeStep + i) * Period (cfg o).
Proof.
  intros H1 H2. unfold window_instant.
  rewrite (int64_small (baseTimeStep + i)) by exact H1.
  now apply int64_small.
Qed.

(** The window theorem at the first RFC 6238 row with skew 1, read at Unix
    time 61: validation returns true, the window offset being -1. *)
Lemma ValidateForTime_window_instance :
  exists o,
    New [rfc6238_config AlgorithmSHA1 key20 1] = Returns o /\
    ValidateForTime 4 o "94287082" 61 = Some (Returns (true, nil_error)) /\
    exists i, - Skew (cfg o) <= i <= Skew (cfg o) /\
      GenerateForTime o (int64 (int64 (61 / Period (cfg o) + i) * Period (cfg o)))
      = Returns ("94287082"%string, nil_error).
Proof.
  set (o := {| cfg := rfc6238_config AlgorithmSHA1 key20 1;
               divisor := 100000000;
               decodedSecret := bytes_of_string key20 |}).
  assert (HN : New [rfc6238_config AlgorithmSHA1 key20 1] = Returns o)
    by (vm_compute; reflexivity).
  assert (HV : ValidateForTime 4 o "94287082" 61 = Some (Returns (true, nil_error)))
    by (vm_compute; reflexivity).
  exists o. split; [exact HN|]. split; [exact HV|].
  destruct (ValidateForTime_window [rfc6238_config AlgorithmSHA1 key20 1] o
              "94287082" 61 4 HN) as (b & Hb & Hiff).
  - discriminate.
  - reflexivity.
  - reflexivity.
  - repeat constructor; cbv; discriminate.
  - split; discriminate.
  - reflexivity.
  - rewrite HV in Hb. injection Hb as <-. now apply Hiff.
Qed.

(** ** encoding/base32: decoding an encoded key *)

Lemma lor_shift_add a b k :
  0 <= k -> 0 <= b < 2 ^ k -> Z.lor (a * 2 ^ k) b = a * 2 ^ k + b.
Proof.
  intros Hk Hb.
  assert (Hland : Z.land (a * 2 ^ k) b = 0).
  { apply Z.bits_inj'. intros n Hn. rewrite Z.land_spec, Z.bits_0.
    destruct (Z.lt_ge_cases n k) as [Hlt|Hge].
    - rewrite Z.mul_pow2_bits_low by lia. reflexivity.
    - rewrite <- (Z.mod_small b (2 ^ k)) by lia.
      rewrite Z.mod_pow2_bits_high by lia. apply andb_false_r. }
  rewrite <- Z.lxor_lor by exact Hland.
  symmetry. apply Z.add_nocarry_lxor. exact Hland.
Qed.

Lemma quintet_div x i :
  0 <= i <= 7 -> quintet x i = x / 2 ^ (35 - 5 * i) mod 32.
Proof.
  intros Hi. unfold quintet. rewrite Z.shiftr_div_pow2 by lia.
  apply (Z.land_ones _ 5). lia.
Qed.

Lemma pack_quintets b0 b1 b2 b3 b4 :
  is_byte b0 -> is_byte b1 -> is_byte b2 -> is_byte b3 -> is_byte b4 ->
  let x := be_uint [b0; b1; b2; b3; b4] in
  base32.pack (map (quintet x) [0; 1; 2; 3; 4; 5; 6; 7]) 8 = [b0; b1; b2; b3; b4].
Proof.
  intros H0 H1 H2 H3 H4 x. unfold is_byte in *.
  assert (Hx : x = b0 * 2 ^ 32 + b1 * 2 ^ 24 + b2 * 2 ^ 16 + b3 * 2 ^ 8 + b4)
    by (unfold x, be_uint; cbn [fold_left]; lia).
  clearbody x.
  assert (Q0 : quintet x 0 = x / 2 ^ 35 mod 32) by (now rewrite quintet_div by lia).
  assert (Q1 : quintet x 1 = x / 2 ^ 30 mod 32) by (now rewrite quintet_div by lia).
  assert (Q2 : quintet x 2 = x / 2 ^ 25 mod 32) by (now rewrite quintet_div by lia).
  assert (Q3 : quintet x 3 = x / 2 ^ 20 mod 32) by (now rewrite quintet_div by lia).
  assert (Q4 : quintet x 4 = x / 2 ^ 15 mod 32) by (now rewrite quintet_div by lia).
  assert (Q5 : quintet x 5 = x / 2 ^ 10 mod 32) by (now rewrite quintet_div by lia).
  assert (Q6 : quintet x 6 = x / 2 ^ 5 mod 32) by (now rewrite quintet_div by lia).
  assert (Q7 : quintet x 7 = x mod 32)
    by (rewrite quintet_div by lia; now rewrite Z.div_1_r).
  unfold base32.pack. cbn [map nth Z.eqb Pos.eqb firstn].
  rewrite Q0, Q1, Q2, Q3, Q4, Q5, Q6, Q7. clear Q0 Q1 Q2 Q3 Q4 Q5 Q6 Q7.
  rewrite !Z.shiftl_mul_pow2, !Z.shiftr_div_pow2 by lia.
  set (q0 := x / 2 ^ 35 mod 32). set (q1 := x / 2 ^ 30 mod 32).
  set (q2 := x / 2 ^ 25 mod 32). set (q3 := x / 2 ^ 20 mod 32).
  set (q4 := x / 2 ^ 15 mod 32). set (q5 := x / 2 ^ 10 mod 32).
  set (q6 := x / 2 ^ 5 mod 32). set (q7 := x mod 32).
  assert (R0 : 0 <= q0 < 32) by (apply Z.mod_pos_bound; lia).
  assert (R1 : 0 <= q1 < 32) by (apply Z.mod_pos_bound; lia).
  assert (R2 : 0 <= q2 < 32) by (apply Z.mod_pos_bound; lia).
  assert (R3 : 0 <= q3 < 32) by (apply Z.mod_pos_bound; lia).
  assert (R4 : 0 <= q4 < 32) by (apply Z.mod_pos_bound; lia).
  assert (R5 : 0 <= q5 < 32) by (apply Z.mod_pos_bound; lia).
  assert (R6 : 0 <= q6 < 32) by (apply Z.mod_pos_bound; lia).
  assert (R7 : 0 <= q7 < 32) by (apply Z.mod_pos_bound; lia).
  rewrite (lor_shift_add q0 (q1 / 2 ^ 2) 3)
    by (try (change (2 ^ 2) with 4; change (2 ^ 3) with 8;
             split; [apply Z.div_pos|apply Z.div_lt_upper_bound]); lia).
  rewrite (lor_shift_add q1 (q2 * 2 ^ 1) 6) by lia.
  replace (q1 * 2 ^ 6 + q2 * 2 ^ 1) with ((q1 * 32 + q2) * 2 ^ 1) by lia.
  rewrite (lor_shift_add (q1 * 32 + q2) (q3 / 2 ^ 4) 1)
    by (try (change (2 ^ 4) with 16; change (2 ^ 1) with 2;
             split; [apply Z.div_pos|apply Z.div_lt_upper_bound]); lia).
  rewrite (lor_shift_add q3 (q4 / 2 ^ 1) 4)
    by (try (change (2 ^ 1) with 2; change (2 ^ 4) with 16;
             split; [apply Z.div_pos|apply Z.div_lt_upper_bound]); lia).
  rewrite (lor_shift_add q4 (q5 * 2 ^ 2) 7) by lia.
  replace (q4 * 2 ^ 7 + q5 * 2 ^ 2) with ((q4 * 32 + q5) * 2 ^ 2) by lia.
  rewrite (lor_shift_add (q4 * 32 + q5) (q6 / 2 ^ 3) 2)
    by (try (change (2 ^ 3) with 8; change (2 ^ 2) with 4;
             split; [apply Z.div_pos|apply Z.div_lt_upper_bound]); lia).
  rewrite (lor_shift_add q6 q7 5) by lia.
  unfold byte. subst q0 q1 q2 q3 q4 q5 q6 q7. clear R0 R1 R2 R3 R4 R5 R6 R7.
  subst x.
  repeat f_equal; Z.div_mod_to_equations; lia.
Qed.

Lemma quintet_range x i : 0 <= quintet x i < 32.
Proof. unfold quintet. apply (land_ones_range _ 5). lia. Qed.

(** An alphabet character is a byte, is neither the padding character nor a
    newline, and decodes to its index. *)
Lemma enc_char_spec q :
  0 <= q < 32 ->
  base32.decodeMap (enc_char q) = q /\ is_byte (enc_char q) /\
  enc_char q <> base32.padChar /\ enc_char q <> 13 /\ enc_char q <> 10.
Proof.
  intros Hq.
  assert (H : forallb (fun n =>
                let c := enc_char (Z.of_nat n) in
                (base32.decodeMap c =? Z.of_nat n) && (0 <=? c) && (c <? 256)
                && negb (c =? base32.padChar) && negb (c =? 13) && negb (c =? 10))
              (seq 0 32) = true) by (vm_compute; reflexivity).
  rewrite forallb_forall in H.
  specialize (H (Z.to_nat q) ltac:(apply in_seq; lia)). cbv zeta in H.
  rewrite Z2Nat.id in H by lia.
  repeat (apply andb_prop in H; destruct H as [H ?]).
  unfold is_byte.
  repeat match goal with
         | X : negb (_ =? _) = true |- _ =>
             apply negb_true_iff, Z.eqb_neq in X
         | X : (_ =? _) = true |- _ => apply Z.eqb_eq in X
         | X : (_ <=? _) = true |- _ => apply Z.leb_le in X
         | X : (_ <? _) = true |- _ => apply Z.ltb_lt in X
         end.
  repeat split; assumption.
Qed.

Lemma quantum_prefix : forall qs k j dbuf tail olen,
  Forall (fun q => 0 <= q < 32) qs ->
  base32.quantum (length qs + k) j dbuf (map enc_char qs ++ tail) olen
  = base32.quantum k (j + Z.of_nat (length qs)) (dbuf ++ qs) tail olen.
Proof.
  induction qs as [|q qs IH]; intros k j dbuf tail olen Hqs.
  - cbn [length map app Nat.add]. now rewrite Z.add_0_r, app_nil_r.
  - inversion Hqs as [|? ? Hq Hqs']; subst.
    destruct (enc_char_spec q Hq) as (Hd & _ & Hp & _).
    cbn [length map app Nat.add base32.quantum].
    destruct (Z.eqb_spec (enc_char q) base32.padChar); [contradiction|].
    cbn [andb]. rewrite Hd.
    destruct (Z.eqb_spec q 0xFF); [lia|].
    rewrite IH by exact Hqs'. rewrite <- app_assoc. cbn [app].
    f_equal. lia.
Qed.

Lemma bad_padding_repeat : forall r n k,
  base32.bad_padding n k (repeat base32.padChar r) = None.
Proof.
  induction r as [|r IH]; intros [|n] k; cbn [repeat base32.bad_padding];
    try reflexivity.
  rewrite Z.eqb_refl. apply IH.
Qed.

(** A full group: eight alphabet characters, no padding. *)
Lemma quantum_full qs tail olen :
  length qs = 8%nat -> Forall (fun q => 0 <= q < 32) qs ->
  base32.quantum 8 0 [] (map enc_char qs ++ tail) olen = inr (qs, 8, false, tail).
Proof.
  intros Hlen Hqs.
  pose proof (quantum_prefix qs 0 0 [] tail olen Hqs) as H.
  rewrite Hlen in H. cbn [Nat.add] in H. rewrite H. reflexivity.
Qed.

(** The last group: [j] alphabet characters followed by [8 - j] padding
    characters, for the four padded lengths of RFC 4648. *)
Lemma quantum_padded qs olen :
  In (length qs) [2; 4; 5; 7]%nat -> Forall (fun q => 0 <= q < 32) qs ->
  base32.quantum 8 0 [] (map enc_char qs ++ repeat base32.padChar (8 - length qs)) olen
  = inr (qs, Z.of_nat (length qs), true, repeat base32.padChar (7 - length qs)).
Proof.
  intros Hlen Hqs.
  assert (Hk : exists k, (8 = length qs + S k)%nat /\ (7 - length qs = k)%nat).
  { exists (7 - length qs)%nat. cbn in Hlen. lia. }
  destruct Hk as (k & Hk1 & Hk2).
  replace (8 - length qs)%nat with (S k) by lia.
  rewrite Hk1 at 1. rewrite quantum_prefix by exact Hqs.
  rewrite Hk2. cbn [repeat app base32.quantum]. rewrite Z.eqb_refl.
  rewrite repeat_length, bad_padding_repeat.
  cbn in Hlen.
  destruct Hlen as [H|[H|[H|[H|[]]]]]; rewrite <- H in *;
    assert (k = Z.to_nat (7 - Z.of_nat (length qs))) as Hk3 by lia;
    rewrite <- H in *; subst k; reflexivity.
Qed.

Lemma chunks_fuel_enough {A : Type} (n : nat) : forall (f1 f2 : nat) (l : list A),
  (0 < n)%nat -> (length l <= f1)%nat -> (length l <= f2)%nat ->
  chunks_fuel f1 n l = chunks_fuel f2 n l.
Proof.
  induction f1 as [|f1 IH]; intros f2 l Hn H1 H2.
  - destruct l; [|simpl in H1; lia]. destruct f2; reflexivity.
  - destruct l as [|a l]; [destruct f2; reflexivity|].
    destruct f2 as [|f2]; [simpl in H2; lia|].
    cbn [chunks_fuel]. f_equal.
    apply IH; [exact Hn| |]; rewrite length_skipn; cbn [length] in *; lia.
Qed.

Lemma chunks_cons {A : Type} (n : nat) (a : A) (l : list A) :
  (0 < n)%nat ->
  chunks n (a :: l) = firstn n (a :: l) :: chunks n (skipn n (a :: l)).
Proof.
  intros Hn. unfold chunks. cbn [length chunks_fuel]. f_equal.
  apply chunks_fuel_enough; [exact Hn| |]; rewrite ?length_skipn;
    cbn [length]; lia.
Qed.

Lemma quintets_range x l : Forall (fun q => 0 <= q < 32) (map (quintet x) l).
Proof. apply Forall_map, Forall_forall. intros i _. apply quintet_range. Qed.

Lemma encode_group_full b0 b1 b2 b3 b4 :
  base32.encode_group [b0; b1; b2; b3; b4]
  = map enc_char (map (quintet (be_uint [b0; b1; b2; b3; b4]))
                      [0; 1; 2; 3; 4; 5; 6; 7]).
Proof. reflexivity. Qed.

(** The characters of a shorter last group, read off the 40-bit value of
    the group padded with zero bytes. *)
Lemma encode_group_partial g :
  (1 <= length g <= 4)%nat ->
  let x := be_uint (g ++ repeat 0 (5 - length g)) in
  let nchars := match length g with 1 => 2 | 2 => 4 | 3 => 5 | _ => 7 end%nat in
  base32.encode_group g
  = map enc_char (map (quintet x) (firstn nchars [0; 1; 2; 3; 4; 5; 6; 7]))
    ++ repeat base32.padChar (8 - nchars).
Proof.
  intros Hg. unfold base32.encode_group. cbv zeta.
  set (x := be_uint _).
  destruct (length g) as [|[|[|[|[|n]]]]]; try lia; reflexivity.
Qed.

Lemma pack_partial x m :
  (1 <= m <= 4)%nat ->
  let nchars := match m with 1 => 2 | 2 => 4 | 3 => 5 | _ => 7 end%nat in
  base32.pack (map (quintet x) (firstn nchars [0; 1; 2; 3; 4; 5; 6; 7]))
              (Z.of_nat nchars)
  = firstn m (base32.pack (map (quintet x) [0; 1; 2; 3; 4; 5; 6; 7]) 8).
Proof.
  intros Hm. destruct m as [|[|[|[|[|m]]]]]; try lia; reflexivity.
Qed.

Lemma decode_S src olen dst f :
  src <> [] ->
  base32.decode (S f) src olen dst
  = match base32.quantum 8 0 [] src olen with
    | inl e => (dst, e)
    | inr (dbuf, dlen, fin, rest) =>
        if fin then (dst ++ base32.pack dbuf dlen, nil_error)
        else base32.decode f rest olen (dst ++ base32.pack dbuf dlen)
    end.
Proof. intros H. destruct src; [contradiction|reflexivity]. Qed.

(** One step of [decode] over a full group. *)
Lemma decode_full_group b0 b1 b2 b3 b4 tail olen dst f :
  is_byte b0 -> is_byte b1 -> is_byte b2 -> is_byte b3 -> is_byte b4 ->
  base32.decode (S f) (base32.encode_group [b0; b1; b2; b3; b4] ++ tail) olen dst
  = base32.decode f tail olen (dst ++ [b0; b1; b2; b3; b4]).
Proof.
  intros H0 H1 H2 H3 H4.
  rewrite decode_S by discriminate.
  rewrite encode_group_full, quantum_full;
    [|reflexivity|apply quintets_range].
  now rewrite pack_quintets.
Qed.

(** The step of [decode] over a shorter last group. *)
Lemma decode_last_group g olen dst f :
  (1 <= length g <= 4)%nat -> Forall is_byte g ->
  base32.decode (S f) (base32.encode_group g) olen dst = (dst ++ g, nil_error).
Proof.
  intros Hg Hb.
  assert (Hne : base32.encode_group g <> [])
    by (unfold base32.encode_group; discriminate).
  rewrite decode_S by exact Hne.
  rewrite encode_group_partial by exact Hg. cbv zeta.
  set (x := be_uint _).
  set (nchars := match length g with 1 => 2 | 2 => 4 | 3 => 5 | _ => 7 end%nat).
  set (qs := map (quintet x) (firstn nchars [0; 1; 2; 3; 4; 5; 6; 7])).
  assert (Hqs : length qs = nchars).
  { unfold qs. rewrite length_map, length_firstn. cbn [length].
    unfold nchars. destruct (length g) as [|[|[|[|[|n]]]]]; reflexivity. }
  assert (Hin : In nchars [2; 4; 5; 7]%nat).
  { unfold nchars. destruct (length g) as [|[|[|[|[|n]]]]]; cbn; auto; lia. }
  rewrite <- Hqs at 1.
  rewrite quantum_padded; [|rewrite Hqs; exact Hin|apply quintets_range].
  cbv iota. f_equal. f_equal. rewrite Hqs. unfold qs, nchars.
  rewrite (pack_partial x (length g) Hg). unfold x.
  destruct g as [|b0 [|b1 [|b2 [|b3 [|b4 g']]]]]; cbn [length] in Hg; try lia;
    repeat match goal with
           | H : Forall is_byte (_ :: _) |- _ => inversion H; subst; clear H
           end;
    cbn [length Nat.sub repeat app];
    rewrite pack_quintets; try assumption; try (unfold is_byte; lia);
    reflexivity.
Qed.

Lemma encode_bytes_short g :
  (1 <= length g <= 4)%nat -> encode_bytes g = base32.encode_group g.
Proof.
  intros Hg. unfold encode_bytes.
  destruct g as [|a g]; [simpl in Hg; lia|].
  rewrite chunks_cons by lia.
  rewrite firstn_all2, skipn_all2 by lia.
  cbn [flat_map chunks chunks_fuel length]. now rewrite app_nil_r.
Qed.

Lemma encode_bytes_long b0 b1 b2 b3 b4 rest :
  encode_bytes (b0 :: b1 :: b2 :: b3 :: b4 :: rest)
  = base32.encode_group [b0; b1; b2; b3; b4] ++ encode_bytes rest.
Proof. unfold encode_bytes. now rewrite chunks_cons by lia. Qed.

Lemma encode_group_length g : length (base32.encode_group g) = 8%nat.
Proof. unfold base32.encode_group. now rewrite length_map, length_seq. Qed.

Lemma decode_encode : forall (n : nat) (src acc : list Z) (olen : Z) (fuel : nat),
  (length src <= n)%nat -> Forall is_byte src ->
  (length (encode_bytes src) <= fuel)%nat ->
  base32.decode fuel (encode_bytes src) olen acc = (acc ++ src, nil_error).
Proof.
  induction n as [|n IH]; intros src acc olen fuel Hn Hb Hfuel.
  - destruct src; [|simpl in Hn; lia].
    rewrite app_nil_r. destruct fuel; reflexivity.
  - destruct src as [|b0 [|b1 [|b2 [|b3 [|b4 rest]]]]].
    + rewrite app_nil_r. destruct fuel; reflexivity.
    + rewrite encode_bytes_short in * by (cbn; lia).
      rewrite encode_group_length in Hfuel. destruct fuel; [lia|].
      apply decode_last_group; [cbn; lia|exact Hb].
    + rewrite encode_bytes_short in * by (cbn; lia).
      rewrite encode_group_length in Hfuel. destruct fuel; [lia|].
      apply decode_last_group; [cbn; lia|exact Hb].
    + rewrite encode_bytes_short in * by (cbn; lia).
      rewrite encode_group_length in Hfuel. destruct fuel; [lia|].
      apply decode_last_group; [cbn; lia|exact Hb].
    + rewrite encode_bytes_short in * by (cbn; lia).
      rewrite encode_group_length in Hfuel. destruct fuel; [lia|].
      apply decode_last_group; [cbn; lia|exact Hb].
    + rewrite encode_bytes_long in *.
      rewrite length_app, encode_group_length in Hfuel.
      destruct fuel; [lia|].
      inversion Hb as [|? ? H0 Hb1]; subst.
      inversion Hb1 as [|? ? H1 Hb2]; subst.
      inversion Hb2 as [|? ? H2 Hb3]; subst.
      inversion Hb3 as [|? ? H3 Hb4]; subst.
      inversion Hb4 as [|? ? H4 Hb5]; subst.
      rewrite decode_full_group by assumption.
      rewrite IH; [|cbn [length] in Hn; lia|exact Hb5|lia].
      now rewrite <- app_assoc.
Qed.

Lemma encode_group_chars_ok g :
  Forall (fun c => is_byte c /\ c <> 13 /\ c <> 10) (base32.encode_group g).
Proof.
  unfold base32.encode_group. cbv zeta. apply Forall_map, Forall_forall.
  intros i _. destruct (i <? _)%nat.
  - match goal with
    | |- context [Z.land ?y 31] =>
        pose proof (land_ones_range y 5 ltac:(lia)) as Hq;
        change (Z.ones 5) with 31 in Hq; change (2 ^ 5) with 32 in Hq;
        destruct (enc_char_spec (Z.land y 31) Hq) as (_ & Hb & _ & H13 & H10)
    end.
    unfold enc_char in *. tauto.
  - unfold base32.padChar, is_byte. lia.
Qed.

Lemma encode_bytes_chars_ok src :
  Forall (fun c => is_byte c /\ c <> 13 /\ c <> 10) (encode_bytes src).
Proof.
  unfold encode_bytes. induction (chunks 5 src) as [|g gs IH]; cbn [flat_map].
  - constructor.
  - apply Forall_app. split; [apply encode_group_chars_ok|exact IH].
Qed.

(** Decoding the encoding of a key gives the key back. *)
Theorem DecodeString_EncodeToString src :
  Forall is_byte src ->
  base32.DecodeString (base32.EncodeToString src) = (src, nil_error).
Proof.
  intros Hb. unfold base32.DecodeString, base32.EncodeToString.
  fold (encode_bytes src).
  pose proof (encode_bytes_chars_ok src) as Hc.
  rewrite bytes_of_string_of_bytes
    by (eapply Forall_impl; [|exact Hc]; cbv beta; tauto).
  assert (Hs : base32.stripNewlines (encode_bytes src) = encode_bytes src).
  { unfold base32.stripNewlines.
    induction (encode_bytes src) as [|c l IH]; [reflexivity|].
    inversion Hc as [|? ? (_ & H13 & H10) Hl]; subst. cbn [filter].
    destruct (Z.eqb_spec c 13); [contradiction|].
    destruct (Z.eqb_spec c 10); [contradiction|].
    cbn [orb negb]. f_equal. now apply IH. }
  rewrite Hs.
  exact (decode_encode (length src) src [] _ _ (le_n _) Hb (le_n _)).
Qed.

(** [New] on the base32 text of a key builds an engine holding that key. *)
Corollary New_encoded_secret (c : Config) (tl : list Config) (key : list Z) :
  Forall is_byte key ->
  Secret c = base32.EncodeToString key ->
  exists o, New (c :: tl) = Returns o /\ decodedSecret o = key.
Proof.
  intros Hb Hs. unfold New.
  rewrite configDefault_cons. cbn [Secret].
  rewrite Hs, DecodeString_EncodeToString by exact Hb.
  eexists. split; reflexivity.
Qed.

(** A quantum that does not end the input has consumed eight characters. *)
Lemma quantum_continues : forall k j dbuf src olen d dl rest,
  base32.quantum k j dbuf src olen = inr (d, dl, false, rest) ->
  length src = (k + length rest)%nat.
Proof.
  induction k as [|k IH]; intros j dbuf src olen d dl rest H;
    cbn [base32.quantum] in H.
  - injection H as _ _ <-. reflexivity.
  - destruct src as [|c src']; [discriminate|].
    destruct ((c =? base32.padChar) && (2 <=? j)
              && (Z.of_nat (length src') <? 8)).
    + destruct (Z.of_nat (length src') + j <? 8 - 1); [discriminate|].
      destruct (base32.bad_padding _ _ _); [discriminate|].
      destruct ((j =? 1) || (j =? 3) || (j =? 6)); discriminate.
    + destruct (base32.decodeMap c =? 0xFF); [discriminate|].
      apply IH in H. cbn [length]. lia.
Qed.

(** The length of the input is enough fuel for [decode]. *)
Lemma decode_fuel : forall f1 f2 src olen dst,
  (length src <= f1)%nat -> (length src <= f2)%nat ->
  base32.decode f1 src olen dst = base32.decode f2 src olen dst.
Proof.
  induction f1 as [|f1 IH]; intros f2 src olen dst H1 H2.
  - destruct src; [|simpl in H1; lia]. destruct f2; reflexivity.
  - destruct src as [|c src']; [destruct f2; reflexivity|].
    destruct f2 as [|f2]; [simpl in H2; lia|].
    rewrite !decode_S by discriminate.
    destruct (base32.quantum 8 0 [] (c :: src') olen)
      as [e|[[[d dl] [|]] rest]] eqn:E; try reflexivity.
    apply quantum_continues in E.
    apply IH; cbn [length] in *; lia.
Qed.

(** Once the scan returns, more fuel does not change its result. *)
Lemma ValidateForTime_loop_fuel : forall fuel o totp baseTimeStep i r,
  ValidateForTime_loop fuel o totp baseTimeStep i = Some r ->
  ValidateForTime_loop (S fuel) o totp baseTimeStep i = Some r.
Proof.
  induction fuel as [|f IH]; intros o totp baseTimeStep i r H.
  - discriminate.
  - cbn [ValidateForTime_loop] in H.
    change (ValidateForTime_loop (S (S f)) o totp baseTimeStep i)
      with (if i <=? Skew (cfg o) then
              match GenerateForTime o
                      (int64 (int64 (baseTimeStep + i) * Period (cfg o))) with
              | Panics msg => Some (Panics msg)
              | Returns (expected, Some e) =>
                  Some (Returns (false,
                          Some ("error generating expected TOTP for time step "
                                ++ strconv.Itoa (int64 (baseTimeStep + i))
                                ++ ": " ++ e)%string))
              | Returns (expected, None) =>
                  if subtle.ConstantTimeCompare (bytes_of_string totp)
                                                (bytes_of_string expected) =? 1
                  then Some (Returns (true, nil_error))
                  else ValidateForTime_loop (S f) o totp baseTimeStep (int64 (i + 1))
              end
            else Some (Returns (false, nil_error))).
    destruct (i <=? Skew (cfg o)); [|exact H].
    destruct (GenerateForTime o _) as [[expected [e|]]|msg]; try exact H.
    destruct (subtle.ConstantTimeCompare _ _ =? 1); [exact H|].
    now apply IH.
Qed.

(** * The claims *)

(** C1 (the code departs from the claim).  The claim: for every resolved
    configuration, MD5 included, the four bytes of the dynamic truncation lie
    inside the digest and [GenerateForTime] returns a code.  On the MD5
    engine of secret JBSWY3DPEHPK3PXP the HMAC at Unix time 180 ends in
    0x0f: the offset is 15, the digest has 16 bytes, and reading
    [hmacResult[offset+1]] panics. *)
Theorem C1_md5_truncation_out_of_range :
  New [md5_config] = Returns md5_engine /\
  hex (hmacResult_at md5_engine 180) = "3dbad44a3ba752d30bce94b587233d0f"%string /\
  ~ truncation_in_range (hmacResult_at md5_engine 180) /\
  GenerateForTime md5_engine 180 = Panics "runtime error: index out of range".
Proof.
  split; [exact New_md5_config|].
  split; [vm_compute; reflexivity|].
  split; [|vm_compute; reflexivity].
  unfold truncation_in_range. apply Z.le_ngt, Z.leb_le.
  vm_compute. reflexivity.
Qed.

(** C2, as stated, fails: 7 is outside {4,5,6,8}, yet a configuration
    asking for 7 digits keeps them; the resolver does not substitute 6. *)
Lemma C2_seven_digits_kept :
  ~ In (Digits seven_digits_config) [DigitsFour; DigitsFive; DigitsSix; DigitsEight] /\
  Digits (configDefault [seven_digits_config]) = 7 /\
  Digits (configDefault [seven_digits_config]) <> DigitsSix.
Proof.
  split; [|split; [reflexivity|discriminate]].
  intros [F|[F|[F|[F|[]]]]]; discriminate F.
Qed.

(** C2 (amended): a Digits field below 4 or above 8 is replaced by the
    default of 6 digits. *)
Theorem C2_digits_out_of_range_defaulted : forall (c : Config) (tl : list Config),
  Digits c < DigitsFour \/ DigitsEight < Digits c ->
  Digits (configDefault (c :: tl)) = DigitsSix.
Proof.
  intros c tl H. rewrite configDefault_cons. cbn [Digits].
  destruct (Z.ltb_spec (Digits c) DigitsFour), (Z.ltb_spec DigitsEight (Digits c));
    cbn [orb]; try reflexivity. lia.
Qed.

Lemma C2_digits_out_of_range_witness :
  (Digits (set_Digits readme_config 9) < DigitsFour \/
   DigitsEight < Digits (set_Digits readme_config 9)) /\
  Digits (configDefault [set_Digits readme_config 9]) = DigitsSix.
Proof.
  assert (H : Digits (set_Digits readme_config 9) < DigitsFour \/
              DigitsEight < Digits (set_Digits readme_config 9))
    by (right; reflexivity).
  split; [exact H|].
  exact (C2_digits_out_of_range_defaulted (set_Digits readme_config 9) [] H).
Defined.

(** C3: the RFC 6238 vectors.  With the base32 text of the ASCII secret,
    8 digits and period 30, [GenerateForTime] returns 94287082, 07081804 and
    69279037 under SHA-1 at Unix times 59, 1111111109 and 2000000000,
    46119246 under SHA-256 (32-byte secret) and 90693936 under SHA-512
    (64-byte secret) at Unix time 59. *)
Theorem C3_rfc6238_vectors :
  generate (rfc6238_config AlgorithmSHA1 key20 0) 59
    = Returns ("94287082"%string, nil_error) /\
  generate (rfc6238_config AlgorithmSHA1 key20 0) 1111111109
    = Returns ("07081804"%string, nil_error) /\
  generate (rfc6238_config AlgorithmSHA1 key20 0) 2000000000
    = Returns ("69279037"%string, nil_error) /\
  generate (rfc6238_config AlgorithmSHA256 key32 0) 59
    = Returns ("46119246"%string, nil_error) /\
  generate (rfc6238_config AlgorithmSHA512 key64 0) 59
    = Returns ("90693936"%string, nil_error).
Proof. repeat apply conj; vm_compute; reflexivity. Qed.

(** C4 (the code departs from the claim; same defect as C1).  The claim:
    for every engine and every well-formed candidate, validation returns
    true exactly when some offset of the window yields the candidate.  On
    the MD5 engine at Unix time 210 the candidate 583366 is the code of the
    base step (offset 0 of the window), yet the scan starts at offset -1,
    whose instant (Unix time 180) makes [GenerateForTime] panic: validation
    panics instead of returning true. *)
Theorem C4_md5_window_panics :
  New [md5_config] = Returns md5_engine /\
  Z.of_nat (String.length "583366") = Digits (cfg md5_engine) /\
  Forall is_digit_byte (bytes_of_string "583366") /\
  (- Skew (cfg md5_engine) <= 0 <= Skew (cfg md5_engine) /\
   GenerateForTime md5_engine
     (int64 (int64 (210 / Period (cfg md5_engine) + 0) * Period (cfg md5_engine)))
   = Returns ("583366"%string, nil_error)) /\
  forall fuel,
    ValidateForTime (S fuel) md5_engine "583366" 210
    = Some (Panics "runtime error: index out of range").
Proof.
  split; [exact New_md5_config|].
  split; [reflexivity|].
  split; [repeat constructor; cbv; discriminate|].
  split; [split; [cbv; split; discriminate | vm_compute; reflexivity]|].
  intros fuel. unfold ValidateForTime.
  set (chk := negb _ || negb _).
  assert (Hchk : chk = false) by (vm_compute; reflexivity).
  rewrite Hchk. clear chk Hchk.
  set (d := div64 _ _).
  assert (Hd : d = Returns 7) by (vm_compute; reflexivity).
  rewrite Hd. clear d Hd.
  cbn [ValidateForTime_loop].
  set (i0 := int64 (- Skew (cfg md5_engine))).
  assert (Hi : i0 = -1) by (vm_compute; reflexivity).
  rewrite Hi. clear i0 Hi.
  set (c := (-1 <=? Skew (cfg md5_engine))).
  assert (Hc : c = true) by (vm_compute; reflexivity).
  rewrite Hc. clear c Hc.
  set (g := GenerateForTime _ _).
  assert (Hg : g = Panics "runtime error: index out of range")
    by (vm_compute; reflexivity).
  rewrite Hg. reflexivity.
Qed.

(** C5: a candidate whose length differs from the digit count, or that
    contains a rune that is not a decimal digit, is rejected with the
    format error, whatever the engine, the instant and the skew. *)
Theorem C5_format_rejection : forall (o : TOTP) (totp : string) (t : Z) (fuel : nat),
  Z.of_nat (String.length totp) <> Digits (cfg o) \/
  (exists r, In r (runes totp) /\ unicode.IsDigit r = false) ->
  ValidateForTime fuel o totp t
  = Some (Returns (false, Some "invalid TOTP format"%string)).
Proof.
  intros o totp t fuel [Hlen|Hrune]; unfold ValidateForTime.
  - destruct (Z.eqb_spec (Z.of_nat (String.length totp)) (Digits (cfg o)));
      [contradiction|reflexivity].
  - apply isValidInteger_false_iff in Hrune. rewrite Hrune.
    now rewrite orb_true_r.
Qed.

Lemma C5_format_rejection_witness :
  (Z.of_nat (String.length "12a456") <> Digits (cfg readme_engine) \/
   (exists r, In r (runes "12a456") /\ unicode.IsDigit r = false)) /\
  ValidateForTime 0 readme_engine "12a456" 59
  = Some (Returns (false, Some "invalid TOTP format"%string)).
Proof.
  assert (H : Z.of_nat (String.length "12a456") <> Digits (cfg readme_engine) \/
              (exists r, In r (runes "12a456") /\ unicode.IsDigit r = false)).
  { right. exists 97. split; [|reflexivity].
    right. right. left. reflexivity. }
  split; [exact H|].
  exact (C5_format_rejection readme_engine "12a456" 59 0 H).
Defined.

(** C6: [New] panics when the secret does not decode as base32, and
    otherwise returns an engine whose key is the decoded byte sequence; in
    particular the base32 text of any key is accepted and gives that key
    back. *)
Theorem C6_New_decodes_secret : forall (c : Config) (tl : list Config),
  (forall b e, base32.DecodeString (Secret c) = (b, Some e) ->
     New (c :: tl) = Panics ("failed to decode Base32 secret: " ++ e)) /\
  (forall b, base32.DecodeString (Secret c) = (b, None) ->
     exists o, New (c :: tl) = Returns o /\ decodedSecret o = b /\
               cfg o = configDefault (c :: tl)) /\
  (forall key, Forall is_byte key -> Secret c = base32.EncodeToString key ->
     exists o, New (c :: tl) = Returns o /\ decodedSecret o = key).
Proof.
  intros c tl.
  assert (HS : Secret (configDefault (c :: tl)) = Secret c)
    by (now rewrite configDefault_cons).
  repeat apply conj.
  - intros b e H. unfold New. now rewrite HS, H.
  - intros b H. unfold New. rewrite HS, H. eexists. repeat split.
  - intros key Hb Hs. now apply New_encoded_secret.
Qed.

Lemma C6_New_decodes_secret_witness :
  (base32.DecodeString (Secret bad_secret_config)
   = ([], base32.CorruptInputError 0) /\
   New [bad_secret_config]
   = Panics "failed to decode Base32 secret: illegal base32 data at input byte 0") /\
  (base32.DecodeString (Secret readme_config)
   = (bytes_of_string "Hello!" ++ [0xDE; 0xAD; 0xBE; 0xEF], None) /\
   exists o, New [readme_config] = Returns o /\
             decodedSecret o = bytes_of_string "Hello!" ++ [0xDE; 0xAD; 0xBE; 0xEF]) /\
  (Secret (rfc6238_config AlgorithmSHA1 key20 0)
   = base32.EncodeToString (bytes_of_string key20) /\
   exists o, New [rfc6238_config AlgorithmSHA1 key20 0] = Returns o /\
             decodedSecret o = bytes_of_string key20).
Proof.
  assert (Hbad : base32.DecodeString (Secret bad_secret_config)
                 = ([], base32.CorruptInputError 0)) by reflexivity.
  assert (Hok : base32.DecodeString (Secret readme_config)
                = (bytes_of_string "Hello!" ++ [0xDE; 0xAD; 0xBE; 0xEF], None))
    by reflexivity.
  assert (Henc : Secret (rfc6238_config AlgorithmSHA1 key20 0)
                 = base32.EncodeToString (bytes_of_string key20)) by reflexivity.
  destruct (C6_New_decodes_secret bad_secret_config []) as (P1 & _ & _).
  destruct (C6_New_decodes_secret readme_config []) as (_ & P2 & _).
  destruct (C6_New_decodes_secret (rfc6238_config AlgorithmSHA1 key20 0) [])
    as (_ & _ & P3).
  repeat apply conj; [exact Hbad | exact (P1 _ _ Hbad) | exact Hok | | exact Henc | ].
  - destruct (P2 _ Hok) as (o & Ho & Hk & _).
    exists o. split; [exact Ho|exact Hk].
  - exact (P3 _ (bytes_of_string_is_byte key20) Henc).
Defined.

(** C7: whenever [GenerateForTime] returns on an engine, the code has
    exactly [Digits] characters, all of them ASCII decimal digits, and its
    numeric value is the truncated value modulo [10 ^ Digits], so leading
    zeros are kept; the value 42 on 6 digits is rendered 000042. *)
Theorem C7_code_width_and_digits : forall config o t s e,
  New config = Returns o ->
  GenerateForTime o t = Returns (s, e) ->
  Z.of_nat (String.length s) = Digits (cfg o) /\
  Forall is_digit_byte (bytes_of_string s) /\
  decimal_value (bytes_of_string s)
  = truncation (hmacResult_at o t) mod 10 ^ Digits (cfg o) /\
  (r <- formatCode (repeat 0 8%nat) 42 DigitsSix ;;
   code <- slice_to (fst r) (snd r) ;;
   Returns (string_of_bytes code)) = Returns "000042"%string.
Proof.
  intros config o t s e HN HG.
  destruct (GenerateForTime_Returns_inv _ _ _ _ _ HN HG) as [-> _].
  destruct (code_at_digits config o t HN) as [Hlen Hdig].
  destruct (New_engine _ _ HN) as (_ & Hd & _ & _ & Hdiv).
  repeat apply conj; [exact Hlen | exact Hdig | | reflexivity].
  unfold code_at.
  pose proof (truncation_range (hmacResult_at o t)) as Htr.
  assert (Hpos : 0 < divisor o) by (rewrite Hdiv; apply Z.pow_pos_nonneg; lia).
  pose proof (Z.rem_bound_pos _ _ (proj1 Htr) Hpos) as Hrem.
  rewrite bytes_of_string_of_bytes.
  - rewrite decimal_value_digits_of by lia.
    rewrite Z2Nat.id by lia. rewrite Z.rem_mod_nonneg by lia.
    rewrite Hdiv. apply Z.mod_mod.
    apply Z.pow_nonzero; lia.
  - eapply Forall_impl; [apply is_digit_byte_is_byte|].
    apply digits_of_digit. lia.
Qed.

Lemma C7_code_width_and_digits_witness :
  New [rfc6238_config AlgorithmSHA1 key20 0] = Returns rfc6238_engine /\
  GenerateForTime rfc6238_engine 1111111109
  = Returns ("07081804"%string, nil_error) /\
  Z.of_nat (String.length "07081804") = Digits (cfg rfc6238_engine) /\
  Forall is_digit_byte (bytes_of_string "07081804").
Proof.
  assert (HN : New [rfc6238_config AlgorithmSHA1 key20 0] = Returns rfc6238_engine)
    by (vm_compute; reflexivity).
  assert (HG : GenerateForTime rfc6238_engine 1111111109
               = Returns ("07081804"%string, nil_error))
    by (vm_compute; reflexivity).
  split; [exact HN|]. split; [exact HG|].
  destruct (C7_code_width_and_digits _ _ _ _ _ HN HG) as (H1 & H2 & _).
  split; [exact H1|exact H2].
Defined.

(** C8: an algorithm identifier outside the enumeration behaves as SHA-1.
    The resolver stores the SHA-1 identifier, the registry's constructor
    answers SHA-1 for the identifier itself, and the engine, hence every
    generated code, is that of the same configuration with SHA-1. *)
Theorem C8_unsupported_algorithm_is_SHA1 : forall (c : Config) (tl : list Config),
  Algorithm c < AlgorithmSHA1 \/ AlgorithmMD5 < Algorithm c ->
  Algorithm (configDefault (c :: tl)) = AlgorithmSHA1 /\
  hash (Algorithm c) = sha1.New /\
  New (c :: tl) = New (set_Algorithm c AlgorithmSHA1 :: tl) /\
  forall t,
    (o <- New (c :: tl) ;; GenerateForTime o t)
    = (o <- New (set_Algorithm c AlgorithmSHA1 :: tl) ;; GenerateForTime o t).
Proof.
  intros c tl H.
  assert (HC : configDefault (c :: tl)
               = configDefault (set_Algorithm c AlgorithmSHA1 :: tl)).
  { rewrite !configDefault_cons. cbn [set_Algorithm Algorithm Digits Period Secret Skew].
    unfold AlgorithmSHA1, AlgorithmMD5 in *.
    destruct (Z.ltb_spec (Algorithm c) 0), (Z.ltb_spec 13 (Algorithm c));
      cbn [orb]; try reflexivity; lia. }
  assert (HNew : New (c :: tl) = New (set_Algorithm c AlgorithmSHA1 :: tl))
    by (unfold New; now rewrite HC).
  repeat apply conj.
  - rewrite HC, configDefault_cons. reflexivity.
  - unfold hash.
    unfold AlgorithmSHA1, AlgorithmSHA224, AlgorithmSHA256, AlgorithmSHA384,
      AlgorithmSHA512, AlgorithmSHA3_224, AlgorithmSHA3_256, AlgorithmSHA3_384,
      AlgorithmSHA3_512, AlgorithmBLAKE2S_256, AlgorithmBLAKE2B_256,
      AlgorithmBLAKE2B_384, AlgorithmBLAKE2B_512, AlgorithmMD5 in *.
    repeat match goal with
           | |- context [?x =? ?y] => destruct (Z.eqb_spec x y); [lia|]
           end.
    reflexivity.
  - exact HNew.
  - intros t. now rewrite HNew.
Qed.

Lemma C8_unsupported_algorithm_witness :
  (Algorithm (set_Algorithm readme_config 14) < AlgorithmSHA1 \/
   AlgorithmMD5 < Algorithm (set_Algorithm readme_config 14)) /\
  Algorithm (configDefault [set_Algorithm readme_config 14]) = AlgorithmSHA1 /\
  hash 14 = sha1.New /\
  New [set_Algorithm readme_config 14] = New [readme_config].
Proof.
  assert (H : Algorithm (set_Algorithm readme_config 14) < AlgorithmSHA1 \/
              AlgorithmMD5 < Algorithm (set_Algorithm readme_config 14))
    by (right; reflexivity).
  split; [exact H|].
  destruct (C8_unsupported_algorithm_is_SHA1 (set_Algorithm readme_config 14) [] H)
    as (H1 & H2 & H3 & _).
  split; [exact H1|]. split; [exact H2|exact H3].
Defined.

(** C9: the resolver leaves the secret alone and keeps every field that is
    inside its domain. *)
Theorem C9_resolver_frame : forall (c : Config) (tl : list Config),
  Secret (configDefault (c :: tl)) = Secret c /\
  (AlgorithmSHA1 <= Algorithm c <= AlgorithmMD5 ->
   Algorithm (configDefault (c :: tl)) = Algorithm c) /\
  (DigitsFour <= Digits c <= DigitsEight ->
   Digits (configDefault (c :: tl)) = Digits c) /\
  (0 < Period c -> Period (configDefault (c :: tl)) = Period c) /\
  (0 <= Skew c -> Skew (configDefault (c :: tl)) = Skew c).
Proof.
  intros c tl. rewrite configDefault_cons.
  cbn [Algorithm Digits Period Secret Skew].
  repeat apply conj; [reflexivity | | | | ]; intros H.
  - destruct (Z.ltb_spec (Algorithm c) AlgorithmSHA1),
      (Z.ltb_spec AlgorithmMD5 (Algorithm c)); cbn [orb]; try reflexivity; lia.
  - destruct (Z.ltb_spec (Digits c) DigitsFour),
      (Z.ltb_spec DigitsEight (Digits c)); cbn [orb]; try reflexivity; lia.
  - destruct (Z.leb_spec (Period c) 0); [lia|reflexivity].
  - destruct (Z.ltb_spec (Skew c) 0); [lia|reflexivity].
Qed.

Lemma C9_resolver_frame_witness :
  (AlgorithmSHA1 <= Algorithm mixed_config <= AlgorithmMD5) /\
  (DigitsFour <= Digits mixed_config <= DigitsEight) /\
  configDefault [mixed_config]
  = {| Algorithm := AlgorithmMD5; Digits := 7; Period := 30;
       Secret := "JBSWY3DPEHPK3PXP"; Skew := 1 |} /\
  Secret (configDefault [mixed_config]) = Secret mixed_config /\
  Algorithm (configDefault [mixed_config]) = Algorithm mixed_config /\
  Digits (configDefault [mixed_config]) = Digits mixed_config.
Proof.
  assert (Ha : AlgorithmSHA1 <= Algorithm mixed_config <= AlgorithmMD5)
    by (split; discriminate).
  assert (Hd : DigitsFour <= Digits mixed_config <= DigitsEight)
    by (split; discriminate).
  destruct (C9_resolver_frame mixed_config []) as (H1 & H2 & H3 & _).
  split; [exact Ha|]. split; [exact Hd|]. split; [reflexivity|].
  split; [exact H1|]. split; [exact (H2 Ha)|exact (H3 Hd)].
Defined.

(** C10: the format check counts bytes and accepts any Unicode decimal
    digit.  The candidate made of three ARABIC-INDIC DIGIT ZERO has six
    bytes and three runes, all digits and none ASCII; on the README's
    6-digit engine it passes the format check, and validation returns false
    with a nil error at every instant, since no generated code contains a
    byte outside the ASCII digits. *)
Theorem C10_unicode_digits_pass_format_check :
  exists (config : list Config) (o : TOTP) (totp : string),
    New config = Returns o /\
    Z.of_nat (String.length totp) = Digits (cfg o) /\
    runes totp = [0x660; 0x660; 0x660] /\
    isValidInteger totp = true /\
    (forall t fuel,
       ValidateForTime (4 + fuel) o totp t = Some (Returns (false, nil_error))) /\
    (forall config' o' t s e,
       New config' = Returns o' -> GenerateForTime o' t = Returns (s, e) ->
       s <> totp).
Proof.
  exists [readme_config], readme_engine, arabic_zeros.
  assert (Hbad : exists b, In b (bytes_of_string arabic_zeros) /\ ~ is_digit_byte b).
  { exists 0xD9. split; [left; reflexivity|]. unfold is_digit_byte. lia. }
  split; [exact New_readme_config|].
  split; [reflexivity|]. split; [reflexivity|]. split; [reflexivity|].
  split.
  - intros t fuel. unfold ValidateForTime.
    change (negb (Z.of_nat (String.length arabic_zeros) =? Digits (cfg readme_engine))
            || negb (isValidInteger arabic_zeros)) with false.
    cbv iota. unfold div64.
    change (Period (cfg readme_engine) =? 0) with false. cbv iota.
    change (int64 (- Skew (cfg readme_engine))) with (-1).
    destruct (ValidateForTime_loop_spec readme_engine arabic_zeros
                (int64 (Z.quot t (Period (cfg readme_engine))))
                (fun x => GenerateForTime_not_MD5 _ _ x New_readme_config
                            ltac:(discriminate))
                ltac:(reflexivity) 3 (-1) (4 + fuel)
                ltac:(reflexivity) ltac:(discriminate) ltac:(lia))
      as (b & Hb & Hiff).
    rewrite Hb. destruct b; [|reflexivity].
    exfalso. destruct (proj1 Hiff eq_refl) as (k & _ & Hk).
    destruct Hbad as (x & Hin & Hx). rewrite <- Hk in Hin.
    destruct (code_at_digits _ readme_engine
                (window_instant readme_engine
                   (int64 (Z.quot t (Period (cfg readme_engine)))) k)
                New_readme_config) as [_ Hdig].
    rewrite Forall_forall in Hdig. exact (Hx (Hdig x Hin)).
  - intros config' o' t s e HN HG.
    exact (generated_code_differs _ _ _ _ _ _ HN HG Hbad).
Qed.

(** * Further properties of the package *)

(** ** The resolver *)

(** X1: whatever the input, the resolved configuration is inside every
    domain: algorithm from SHA-1 to MD5, digits from 4 to 8, period
    positive, skew non-negative. *)
Theorem X1_configDefault_in_domain : forall config : list Config,
  AlgorithmSHA1 <= Algorithm (configDefault config) <= AlgorithmMD5 /\
  DigitsFour <= Digits (configDefault config) <= DigitsEight /\
  0 < Period (configDefault config) /\
  0 <= Skew (configDefault config).
Proof. intros config. exact (configDefault_resolved config). Qed.

(** X2: resolving is idempotent: a resolved configuration is resolved to
    itself. *)
Theorem X2_configDefault_idempotent : forall (config tl : list Config),
  configDefault (configDefault config :: tl) = configDefault config.
Proof. intros config tl. apply configDefault_idempotent. Qed.

(** X3: a period that is zero or negative becomes 30 and a negative skew
    becomes 1, while a skew of zero is kept; the two substitutions do not
    depend on the other fields. *)
Theorem X3_period_and_skew_defaults : forall (c : Config) (tl : list Config),
  (Period c <= 0 -> Period (configDefault (c :: tl)) = 30) /\
  (Skew c < 0 -> Skew (configDefault (c :: tl)) = 1) /\
  (Skew c = 0 -> Skew (configDefault (c :: tl)) = 0).
Proof.
  intros c tl. rewrite configDefault_cons. cbn [Period Skew].
  repeat apply conj; intros H.
  - destruct (Z.leb_spec (Period c) 0); [reflexivity|lia].
  - destruct (Z.ltb_spec (Skew c) 0); [reflexivity|lia].
  - rewrite H. reflexivity.
Qed.

(** X4: only the first configuration of the variadic argument is read, by
    the resolver and by [New]; with no configuration [New] builds the
    default engine (SHA-1, 6 digits, period 30, skew 1, modulus 10^6) on the
    empty key. *)
Theorem X4_first_configuration_only : forall (c : Config) (tl : list Config),
  configDefault (c :: tl) = configDefault [c] /\
  New (c :: tl) = New [c] /\
  New [] = Returns default_engine.
Proof.
  intros c tl.
  assert (H : configDefault (c :: tl) = configDefault [c])
    by (now rewrite !configDefault_cons).
  repeat apply conj; [exact H | unfold New; now rewrite H | reflexivity].
Qed.

(** ** New *)

(** X5: an engine returned by [New] holds the resolved configuration, the
    decoded secret, and the modulus [10 ^ Digits] (between 10^4 and 10^8). *)
Theorem X5_New_engine_invariant : forall (config : list Config) (o : TOTP),
  New config = Returns o ->
  cfg o = configDefault config /\
  base32.DecodeString (Secret (configDefault config)) = (decodedSecret o, nil_error) /\
  divisor o = 10 ^ Digits (cfg o) /\
  10000 <= divisor o <= 100000000.
Proof.
  intros config o H.
  destruct (New_Returns _ _ H) as (Hc & Hs & Hd).
  destruct (New_engine _ _ H) as (_ & Hdig & _).
  repeat apply conj; try assumption; rewrite Hd.
  - change 10000 with (10 ^ 4). apply Z.pow_le_mono_r; lia.
  - change 100000000 with (10 ^ 8). apply Z.pow_le_mono_r; lia.
Qed.

Lemma X5_New_engine_invariant_witness :
  New [rfc6238_config AlgorithmSHA1 key20 0] = Returns rfc6238_engine /\
  cfg rfc6238_engine = configDefault [rfc6238_config AlgorithmSHA1 key20 0] /\
  divisor rfc6238_engine = 10 ^ Digits (cfg rfc6238_engine).
Proof.
  assert (HN : New [rfc6238_config AlgorithmSHA1 key20 0] = Returns rfc6238_engine)
    by (vm_compute; reflexivity).
  destruct (X5_New_engine_invariant _ _ HN) as (H1 & _ & H3 & _).
  split; [exact HN|]. split; [exact H1|exact H3].
Defined.

(** ** The digest registry *)

(** X6: every hash the registry answers, for any identifier, produces
    digests of its declared size, and so does the HMAC built on it; the size
    is 16 bytes for MD5 and between 20 and 64 bytes for every other
    identifier, supported or not. *)
Theorem X6_digest_sizes : forall (a : Z) (key msg : list Z),
  length (Sum (hash a) msg) = Size (hash a) /\
  length (Sum (hmac.New (hash a) key) msg) = Size (hash a) /\
  (a = AlgorithmMD5 -> Size (hash a) = 16%nat) /\
  (a <> AlgorithmMD5 -> (20 <= Size (hash a) <= 64)%nat).
Proof.
  intros a key msg.
  repeat apply conj.
  - apply hash_Sum_length.
  - apply hmac_Sum_length, hash_Sum_length.
  - intros ->. reflexivity.
  - intros Ha. unfold hash.
    repeat match goal with
           | |- context [if ?x =? ?y then _ else _] =>
               destruct (Z.eqb_spec x y)
           end; subst; cbn; unfold AlgorithmMD5 in *; lia.
Qed.

(** ** GenerateForTime: the time step *)

(** X7: the eight bytes written for a time step are its 64-bit two's
    complement in big-endian order: read back as an unsigned number they
    give the step modulo 2^64, hence the step itself when it is not
    negative. *)
Theorem X7_timeBytes_big_endian : forall timeStep : Z,
  length (timeBytes_of timeStep) = 8%nat /\
  Forall is_byte (timeBytes_of timeStep) /\
  be_uint (timeBytes_of timeStep) = timeStep mod 2 ^ 64 /\
  (0 <= timeStep <= MaxInt64 -> be_uint (timeBytes_of timeStep) = timeStep).
Proof.
  intros ts.
  assert (E : be_uint (timeBytes_of ts) = ts mod 2 ^ 64).
  { rewrite timeBytes_of_be. unfold be_uint, be_bytes, byte.
    cbn [fold_left]. rewrite !Z.shiftr_div_pow2 by lia.
    change (8 * Z.of_nat 7) with 56. change (8 * Z.of_nat 6) with 48.
    change (8 * Z.of_nat 5) with 40. change (8 * Z.of_nat 4) with 32.
    change (8 * Z.of_nat 3) with 24. change (8 * Z.of_nat 2) with 16.
    change (8 * Z.of_nat 1) with 8. change (8 * Z.of_nat 0) with 0.
    Z.div_mod_to_equations. lia. }
  repeat apply conj.
  - reflexivity.
  - rewrite timeBytes_of_be. unfold be_bytes, is_byte, byte.
    repeat constructor; apply Z.mod_pos_bound; lia.
  - exact E.
  - intros H. rewrite E. apply Z.mod_small. unfold MaxInt64 in H. lia.
Qed.

(** ** formatCode *)

(** X8: on a buffer of at least [digits] bytes and a code that is not
    negative, [formatCode] returns [digits] and a buffer of the same length
    whose first [digits] bytes are ASCII digits of value
    [code mod 10 ^ digits], the bytes after them being untouched. *)
Theorem X8_formatCode_writes_low_digits : forall (buf : list Z) (code digits : Z),
  0 <= code ->
  0 <= digits <= Z.of_nat (length buf) ->
  exists buf',
    formatCode buf code digits = Returns (buf', digits) /\
    length buf' = length buf /\
    Forall is_digit_byte (firstn (Z.to_nat digits) buf') /\
    decimal_value (firstn (Z.to_nat digits) buf') = code mod 10 ^ digits /\
    skipn (Z.to_nat digits) buf' = skipn (Z.to_nat digits) buf.
Proof.
  intros buf code digits Hc Hd.
  exists (digits_of (Z.to_nat digits) code ++ skipn (Z.to_nat digits) buf).
  assert (Hn : (Z.to_nat digits <= length buf)%nat) by lia.
  assert (Hf : firstn (Z.to_nat digits)
                 (digits_of (Z.to_nat digits) code ++ skipn (Z.to_nat digits) buf)
               = digits_of (Z.to_nat digits) code).
  { rewrite firstn_app, digits_of_length, Nat.sub_diag, firstn_O, app_nil_r.
    apply firstn_all2. rewrite digits_of_length. lia. }
  repeat apply conj.
  - unfold formatCode. now rewrite formatCode_loop_Returns by exact Hn.
  - rewrite length_app, digits_of_length, length_skipn. lia.
  - rewrite Hf. now apply digits_of_digit.
  - rewrite Hf, decimal_value_digits_of by exact Hc. now rewrite Z2Nat.id by lia.
  - rewrite skipn_app, digits_of_length, Nat.sub_diag.
    rewrite skipn_all2 by (rewrite digits_of_length; lia). reflexivity.
Qed.

Lemma X8_formatCode_witness :
  (0 <= 42) /\ (0 <= 6 <= Z.of_nat (length (repeat 7 8%nat))) /\
  exists buf',
    formatCode (repeat 7 8%nat) 42 6 = Returns (buf', 6) /\
    decimal_value (firstn 6 buf') = 42 mod 10 ^ 6 /\
    skipn 6 buf' = [7; 7].
Proof.
  assert (H1 : 0 <= 42) by discriminate.
  assert (H2 : 0 <= 6 <= Z.of_nat (length (repeat 7 8%nat)))
    by (split; discriminate).
  split; [exact H1|]. split; [exact H2|].
  destruct (X8_formatCode_writes_low_digits (repeat 7 8%nat) 42 6 H1 H2)
    as (buf' & Hf & _ & _ & Hv & Hs).
  exists buf'. split; [exact Hf|]. split; [exact Hv|exact Hs].
Defined.

(** X9: asked for more digits than the buffer holds, [formatCode] panics on
    its first store, the index [digits - 1] being out of range. *)
Theorem X9_formatCode_small_buffer_panics : forall (buf : list Z) (code digits : Z),
  Z.of_nat (length buf) < digits ->
  formatCode buf code digits = Panics "runtime error: index out of range".
Proof.
  intros buf code digits H. unfold formatCode.
  now rewrite formatCode_loop_Panics by lia.
Qed.

Lemma X9_formatCode_small_buffer_witness :
  Z.of_nat (length (repeat 0 8%nat)) < 9 /\
  formatCode (repeat 0 8%nat) 123456789 9
  = Panics "runtime error: index out of range".
Proof.
  assert (H : Z.of_nat (length (repeat 0 8%nat)) < 9) by reflexivity.
  split; [exact H|].
  exact (X9_formatCode_small_buffer_panics (repeat 0 8%nat) 123456789 9 H).
Defined.

(** ** GenerateForTime *)

(** X10: on an engine whose algorithm is not MD5, [GenerateForTime] never
    panics: at every instant it returns a code with a nil error. *)
Theorem X10_GenerateForTime_returns : forall (config : list Config) (o : TOTP) (t : Z),
  New config = Returns o ->
  Algorithm (cfg o) <> AlgorithmMD5 ->
  exists s, GenerateForTime o t = Returns (s, nil_error).
Proof.
  intros config o t HN Ha. exists (code_at o t).
  now apply (GenerateForTime_not_MD5 config).
Qed.

Lemma X10_GenerateForTime_returns_witness :
  New [readme_config] = Returns readme_engine /\
  Algorithm (cfg readme_engine) <> AlgorithmMD5 /\
  exists s, GenerateForTime readme_engine (-1) = Returns (s, nil_error).
Proof.
  assert (HN : New [readme_config] = Returns readme_engine)
    by (vm_compute; reflexivity).
  assert (Ha : Algorithm (cfg readme_engine) <> AlgorithmMD5) by discriminate.
  split; [exact HN|]. split; [exact Ha|].
  exact (X10_GenerateForTime_returns _ _ (-1) HN Ha).
Defined.

(** X11: on an MD5 engine the HMAC has 16 bytes, and [GenerateForTime]
    panics exactly at the instants whose HMAC ends in a low nibble of 13, 14
    or 15; at every other instant it returns a code with a nil error. *)
Theorem X11_GenerateForTime_MD5 : forall (config : list Config) (o : TOTP) (t : Z),
  New config = Returns o ->
  Algorithm (cfg o) = AlgorithmMD5 ->
  length (hmacResult_at o t) = 16%nat /\
  (Z.land (nth 15 (hmacResult_at o t) 0) 0x0F <= 12 ->
   exists s, GenerateForTime o t = Returns (s, nil_error)) /\
  (13 <= Z.land (nth 15 (hmacResult_at o t) 0) 0x0F ->
   GenerateForTime o t = Panics "runtime error: index out of range").
Proof.
  intros config o t HN Ha.
  assert (Hlen : length (hmacResult_at o t) = 16%nat)
    by (rewrite hmacResult_at_length, Ha; reflexivity).
  destruct (GenerateForTime_engine config o t HN) as [[Hin E]|[Hout E]];
    unfold truncation_in_range in *; rewrite Hlen in *;
    cbn [Nat.sub Z.of_nat Pos.of_succ_nat Pos.succ] in *.
  - repeat apply conj; [reflexivity | eauto | intros H; lia].
  - repeat apply conj; [reflexivity | intros H; lia | intros _; exact E].
Qed.

Lemma X11_GenerateForTime_MD5_witness :
  New [md5_config] = Returns md5_engine /\
  Algorithm (cfg md5_engine) = AlgorithmMD5 /\
  Z.land (nth 15 (hmacResult_at md5_engine 210) 0) 0x0F <= 12 /\
  (exists s, GenerateForTime md5_engine 210 = Returns (s, nil_error)) /\
  13 <= Z.land (nth 15 (hmacResult_at md5_engine 180) 0) 0x0F /\
  GenerateForTime md5_engine 180 = Panics "runtime error: index out of range".
Proof.
  assert (HN : New [md5_config] = Returns md5_engine) by (vm_compute; reflexivity).
  assert (Ha : Algorithm (cfg md5_engine) = AlgorithmMD5) by reflexivity.
  assert (H1 : Z.land (nth 15 (hmacResult_at md5_engine 210) 0) 0x0F <= 12)
    by (apply Z.leb_le; vm_compute; reflexivity).
  assert (H2 : 13 <= Z.land (nth 15 (hmacResult_at md5_engine 180) 0) 0x0F)
    by (apply Z.leb_le; vm_compute; reflexivity).
  destruct (X11_GenerateForTime_MD5 _ _ 210 HN Ha) as (_ & P1 & _).
  destruct (X11_GenerateForTime_MD5 _ _ 180 HN Ha) as (_ & _ & P2).
  repeat apply conj; [exact HN | exact Ha | exact H1 | exact (P1 H1)
                     | exact H2 | exact (P2 H2)].
Defined.

(** X12: the outcome of [GenerateForTime] is the same throughout a period:
    every instant [k * period + r] with [0 <= r < period] behaves as the
    start [k * period] of its period; and, the division truncating toward
    zero, every instant strictly between [- period] and [period] behaves as
    the instant 0. *)
Theorem X12_GenerateForTime_constant_in_period : forall (o : TOTP),
  0 < Period (cfg o) ->
  (forall k r, 0 <= k -> 0 <= r < Period (cfg o) ->
     GenerateForTime o (k * Period (cfg o) + r)
     = GenerateForTime o (k * Period (cfg o))) /\
  (forall t, - Period (cfg o) < t < Period (cfg o) ->
     GenerateForTime o t = GenerateForTime o 0).
Proof.
  intros o HP.
  assert (Hq : forall t1 t2, Z.quot t1 (Period (cfg o)) = Z.quot t2 (Period (cfg o)) ->
                 GenerateForTime o t1 = GenerateForTime o t2).
  { intros t1 t2 H. unfold GenerateForTime, div64. now rewrite H. }
  split.
  - intros k r Hk Hr. apply Hq.
    rewrite !Z.quot_div_nonneg by nia.
    rewrite Z.div_add_l by lia. rewrite Z.div_mul by lia.
    rewrite (Z.div_small r) by lia. lia.
  - intros t Ht. apply Hq. rewrite Z.quot_0_l by lia.
    destruct (Z.le_gt_cases 0 t).
    + apply Z.quot_small. lia.
    + rewrite <- (Z.opp_involutive t), Z.quot_opp_l by lia.
      rewrite Z.quot_small by lia. reflexivity.
Qed.

Lemma X12_constant_in_period_witness :
  0 < Period (cfg rfc6238_engine) /\
  GenerateForTime rfc6238_engine (1 * Period (cfg rfc6238_engine) + 29)
  = GenerateForTime rfc6238_engine (1 * Period (cfg rfc6238_engine)) /\
  GenerateForTime rfc6238_engine (-29) = GenerateForTime rfc6238_engine 0.
Proof.
  assert (HP : 0 < Period (cfg rfc6238_engine)) by reflexivity.
  destruct (X12_GenerateForTime_constant_in_period rfc6238_engine HP) as [P1 P2].
  split; [exact HP|]. split.
  - apply P1; [discriminate|split; [discriminate|reflexivity]].
  - apply P2. split; reflexivity.
Defined.

(** ** Errors and acceptance of ValidateForTime *)

(** [GenerateForTime] has one [return], with a nil error. *)
Lemma GenerateForTime_error_nil o t s e :
  GenerateForTime o t = Returns (s, e) -> e = nil_error.
Proof.
  unfold GenerateForTime. intros H.
  repeat match type of H with
         | bind ?m _ = _ => destruct m; cbn [bind] in H; [|discriminate H]
         end.
  now injection H as _ <-.
Qed.

(** A scan that returns, returns a nil error. *)
Lemma ValidateForTime_loop_error_nil : forall fuel o totp baseTimeStep i b e,
  ValidateForTime_loop fuel o totp baseTimeStep i = Some (Returns (b, e)) ->
  e = nil_error.
Proof.
  induction fuel as [|f IH]; intros o totp baseTimeStep i b e H;
    cbn [ValidateForTime_loop] in H; [discriminate|].
  destruct (i <=? Skew (cfg o)); [|now injection H as _ <-].
  destruct (GenerateForTime o _) as [[expected [e'|]]|msg] eqn:G.
  - apply GenerateForTime_error_nil in G. discriminate G.
  - destruct (subtle.ConstantTimeCompare _ _ =? 1).
    + now injection H as _ <-.
    + now apply IH in H.
  - discriminate H.
Qed.

(** X13: the only error [ValidateForTime] ever returns is the format error,
    with a false result and on a candidate that fails the format check: the
    branch wrapping an error of [GenerateForTime] is never taken, since
    [GenerateForTime] returns no error. *)
Theorem X13_only_format_error :
  forall (fuel : nat) (o : TOTP) (totp : string) (t : Z) (b : bool) (e : string),
  ValidateForTime fuel o totp t = Some (Returns (b, Some e)) ->
  b = false /\ e = "invalid TOTP format"%string /\
  (Z.of_nat (String.length totp) <> Digits (cfg o) \/ isValidInteger totp = false).
Proof.
  intros fuel o totp t b e H. unfold ValidateForTime in H.
  destruct (Z.eqb_spec (Z.of_nat (String.length totp)) (Digits (cfg o)))
    as [Hlen|Hlen]; cbn [negb orb] in H.
  - destruct (isValidInteger totp) eqn:Hv; cbn [negb] in H.
    + destruct (div64 t (Period (cfg o))); [|discriminate H].
      apply ValidateForTime_loop_error_nil in H. discriminate H.
    + injection H as <- <-. auto.
  - injection H as <- <-. auto.
Qed.

Lemma X13_only_format_error_witness :
  ValidateForTime 4 readme_engine "12345" 59
  = Some (Returns (false, Some "invalid TOTP format"%string)) /\
  (Z.of_nat (String.length "12345") <> Digits (cfg readme_engine) \/
   isValidInteger "12345" = false).
Proof.
  assert (H : ValidateForTime 4 readme_engine "12345" 59
              = Some (Returns (false, Some "invalid TOTP format"%string)))
    by reflexivity.
  split; [exact H|].
  exact (proj2 (proj2 (X13_only_format_error _ _ _ _ _ _ H))).
Defined.

(** A scan that returns true has met the candidate at an offset it
    visited. *)
Lemma ValidateForTime_loop_true : forall fuel o totp baseTimeStep i e,
  Skew (cfg o) < MaxInt64 -> MinInt64 <= i ->
  ValidateForTime_loop fuel o totp baseTimeStep i = Some (Returns (true, e)) ->
  exists k, i <= k <= Skew (cfg o) /\
    GenerateForTime o (window_instant o baseTimeStep k) = Returns (totp, nil_error).
Proof.
  induction fuel as [|f IH]; intros o totp baseTimeStep i e Hs Hi H;
    cbn [ValidateForTime_loop] in H; [discriminate|].
  destruct (Z.leb_spec i (Skew (cfg o))); [|discriminate H].
  fold (window_instant o baseTimeStep i) in H.
  destruct (GenerateForTime o (window_instant o baseTimeStep i))
    as [[expected [e'|]]|msg] eqn:G; try discriminate H.
  destruct (subtle.ConstantTimeCompare _ _ =? 1) eqn:E.
  - apply ConstantTimeCompare_strings in E. subst expected.
    exists i. split; [lia|exact G].
  - rewrite (int64_small (i + 1)) in H by (unfold MinInt64, MaxInt64 in *; lia).
    destruct (IH o totp baseTimeStep (i + 1) e Hs ltac:(lia) H) as (k & Hk & Hg).
    exists k. split; [lia|exact Hg].
Qed.

(** X14: validation is sound on every engine, MD5 engines included: a true
    result comes with a nil error, and the accepted candidate has exactly
    [Digits] characters, all ASCII digits, and is the code [GenerateForTime]
    returns at some offset of the window around the base time step. *)
Theorem X14_validation_sound :
  forall (config : list Config) (o : TOTP) (totp : string) (t : Z) (fuel : nat)
         (e : error),
  New config = Returns o ->
  Skew (cfg o) < MaxInt64 ->
  ValidateForTime fuel o totp t = Some (Returns (true, e)) ->
  e = nil_error /\
  Z.of_nat (String.length totp) = Digits (cfg o) /\
  Forall is_digit_byte (bytes_of_string totp) /\
  exists i, - Skew (cfg o) <= i <= Skew (cfg o) /\
    GenerateForTime o (window_instant o (int64 (Z.quot t (Period (cfg o)))) i)
    = Returns (totp, nil_error).
Proof.
  intros config o totp t fuel e HN Hs H.
  destruct (New_engine _ _ HN) as (_ & Hd & HP & Hsk & Hdiv).
  unfold ValidateForTime in H.
  destruct (Z.eqb_spec (Z.of_nat (String.length totp)) (Digits (cfg o)))
    as [Hlen|Hlen]; cbn [negb orb] in H; [|discriminate H].
  destruct (isValidInteger totp); cbn [negb] in H; [|discriminate H].
  unfold div64 in H.
  destruct (Z.eqb_spec (Period (cfg o)) 0); [lia|].
  pose proof (ValidateForTime_loop_error_nil _ _ _ _ _ _ _ H) as He.
  rewrite (int64_small (- Skew (cfg o))) in H
    by (unfold MinInt64, MaxInt64 in *; lia).
  destruct (ValidateForTime_loop_true fuel o totp _ (- Skew (cfg o)) e Hs
              ltac:(unfold MinInt64, MaxInt64 in *; lia) H) as (k & Hk & Hg).
  repeat apply conj; [exact He | exact Hlen | | exists k; split; [lia|exact Hg]].
  destruct (GenerateForTime_Returns_inv _ _ _ _ _ HN Hg) as [-> _].
  apply (code_at_digits config o _ HN).
Qed.

Lemma X14_validation_sound_witness :
  New [md5_config] = Returns md5_engine /\
  Skew (cfg md5_engine) < MaxInt64 /\
  ValidateForTime 4 md5_engine "793832" 60 = Some (Returns (true, nil_error)) /\
  exists i, - Skew (cfg md5_engine) <= i <= Skew (cfg md5_engine) /\
    GenerateForTime md5_engine
      (window_instant md5_engine (int64 (Z.quot 60 (Period (cfg md5_engine)))) i)
    = Returns ("793832"%string, nil_error).
Proof.
  assert (HN : New [md5_config] = Returns md5_engine) by (vm_compute; reflexivity).
  assert (Hs : Skew (cfg md5_engine) < MaxInt64) by reflexivity.
  assert (HV : ValidateForTime 4 md5_engine "793832" 60
               = Some (Returns (true, nil_error))) by (vm_compute; reflexivity).
  split; [exact HN|]. split; [exact Hs|]. split; [exact HV|].
  exact (proj2 (proj2 (proj2 (X14_validation_sound _ _ _ _ _ _ HN Hs HV)))).
Defined.

(** ** The window on engines that always generate *)

(** The window result in terms of the closed form of the codes. *)
Lemma ValidateForTime_window_code_at config o totp t fuel :
  New config = Returns o ->
  Algorithm (cfg o) <> AlgorithmMD5 ->
  Skew (cfg o) < MaxInt64 ->
  Z.of_nat (String.length totp) = Digits (cfg o) ->
  Forall is_digit_byte (bytes_of_string totp) ->
  2 * Skew (cfg o) + 1 < Z.of_nat fuel ->
  exists b,
    ValidateForTime fuel o totp t = Some (Returns (b, nil_error)) /\
    (b = true <->
     exists i, - Skew (cfg o) <= i <= Skew (cfg o) /\
       code_at o (window_instant o (int64 (Z.quot t (Period (cfg o)))) i) = totp).
Proof.
  intros HN Ha Hs Hlen Hdig Hfuel.
  destruct (New_engine _ _ HN) as (_ & Hd & HP & Hsk & Hdiv).
  unfold ValidateForTime.
  rewrite Hlen, Z.eqb_refl, (isValidInteger_ascii _ Hdig). cbn [negb orb].
  unfold div64. destruct (Z.eqb_spec (Period (cfg o)) 0); [lia|].
  rewrite (int64_small (- Skew (cfg o)))
    by (unfold MinInt64, MaxInt64 in *; lia).
  exact (ValidateForTime_loop_spec o totp (int64 (Z.quot t (Period (cfg o))))
           (fun x => GenerateForTime_not_MD5 config o x HN Ha) Hs
           (Z.to_nat (2 * Skew (cfg o) + 1)) (- Skew (cfg o)) fuel
           ltac:(lia) ltac:(unfold MinInt64, MaxInt64 in *; lia) ltac:(lia)).
Qed.

(** X15: on an engine whose algorithm is not MD5 and whose skew is below
    [MaxInt64], validation of a well-formed candidate returns within
    [2 * Skew + 1] iterations, at any instant, with a nil error; the result
    is true exactly when some offset from [- Skew] to [Skew] around the base
    time step yields the candidate. *)
Theorem X15_validation_window :
  forall (config : list Config) (o : TOTP) (totp : string) (t : Z) (fuel : nat),
  New config = Returns o ->
  Algorithm (cfg o) <> AlgorithmMD5 ->
  Skew (cfg o) < MaxInt64 ->
  Z.of_nat (String.length totp) = Digits (cfg o) ->
  Forall is_digit_byte (bytes_of_string totp) ->
  2 * Skew (cfg o) + 1 < Z.of_nat fuel ->
  exists b,
    ValidateForTime fuel o totp t = Some (Returns (b, nil_error)) /\
    (b = true <->
     exists i, - Skew (cfg o) <= i <= Skew (cfg o) /\
       GenerateForTime o (window_instant o (int64 (Z.quot t (Period (cfg o)))) i)
       = Returns (totp, nil_error)).
Proof.
  intros config o totp t fuel HN Ha Hs Hlen Hdig Hfuel.
  destruct (ValidateForTime_window_code_at config o totp t fuel
              HN Ha Hs Hlen Hdig Hfuel) as (b & Hb & Hiff).
  exists b. split; [exact Hb|]. rewrite Hiff.
  split; intros (k & Hk & Hc); exists k; (split; [exact Hk|]).
  - rewrite (GenerateForTime_not_MD5 config o _ HN Ha). now rewrite Hc.
  - rewrite (GenerateForTime_not_MD5 config o _ HN Ha) in Hc.
    now injection Hc.
Qed.

Lemma X15_validation_window_witness :
  New [readme_config] = Returns readme_engine /\
  Algorithm (cfg readme_engine) <> AlgorithmMD5 /\
  Skew (cfg readme_engine) < MaxInt64 /\
  Z.of_nat (String.length "000000") = Digits (cfg readme_engine) /\
  Forall is_digit_byte (bytes_of_string "000000") /\
  2 * Skew (cfg readme_engine) + 1 < Z.of_nat 4 /\
  exists b,
    ValidateForTime 4 readme_engine "000000" (-100) = Some (Returns (b, nil_error)).
Proof.
  assert (HN : New [readme_config] = Returns readme_engine)
    by (vm_compute; reflexivity).
  assert (Ha : Algorithm (cfg readme_engine) <> AlgorithmMD5) by discriminate.
  assert (Hs : Skew (cfg readme_engine) < MaxInt64) by reflexivity.
  assert (Hl : Z.of_nat (String.length "000000") = Digits (cfg readme_engine))
    by reflexivity.
  assert (Hd : Forall is_digit_byte (bytes_of_string "000000"))
    by (repeat constructor; discriminate).
  assert (Hf : 2 * Skew (cfg readme_engine) + 1 < Z.of_nat 4) by reflexivity.
  repeat apply conj; [exact HN | exact Ha | exact Hs | exact Hl | exact Hd | exact Hf | ].
  destruct (X15_validation_window _ _ _ (-100) 4 HN Ha Hs Hl Hd Hf) as (b & Hb & _).
  exists b. exact Hb.
Defined.

(** The truncated quotient by a positive period, and its product with the
    period, lie between 0 and the dividend. *)
Lemma quot_mul_between t p :
  0 < p ->
  (0 <= t -> 0 <= Z.quot t p <= t /\ 0 <= Z.quot t p * p <= t) /\
  (t <= 0 -> t <= Z.quot t p <= 0 /\ t <= Z.quot t p * p <= 0).
Proof.
  intros Hp. split; intros Ht.
  - rewrite Z.quot_div_nonneg by lia.
    pose proof (Z.div_pos t p Ht Hp) as H0.
    pose proof (Z.mul_div_le t p Hp) as H1.
    generalize dependent (t / p). intros q H0 H1.
    repeat split; nia.
  - assert (E : Z.quot t p = - (- t / p)).
    { rewrite <- (Z.opp_involutive t) at 1. rewrite Z.quot_opp_l by lia.
      now rewrite Z.quot_div_nonneg by lia. }
    rewrite E.
    pose proof (Z.div_pos (- t) p ltac:(lia) Hp) as H0.
    pose proof (Z.mul_div_le (- t) p Hp) as H1.
    generalize dependent (- t / p). intros q _ H0 H1.
    repeat split; nia.
Qed.

(** The code depends on the instant through its time step only. *)
Lemma code_at_same_step o t1 t2 :
  Z.quot t1 (Period (cfg o)) = Z.quot t2 (Period (cfg o)) ->
  code_at o t1 = code_at o t2.
Proof. intros H. unfold code_at, hmacResult_at. now rewrite H. Qed.

(** X16: what [Generate] returns is accepted by [Validate] as long as the
    clock has not moved by more than [Skew] time steps, in either direction:
    on an engine whose algorithm is not MD5, the code generated at clock
    reading [t1] validates at every reading [t2] whose time step differs from
    that of [t1] by at most [Skew]. *)
Theorem X16_generated_code_validates :
  forall (config : list Config) (o : TOTP) (t1 t2 : Z) (s : string) (e : error)
         (fuel : nat),
  New config = Returns o ->
  Algorithm (cfg o) <> AlgorithmMD5 ->
  Skew (cfg o) < MaxInt64 ->
  MinInt64 <= t1 <= MaxInt64 ->
  MinInt64 <= t2 <= MaxInt64 ->
  Generate t1 o = Returns (s, e) ->
  Z.abs (Z.quot t1 (Period (cfg o)) - Z.quot t2 (Period (cfg o))) <= Skew (cfg o) ->
  2 * Skew (cfg o) + 1 < Z.of_nat fuel ->
  Validate fuel t2 o s = Some (Returns (true, nil_error)).
Proof.
  intros config o t1 t2 s e fuel HN Ha Hs Ht1 Ht2 HG Hq Hfuel.
  unfold Generate in HG. unfold Validate.
  destruct (New_engine _ _ HN) as (_ & Hd & HP & Hsk & Hdiv).
  destruct (GenerateForTime_Returns_inv _ _ _ _ _ HN HG) as [-> _].
  destruct (code_at_digits config o t1 HN) as [Hlen Hdig].
  destruct (ValidateForTime_window_code_at config o (code_at o t1) t2 fuel
              HN Ha Hs Hlen Hdig Hfuel) as (b & Hb & Hiff).
  rewrite Hb. f_equal. f_equal. f_equal. apply Hiff.
  pose proof (quot_mul_between t1 (Period (cfg o)) HP) as [B1 B1'].
  pose proof (quot_mul_between t2 (Period (cfg o)) HP) as [B2 B2'].
  remember (Z.quot t1 (Period (cfg o))) as q1 eqn:E1.
  remember (Z.quot t2 (Period (cfg o))) as q2 eqn:E2.
  unfold MinInt64, MaxInt64 in *.
  exists (q1 - q2). split; [lia|].
  unfold window_instant.
  rewrite (int64_small q2) by (unfold MinInt64, MaxInt64; lia).
  replace (q2 + (q1 - q2)) with q1 by lia.
  rewrite (int64_small q1) by (unfold MinInt64, MaxInt64; lia).
  rewrite (int64_small (q1 * Period (cfg o)))
    by (unfold MinInt64, MaxInt64; lia).
  apply code_at_same_step. rewrite Z.quot_mul by lia. exact E1.
Qed.

Lemma X16_generated_code_validates_witness :
  New [readme_config] = Returns readme_engine /\
  Generate 59 readme_engine = Returns ("996554"%string, nil_error) /\
  Z.abs (Z.quot 59 (Period (cfg readme_engine))
         - Z.quot 89 (Period (cfg readme_engine))) <= Skew (cfg readme_engine) /\
  Validate 4 89 readme_engine "996554" = Some (Returns (true, nil_error)).
Proof.
  assert (HN : New [readme_config] = Returns readme_engine)
    by (vm_compute; reflexivity).
  assert (HG : Generate 59 readme_engine = Returns ("996554"%string, nil_error))
    by (vm_compute; reflexivity).
  assert (Hq : Z.abs (Z.quot 59 (Period (cfg readme_engine))
                      - Z.quot 89 (Period (cfg readme_engine)))
               <= Skew (cfg readme_engine)) by discriminate.
  split; [exact HN|]. split; [exact HG|]. split; [exact Hq|].
  apply (X16_generated_code_validates [readme_config] readme_engine 59 89
           "996554" nil_error 4 HN).
  - discriminate.
  - reflexivity.
  - split; discriminate.
  - split; discriminate.
  - exact HG.
  - exact Hq.
  - reflexivity.
Defined.

(** ** The largest skew *)

(** X17: with the skew set to [MaxInt64] the loop counter wraps around
    instead of passing its bound, so on an engine whose algorithm is not MD5
    a candidate that passes the format check but holds a byte outside the
    ASCII digits keeps the scan running: no amount of fuel makes
    [ValidateForTime] return. *)
Theorem X17_max_skew_never_returns :
  forall (config : list Config) (o : TOTP) (totp : string) (t : Z) (fuel : nat),
  New config = Returns o ->
  Algorithm (cfg o) <> AlgorithmMD5 ->
  Skew (cfg o) = MaxInt64 ->
  Z.of_nat (String.length totp) = Digits (cfg o) ->
  isValidInteger totp = true ->
  (exists b, In b (bytes_of_string totp) /\ ~ is_digit_byte b) ->
  ValidateForTime fuel o totp t = None.
Proof.
  intros config o totp t fuel HN Ha Hs Hlen Hv (x & Hin & Hx).
  destruct (New_engine _ _ HN) as (_ & Hd & HP & Hsk & Hdiv).
  unfold ValidateForTime. rewrite Hlen, Z.eqb_refl, Hv. cbn [negb orb].
  unfold div64. destruct (Z.eqb_spec (Period (cfg o)) 0); [lia|].
  apply ValidateForTime_loop_max_skew.
  - exact Hs.
  - intros y. now apply (GenerateForTime_not_MD5 config).
  - intros y Hy. rewrite <- Hy in Hin.
    destruct (code_at_digits config o y HN) as [_ Hdig].
    rewrite Forall_forall in Hdig. exact (Hx (Hdig x Hin)).
  - apply int64_range.
Qed.

Lemma X17_max_skew_never_returns_witness :
  New [max_skew_config] = Returns max_skew_engine /\
  Skew (cfg max_skew_engine) = MaxInt64 /\
  isValidInteger arabic_zeros = true /\
  ValidateForTime 1000 max_skew_engine arabic_zeros 59 = None.
Proof.
  assert (HN : New [max_skew_config] = Returns max_skew_engine)
    by (vm_compute; reflexivity).
  assert (Hv : isValidInteger arabic_zeros = true) by reflexivity.
  split; [exact HN|]. split; [reflexivity|]. split; [exact Hv|].
  apply (X17_max_skew_never_returns [max_skew_config] max_skew_engine
           arabic_zeros 59 1000 HN).
  - discriminate.
  - reflexivity.
  - reflexivity.
  - exact Hv.
  - exists 0xD9. split; [left; reflexivity|].
    intros [_ H]. exact (H eq_refl).
Defined.

(** ** isValidInteger *)

Lemma isValidInteger_loop_ascii_iff : forall p fuel,
  Forall (fun b => 0 <= b < 128) p -> (length p <= fuel)%nat ->
  (isValidInteger_loop fuel p = true <-> Forall is_digit_byte p).
Proof.
  induction p as [|b tl IH]; intros fuel Hp Hf.
  - destruct fuel; split; intros; try reflexivity; constructor.
  - destruct fuel as [|f]; [cbn [length] in Hf; lia|].
    inversion Hp as [|? ? Hb Htl]; subst.
    cbn [isValidInteger_loop]. unfold utf8.DecodeRune.
    destruct (Z.ltb_spec b 0x80) as [Hlt|Hge]; [|lia].
    unfold unicode.IsDigit, unicode.MaxLatin1.
    destruct (Z.leb_spec b 0xFF) as [Hle|Hgt]; [|lia].
    cbn [skipn].
    destruct (Z.leb_spec 48 b) as [H0|H0], (Z.leb_spec b 57) as [H9|H9];
      cbn [andb negb].
    + rewrite (IH f Htl ltac:(cbn [length] in Hf; lia)).
      split; [intros Ht; constructor; [unfold is_digit_byte; lia|exact Ht]
             |intros Ht; now inversion Ht].
    + split; [discriminate|]. intros Ht; inversion Ht as [|? ? Hd _].
      unfold is_digit_byte in Hd. lia.
    + split; [discriminate|]. intros Ht; inversion Ht as [|? ? Hd _].
      unfold is_digit_byte in Hd. lia.
    + split; [discriminate|]. intros Ht; inversion Ht as [|? ? Hd _].
      unfold is_digit_byte in Hd. lia.
Qed.

(** X18: on a string of ASCII bytes [isValidInteger] answers true exactly
    when every byte is one of the digits 0 to 9; the empty string is
    accepted. *)
Theorem X18_isValidInteger_ascii : forall s : string,
  Forall (fun b => 0 <= b < 128) (bytes_of_string s) ->
  (isValidInteger s = true <-> Forall is_digit_byte (bytes_of_string s)).
Proof.
  intros s H. unfold isValidInteger. cbv zeta.
  now apply isValidInteger_loop_ascii_iff.
Qed.

Lemma X18_isValidInteger_ascii_witness :
  Forall (fun b => 0 <= b < 128) (bytes_of_string "12 456") /\
  isValidInteger "12 456" = false /\
  ~ Forall is_digit_byte (bytes_of_string "12 456") /\
  isValidInteger "" = true.
Proof.
  assert (H : Forall (fun b => 0 <= b < 128) (bytes_of_string "12 456"))
    by (repeat constructor; discriminate).
  assert (Hf : isValidInteger "12 456" = false) by reflexivity.
  split; [exact H|]. split; [exact Hf|]. split; [|reflexivity].
  intros Hd. apply (X18_isValidInteger_ascii "12 456" H) in Hd.
  rewrite Hf in Hd. discriminate Hd.
Defined.

(** ** Codes of different widths *)

(** The low digits of a value do not depend on its higher ones. *)
Lemma digits_of_mod : forall n m x,
  0 <= x -> (n <= m)%nat ->
  digits_of n (x mod 10 ^ Z.of_nat m) = digits_of n x.
Proof.
  induction n as [|i IH]; intros m x Hx Hm.
  - reflexivity.
  - destruct m as [|m']; [lia|].
    cbn [digits_of].
    assert (Hp : 0 < 10 ^ Z.of_nat m') by (apply Z.pow_pos_nonneg; lia).
    rewrite Nat2Z.inj_succ, Z.pow_succ_r by lia.
    pose proof (Z.mod_pos_bound x (10 * 10 ^ Z.of_nat m') ltac:(lia)) as Hb.
    rewrite !Z.quot_div_nonneg, !Z.rem_mod_nonneg by lia.
    assert (Hq : (x mod (10 * 10 ^ Z.of_nat m')) / 10
                 = (x / 10) mod 10 ^ Z.of_nat m').
    { rewrite Z.rem_mul_r by lia.
      rewrite (Z.mul_comm 10 ((x / 10) mod 10 ^ Z.of_nat m')).
      rewrite Z.div_add by lia.
      rewrite (Z.div_small (x mod 10) 10) by (apply Z.mod_pos_bound; lia).
      lia. }
    assert (Hr : (x mod (10 * 10 ^ Z.of_nat m')) mod 10 = x mod 10).
    { rewrite Z.rem_mul_r by lia.
      rewrite (Z.mul_comm 10 ((x / 10) mod 10 ^ Z.of_nat m')).
      rewrite Z.mod_add by lia. apply Z.mod_mod. lia. }
    rewrite Hq, Hr.
    rewrite IH; [reflexivity| |lia].
    apply Z.div_pos; lia.
Qed.

(** The rendering of [k + n] digits ends in the rendering of [n] digits. *)
Lemma digits_of_app : forall n k x,
  0 <= x ->
  digits_of (k + n) x
  = digits_of k (x / 10 ^ Z.of_nat n) ++ digits_of n x.
Proof.
  induction n as [|i IH]; intros k x Hx.
  - rewrite Nat.add_0_r. cbn [digits_of Z.of_nat]. rewrite Z.pow_0_r, Z.div_1_r.
    now rewrite app_nil_r.
  - replace (k + S i)%nat with (S (k + i)) by lia.
    cbn [digits_of]. rewrite Z.quot_div_nonneg by lia.
    rewrite IH by (apply Z.div_pos; lia).
    rewrite Nat2Z.inj_succ, Z.pow_succ_r by lia.
    rewrite Z.div_div by (try apply Z.pow_pos_nonneg; lia).
    now rewrite app_assoc.
Qed.

Lemma skipn_digits_of n k x :
  0 <= x -> skipn k (digits_of (k + n) x) = digits_of n x.
Proof.
  intros Hx. rewrite digits_of_app by exact Hx.
  rewrite skipn_app, digits_of_length, Nat.sub_diag.
  rewrite <- (digits_of_length k (x / 10 ^ Z.of_nat n)) at 1.
  now rewrite skipn_all.
Qed.

(** The bytes of the code of an engine built by [New]. *)
Lemma bytes_of_code_at config o t :
  New config = Returns o ->
  bytes_of_string (code_at o t)
  = digits_of (Z.to_nat (Digits (cfg o)))
      (truncation (hmacResult_at o t) mod 10 ^ Digits (cfg o)).
Proof.
  intros HN. destruct (New_engine _ _ HN) as (_ & Hd & _ & _ & Hdiv).
  pose proof (truncation_range (hmacResult_at o t)) as Ht.
  unfold code_at. rewrite Hdiv.
  assert (Hp : 0 < 10 ^ Digits (cfg o)) by (apply Z.pow_pos_nonneg; lia).
  rewrite Z.rem_mod_nonneg by lia.
  apply bytes_of_string_of_bytes.
  eapply Forall_impl; [exact is_digit_byte_is_byte|].
  apply digits_of_digit. apply Z.mod_pos_bound. exact Hp.
Qed.

(** X19: engines that differ in the number of digits only agree on the low
    digits: at every instant the code of the engine with fewer digits is
    the end of the code of the engine with more digits. *)
Theorem X19_shorter_code_is_suffix :
  forall (c : Config) (d1 d2 : Z) (o1 o2 : TOTP) (t : Z)
         (s1 s2 : string) (e1 e2 : error),
  DigitsFour <= d1 -> d1 <= d2 -> d2 <= DigitsEight ->
  New [set_Digits c d1] = Returns o1 ->
  New [set_Digits c d2] = Returns o2 ->
  GenerateForTime o1 t = Returns (s1, e1) ->
  GenerateForTime o2 t = Returns (s2, e2) ->
  bytes_of_string s1 = skipn (Z.to_nat (d2 - d1)) (bytes_of_string s2).
Proof.
  intros c d1 d2 o1 o2 t s1 s2 e1 e2 H4 H12 H8 HN1 HN2 HG1 HG2.
  unfold DigitsFour, DigitsEight in *.
  destruct (GenerateForTime_Returns_inv _ _ _ _ _ HN1 HG1) as [-> _].
  destruct (GenerateForTime_Returns_inv _ _ _ _ _ HN2 HG2) as [-> _].
  rewrite (bytes_of_code_at _ _ t HN1), (bytes_of_code_at _ _ t HN2).
  destruct (New_Returns _ _ HN1) as (Hc1 & Hs1 & _).
  destruct (New_Returns _ _ HN2) as (Hc2 & Hs2 & _).
  rewrite configDefault_cons in Hc1, Hs1, Hc2, Hs2.
  cbn [set_Digits Algorithm Digits Period Secret Skew] in Hc1, Hs1, Hc2, Hs2.
  unfold DigitsFour, DigitsEight, DigitsSix in Hc1, Hc2.
  assert (E1 : (d1 <? 4) || (8 <? d1) = false)
    by (apply orb_false_intro; [apply Z.ltb_ge|apply Z.ltb_ge]; lia).
  assert (E2 : (d2 <? 4) || (8 <? d2) = false)
    by (apply orb_false_intro; [apply Z.ltb_ge|apply Z.ltb_ge]; lia).
  rewrite E1 in Hc1. rewrite E2 in Hc2.
  assert (Hsec : decodedSecret o1 = decodedSecret o2)
    by (rewrite Hs1 in Hs2; congruence).
  assert (Hh : hmacResult_at o1 t = hmacResult_at o2 t).
  { unfold hmacResult_at. rewrite Hsec, Hc1, Hc2. reflexivity. }
  rewrite Hh, Hc1, Hc2. cbn [Digits].
  pose proof (truncation_range (hmacResult_at o2 t)) as Ht.
  remember (truncation (hmacResult_at o2 t)) as T eqn:ET. clear ET.
  replace (10 ^ d1) with (10 ^ Z.of_nat (Z.to_nat d1))
    by (rewrite Z2Nat.id; [reflexivity|lia]).
  replace (10 ^ d2) with (10 ^ Z.of_nat (Z.to_nat d2))
    by (rewrite Z2Nat.id; [reflexivity|lia]).
  rewrite !digits_of_mod by lia.
  replace (Z.to_nat d2) with (Z.to_nat (d2 - d1) + Z.to_nat d1)%nat by lia.
  symmetry. apply skipn_digits_of. lia.
Qed.

Lemma X19_shorter_code_is_suffix_witness :
  New [set_Digits readme_config 4] = Returns (readme_engine_of 4) /\
  New [set_Digits readme_config 8] = Returns (readme_engine_of 8) /\
  GenerateForTime (readme_engine_of 4) 59 = Returns ("6554"%string, nil_error) /\
  GenerateForTime (readme_engine_of 8) 59
  = Returns ("41996554"%string, nil_error) /\
  bytes_of_string "6554" = skipn (Z.to_nat (8 - 4)) (bytes_of_string "41996554").
Proof.
  assert (HN1 : New [set_Digits readme_config 4] = Returns (readme_engine_of 4))
    by (vm_compute; reflexivity).
  assert (HN2 : New [set_Digits readme_config 8] = Returns (readme_engine_of 8))
    by (vm_compute; reflexivity).
  assert (HG1 : GenerateForTime (readme_engine_of 4) 59
                = Returns ("6554"%string, nil_error))
    by (vm_compute; reflexivity).
  assert (HG2 : GenerateForTime (readme_engine_of 8) 59
                = Returns ("41996554"%string, nil_error))
    by (vm_compute; reflexivity).
  split; [exact HN1|]. split; [exact HN2|].
  split; [exact HG1|]. split; [exact HG2|].
  apply (X19_shorter_code_is_suffix readme_config 4 8
           (readme_engine_of 4) (readme_engine_of 8) 59
           "6554" "41996554" nil_error nil_error).
  - discriminate.
  - discriminate.
  - discriminate.
  - exact HN1.
  - exact HN2.
  - exact HG1.
  - exact HG2.
Defined.

(** ** The tests of the package *)

Lemma ValidateForTime_loop_more_fuel : forall n fuel o totp baseTimeStep i r,
  ValidateForTime_loop fuel o totp baseTimeStep i = Some r ->
  ValidateForTime_loop (n + fuel) o totp baseTimeStep i = Some r.
Proof.
  induction n as [|n IH]; intros fuel o totp baseTimeStep i r H.
  - exact H.
  - change (S n + fuel)%nat with (S (n + fuel)).
    apply ValidateForTime_loop_fuel. now apply IH.
Qed.

Lemma ValidateForTime_more_fuel n fuel o totp t r :
  ValidateForTime fuel o totp t = Some r ->
  ValidateForTime (n + fuel) o totp t = Some r.
Proof.
  unfold ValidateForTime.
  destruct (negb _ || negb _); [exact (fun H => H)|].
  destruct (div64 t (Period (cfg o))); [|exact (fun H => H)].
  apply ValidateForTime_loop_more_fuel.
Qed.

Lemma validate_row_more_fuel n fuel skew tx r :
  validate_row fuel skew tx = Some r ->
  validate_row (n + fuel) skew tx = Some r.
Proof.
  unfold validate_row.
  destruct (New [tc_config tx skew]) as [generator|msg]; [|exact (fun H => H)].
  destruct (ValidateForTime fuel generator (tc_TOTP tx) (tc_TS tx))
    as [v|] eqn:E; [|discriminate].
  rewrite (ValidateForTime_more_fuel n _ _ _ _ _ E). exact (fun H => H).
Qed.

Lemma run_rows_more_fuel n fuel skew : forall rows r,
  run_rows (validate_row fuel skew) rows = Some r ->
  run_rows (validate_row (n + fuel) skew) rows = Some r.
Proof.
  induction rows as [|tx rest IH]; intros r H.
  - exact H.
  - cbn [run_rows] in *.
    destruct (validate_row fuel skew tx) as [v|] eqn:E; [|discriminate].
    rewrite (validate_row_more_fuel n _ _ _ _ E).
    destruct v as [errs|msg]; [|exact H].
    destruct (run_rows (validate_row fuel skew) rest) as [v'|] eqn:E';
      [|discriminate].
    rewrite (IH _ eq_refl). exact H.
Qed.

(** X20: the three tests of the package report no failure: no call of
    [t.Errorf] is reached and nothing panics.  Two loop iterations are
    enough for the validations of [TestValidateRFCMatrix] (skew 0) and four
    for those of [TestValidateSkew] (skew 1); more fuel changes nothing. *)
Theorem X20_package_tests_pass : forall n : nat,
  TestGenerateRFCTCs = Some (Returns []) /\
  TestValidateRFCMatrix (n + 2) = Some (Returns []) /\
  TestValidateSkew (n + 4) = Some (Returns []).
Proof.
  intros n. split; [vm_compute; reflexivity|]. split.
  - apply run_rows_more_fuel. vm_compute. reflexivity.
  - apply run_rows_more_fuel. vm_compute. reflexivity.
Qed.
